(** * EduAccess: resource lifecycle, moderation workflow and bookkeeping

    A shallow embedding of the Express/Mongoose back end of EduAccess:
    the Mongoose models (Resource, ModerationLog, Download, School), the two
    storage services, and the controllers that moderate, list, download,
    delete and count resources.

    Conventions of the embedding.
    - A MongoDB collection is a finite map from [_id] to document.
    - An [async] function is a computation in the monad [M]: it threads the
      world (database, stored files, console, clock) and either returns a
      value or throws.
    - An ObjectId is a natural number; a Date is an integer (milliseconds);
      a JavaScript number that counts something is an integer.
    - Strings are byte strings; [String.length] stands for [.length]. *)

From stdpp Require Import gmap strings list sorting.
From Stdlib Require Import ZArith Ascii.

(** ** JavaScript string helpers *)

Module Js.

(** [String.prototype.trim], on the ASCII white space characters. *)
Fixpoint trimStart (s : string) : string :=
  match s with
  | String c s' => if Ascii.is_space c then trimStart s' else s
  | EmptyString => EmptyString
  end.

Definition trimEnd (s : string) : string :=
  String.rev (trimStart (String.rev s)).

Definition trim (s : string) : string := trimEnd (trimStart s).

(** Truthiness of a string: only the empty string is falsy. *)
Definition truthy (s : string) : bool := negb (String.eqb s "").

(** Truthiness of a possibly [undefined] string. *)
Definition truthy_opt (o : option string) : bool :=
  match o with
  | Some s => truthy s
  | None => false
  end.

(** [s.split(sep)] for a one-character separator. *)
Fixpoint split_go (sep : Ascii.ascii) (cur : string) (s : string) : list string :=
  match s with
  | EmptyString => [String.rev cur]
  | String c s' =>
      if Ascii.eqb c sep
      then String.rev cur :: split_go sep EmptyString s'
      else split_go sep (String c cur) s'
  end.

Definition split (sep : Ascii.ascii) (s : string) : list string :=
  split_go sep EmptyString s.

End Js.

(** ** Data model *)

Definition ObjectId := nat.

(** [resourceStatus = ['pending', 'approved', 'rejected']] *)
Inductive Status := pending | approved | rejected.

Global Instance Status_eq_dec : EqDecision Status.
Proof. solve_decision. Defined.

Definition status_name (s : Status) : string :=
  match s with
  | pending => "pending"
  | approved => "approved"
  | rejected => "rejected"
  end.

(** [moderationActions = ['approved', 'rejected']] *)
Inductive Action := action_approved | action_rejected.

Inductive Role := student | teacher | admin | alumni.

Global Instance Role_eq_dec : EqDecision Role.
Proof. solve_decision. Defined.

Module File.
Record t := mk {
  originalName : string;
  storedName : string;
  mimeType : string;
  size : Z;
  key : string
}.
End File.

Module Resource.
Record t := mk {
  _id : ObjectId;
  title : string;
  description : string;
  file : File.t;
  uploader : ObjectId;
  school : ObjectId;
  subject : string;
  grade : string;
  strand : option string;
  tags : list string;
  status : Status;
  moderationNotes : option string;
  moderatedBy : option ObjectId;
  moderatedAt : option Z;
  downloadCount : Z;
  isPublic : bool;
  createdAt : Z;
  updatedAt : Z
}.

(** The assignments of a moderation decision:
    [status], [moderatedBy], [moderatedAt], [moderationNotes]. *)
Definition set_moderation (r : t) (s : Status) (by_ : option ObjectId)
    (at_ : option Z) (notes : option string) : t :=
  mk (_id r) (title r) (description r) (file r) (uploader r) (school r)
     (subject r) (grade r) (strand r) (tags r)
     s notes by_ at_
     (downloadCount r) (isPublic r) (createdAt r) (updatedAt r).

Definition set_downloadCount (r : t) (n : Z) : t :=
  mk (_id r) (title r) (description r) (file r) (uploader r) (school r)
     (subject r) (grade r) (strand r) (tags r)
     (status r) (moderationNotes r) (moderatedBy r) (moderatedAt r)
     n (isPublic r) (createdAt r) (updatedAt r).

(** The fields an edit may assign. *)
Definition set_metadata (r : t) (title' description' subject' grade' : string)
    (strand' : option string) (tags' : list string) (isPublic' : bool) : t :=
  mk (_id r) title' description' (file r) (uploader r) (school r)
     subject' grade' strand' tags'
     (status r) (moderationNotes r) (moderatedBy r) (moderatedAt r)
     (downloadCount r) isPublic' (createdAt r) (updatedAt r).

Definition set_updatedAt (r : t) (now : Z) : t :=
  mk (_id r) (title r) (description r) (file r) (uploader r) (school r)
     (subject r) (grade r) (strand r) (tags r)
     (status r) (moderationNotes r) (moderatedBy r) (moderatedAt r)
     (downloadCount r) (isPublic r) (createdAt r) now.
End Resource.

Module ModerationLog.
Record t := mk {
  _id : ObjectId;
  resource : ObjectId;
  moderator : ObjectId;
  action : Action;
  notes : option string;
  previousStatus : Status;
  newStatus : Status;
  createdAt : Z
}.
End ModerationLog.

Module Download.
Inductive SyncStatus := synced | sync_pending | failed.

Record t := mk {
  _id : ObjectId;
  user : ObjectId;
  resource : ObjectId;
  downloadedAt : Z;
  ipAddress : option string;
  userAgent : option string;
  offline : bool;
  syncStatus : SyncStatus
}.
End Download.

Module School.
Record Statistics := mkStatistics {
  totalResources : Z;
  totalDownloads : Z;
  activeUsers : Z
}.

Record t := mk {
  _id : ObjectId;
  name : string;
  code : string;
  city : string;
  state : string;
  isActive : bool;
  admin : option ObjectId;
  statistics : Statistics
}.

Definition set_statistics (s : t) (st : Statistics) : t :=
  mk (_id s) (name s) (code s) (city s) (state s) (isActive s) (admin s) st.
End School.

(** [userSchema] of models/User.js, by the paths that the controllers
    read: the role, one of [userRoles], the school, and [isActive]. *)
Module User.
Record t := mk {
  _id : ObjectId;
  role : Role;
  school : ObjectId;
  isActive : bool
}.
End User.

(** ** The world a request runs in *)

(** The collections of the database. *)
Record Db := mkDb {
  resources : gmap ObjectId Resource.t;
  moderationlogs : gmap ObjectId ModerationLog.t;
  downloads : gmap ObjectId Download.t;
  schools : gmap ObjectId School.t;
  users : gmap ObjectId User.t
}.

(** [this.driver] of the [StorageService] of services/storageService.js:
    [process.env.STORAGE_DRIVER || 'local'], by the service that the
    constructor chooses for it, the one of S3 for ['s3'] and the local
    one for anything else. *)
Inductive Driver := LocalDriver | S3Driver.

(** What the running process sees besides the database.  [faults] scripts
    the availability of the remote services: every call to the database or
    to S3 takes the head of the list, and [true] makes that call reject
    without effect; the empty list means that every call gets through. *)
Record World := mkWorld {
  db : Db;
  disk : gset string;
  bucket : gset string;
  console : list string;
  clock : Z;
  oidgen : ObjectId;
  faults : list bool;
  driver : Driver;
  text_index : string → Resource.t → bool
}.

Definition set_db (w : World) (d : Db) : World :=
  mkWorld d (disk w) (bucket w) (console w) (clock w) (oidgen w) (faults w)
          (driver w) (text_index w).

Definition set_disk (w : World) (d : gset string) : World :=
  mkWorld (db w) d (bucket w) (console w) (clock w) (oidgen w) (faults w)
          (driver w) (text_index w).

Definition set_bucket (w : World) (b : gset string) : World :=
  mkWorld (db w) (disk w) b (console w) (clock w) (oidgen w) (faults w)
          (driver w) (text_index w).

Definition set_console (w : World) (c : list string) : World :=
  mkWorld (db w) (disk w) (bucket w) c (clock w) (oidgen w) (faults w)
          (driver w) (text_index w).

Definition set_oidgen (w : World) (n : ObjectId) : World :=
  mkWorld (db w) (disk w) (bucket w) (console w) (clock w) n (faults w)
          (driver w) (text_index w).

Definition set_faults (w : World) (f : list bool) : World :=
  mkWorld (db w) (disk w) (bucket w) (console w) (clock w) (oidgen w) f
          (driver w) (text_index w).

(** ** Errors and the monad of asynchronous code *)

Inductive Err :=
| NetworkError
| DuplicateKey (index : string)
| ValidationError (path : string) (message : string)
| HookError (message : string)
| TypeError (message : string)
| ENOENT (path : string)
| MongoError (message : string).

Inductive Result (A : Type) :=
| Ok (a : A)
| Throw (e : Err).
Arguments Ok {A} a.
Arguments Throw {A} e.

Definition M (A : Type) : Type := World → Result A * World.

Definition ret {A} (a : A) : M A := λ w, (Ok a, w).

Definition throw {A} (e : Err) : M A := λ w, (Throw e, w).

Definition bind {A B} (c : M A) (k : A → M B) : M B :=
  λ w, match c w with
       | (Ok a, w') => k a w'
       | (Throw e, w') => (Throw e, w')
       end.

(** [try { c } catch (error) { h error }] *)
Definition try_catch {A} (c : M A) (h : Err → M A) : M A :=
  λ w, match c w with
       | (Ok a, w') => (Ok a, w')
       | (Throw e, w') => h e w'
       end.

Declare Scope async_scope.
Delimit Scope async_scope with async.
Notation "x <- c ;; k" := (bind c (λ x, k))
  (at level 100, c at next level, right associativity) : async_scope.
Notation "c ;;; k" := (bind c (λ _, k))
  (at level 100, right associativity) : async_scope.
Local Open Scope async_scope.

Definition get_world : M World := λ w, (Ok w, w).

Definition modify_world (f : World → World) : M unit := λ w, (Ok tt, f w).

(** One round trip to a remote service. *)
Definition remote_call : M unit :=
  λ w, match faults w with
       | [] => (Ok tt, w)
       | false :: fs => (Ok tt, set_faults w fs)
       | true :: fs => (Throw NetworkError, set_faults w fs)
       end.

(** [console.error(line)] *)
Definition console_error (line : string) : M unit :=
  modify_world (λ w, set_console w (console w ++ [line])).

(** [new Date()] *)
Definition new_Date : M Z := λ w, (Ok (clock w), w).

(** A new ObjectId. *)
Definition new_ObjectId : M ObjectId :=
  λ w, (Ok (oidgen w), set_oidgen w (S (oidgen w))).

(** ** Requests and responses *)

Module Req.

(** [req.user], set by the authentication middleware. *)
Record AuthUser := mkUser {
  id : ObjectId;
  role : Role;
  school : ObjectId
}.

(** A [tags] parameter is a string or an array of strings. *)
Inductive Tags :=
| TagsString (s : string)
| TagsArray (l : list string).

(** [req.file], as the upload middleware leaves it. *)
Record UploadedFile := mkFile {
  originalname : string;
  filename : option string;
  mimetype : string;
  size : Z;
  key : option string
}.

(** [req.body]: every field may be [undefined]. *)
Record Body := mkBody {
  notes : option string;
  title : option string;
  description : option string;
  subject : option string;
  grade : option string;
  strand : option string;
  tags : option Tags;
  isPublic : option string
}.

(** [req.query].  [page] and [limit] hold the value of [parseInt] on the
    parameter, [None] standing for NaN; [school] and [uploader] hold
    well-formed ids. *)
Record Query := mkQuery {
  q_page : option Z;
  q_limit : option Z;
  q_search : option string;
  q_subject : option string;
  q_grade : option string;
  q_school : option ObjectId;
  q_strand : option string;
  q_tags : option Tags;
  q_uploader : option ObjectId;
  q_status : option string
}.

Record t := mk {
  user : option AuthUser;
  params_id : ObjectId;
  body : Body;
  query : Query;
  file : option UploadedFile;
  ip : option string;
  userAgent : option string;
  validationErrors : list string
}.

Definition no_body : Body := mkBody None None None None None None None None.

Definition no_query : Query :=
  mkQuery None None None None None None None None None None.

Definition set_status (q : Query) (s : option string) : Query :=
  mkQuery (q_page q) (q_limit q) (q_search q) (q_subject q) (q_grade q)
          (q_school q) (q_strand q) (q_tags q) (q_uploader q) s.

Definition set_query (r : t) (q : Query) : t :=
  mk (user r) (params_id r) (body r) q (file r) (ip r) (userAgent r)
     (validationErrors r).

(** [req.user?.role === 'admin'] *)
Definition is_admin (r : t) : bool :=
  match user r with
  | Some u => bool_decide (role u = admin)
  | None => false
  end.

End Req.

(** A download URL, kept symbolic: the local service answers
    [/api/files/<key>?name=<encodeURIComponent(originalName)>], the S3
    service a URL signed for the bucket object, with its disposition
    header and its expiry in seconds. *)
Inductive Url :=
| LocalUrl (key : string) (name : string)
| SignedUrl (key : string) (disposition : string) (expiresIn : Z).

Record Pagination := mkPagination {
  page : Z;
  limit : Z;
  total : Z;
  pages : Z
}.

(** The JSON bodies the controllers send. *)
Inductive Payload :=
| Failure (message : string)
| ValidationFailed (errors : list string)
| Success (message : string)
| ResourceData (message : option string) (resource : Resource.t)
| DownloadData (downloadUrl : Url) (id : ObjectId) (title : string)
    (file : File.t)
| ListData (resources : list Resource.t) (subjects grades : list string)
    (pagination : Pagination)
| PendingData (resources : list Resource.t) (pagination : Pagination)
| RelatedData (resources : list Resource.t)
| StatisticsData (totalResources totalUsers totalDownloads : Z)
    (popularSubjects : list (string * Z))
    (recentResources : list Resource.t).

(** What a wrapped handler does with a request: it sends
    [res.status(code).json(payload)], or it passes a rejection to [next]. *)
Inductive Response :=
| Json (code : nat) (payload : Payload)
| Next (e : Err).

(** Modelled from the spec: [asyncHandler] of utils/asyncHandler.js is not
    among the sources at hand.  An error that a handler does not catch is
    surfaced to the caller by the error middleware; [Next e] stands for
    that outcome. *)
Definition asyncHandler (fn : Req.t → M Response) (req : Req.t) (w : World)
    : Response * World :=
  match fn req w with
  | (Ok res, w') => (res, w')
  | (Throw e, w') => (Next e, w')
  end.

(** [req.user.<field>]: reading a property of [undefined] throws. *)
Definition req_user (req : Req.t) : M Req.AuthUser :=
  match Req.user req with
  | Some u => ret u
  | None => throw (TypeError "Cannot read properties of undefined")
  end.

(** ** Mongoose: schema validation *)

Definition first_error (checks : list (option Err)) : option Err :=
  foldr (λ c acc, match c with Some e => Some e | None => acc end) None checks.

(** [required: true] on a string path: the empty string does not pass. *)
Definition required (path : string) (s : string) : option Err :=
  if String.eqb s "" then Some (ValidationError path "required") else None.

(** [maxlength: [n, message]] *)
Definition maxlength (path : string) (n : nat) (message : string)
    (s : string) : option Err :=
  if (n <? String.length s)%nat then Some (ValidationError path message)
  else None.

Definition maxlength_opt (path : string) (n : nat) (message : string)
    (o : option string) : option Err :=
  match o with
  | Some s => maxlength path n message s
  | None => None
  end.

(** The validators of [resourceSchema]. *)
Definition Resource_validate (r : Resource.t) : option Err :=
  first_error [
    required "title" (Resource.title r);
    maxlength "title" 200 "Title cannot exceed 200 characters"
      (Resource.title r);
    required "description" (Resource.description r);
    maxlength "description" 1000 "Description cannot exceed 1000 characters"
      (Resource.description r);
    required "file.originalName" (File.originalName (Resource.file r));
    required "file.storedName" (File.storedName (Resource.file r));
    required "file.mimeType" (File.mimeType (Resource.file r));
    required "file.key" (File.key (Resource.file r));
    required "subject" (Resource.subject r);
    required "grade" (Resource.grade r);
    maxlength_opt "moderationNotes" 500
      "Moderation notes cannot exceed 500 characters"
      (Resource.moderationNotes r)
  ].

(** The validators of [moderationLogSchema]. *)
Definition ModerationLog_validate (l : ModerationLog.t) : option Err :=
  maxlength_opt "notes" 500 "Notes cannot exceed 500 characters"
    (ModerationLog.notes l).

(** The table of the pre-save middleware of [moderationLogSchema]. *)
Definition validTransitions (s : Status) : list Status :=
  match s with
  | pending => [approved; rejected]
  | approved => [rejected]
  | rejected => [approved]
  end.

(** [moderationLogSchema.pre('save', ...)] *)
Definition ModerationLog_pre_save (l : ModerationLog.t) : option Err :=
  if bool_decide (ModerationLog.newStatus l
                    ∈ validTransitions (ModerationLog.previousStatus l))
  then None
  else Some (HookError "Invalid status transition").

(** ** Mongoose: the operations of the models *)

Definition set_resources (d : Db) (m : gmap ObjectId Resource.t) : Db :=
  mkDb m (moderationlogs d) (downloads d) (schools d) (users d).

Definition set_moderationlogs (d : Db) (m : gmap ObjectId ModerationLog.t)
    : Db :=
  mkDb (resources d) m (downloads d) (schools d) (users d).

Definition set_downloads (d : Db) (m : gmap ObjectId Download.t) : Db :=
  mkDb (resources d) (moderationlogs d) m (schools d) (users d).

Definition set_schools (d : Db) (m : gmap ObjectId School.t) : Db :=
  mkDb (resources d) (moderationlogs d) (downloads d) m (users d).

Definition modify_db (f : Db → Db) : M unit :=
  modify_world (λ w, set_db w (f (db w))).

(** [Resource.findById(id)], with the [populate] calls chained on the
    query: one read. *)
Definition Resource_findById (id : ObjectId) : M (option Resource.t) :=
  remote_call ;;;
  w <- get_world ;;
  ret (resources (db w) !! id).

(** [resource.save()] on a document that was read from the collection:
    validation, then one update of the stored document. *)
Definition Resource_save (r : Resource.t) : M Resource.t :=
  match Resource_validate r with
  | Some e => throw e
  | None =>
      remote_call ;;;
      now <- new_Date ;;
      let r' := Resource.set_updatedAt r now in
      modify_db (λ d, set_resources d (<[Resource._id r' := r']> (resources d))) ;;;
      ret r'
  end.

(** [await resource.populate(path, fields)]: one read; the populated
    fields only show in the rendering of the response. *)
Definition populate (path : string) : M unit := remote_call.

(** [ModerationLog.create({...})]: the [trim] setter of [notes], the
    validators, the pre-save middleware, then the insertion. *)
Definition ModerationLog_create (resource moderator : ObjectId)
    (action : Action) (notes : option string) (previousStatus newStatus : Status)
    : M ModerationLog.t :=
  id <- new_ObjectId ;;
  now <- new_Date ;;
  let l := ModerationLog.mk id resource moderator action (Js.trim <$> notes)
             previousStatus newStatus now in
  match ModerationLog_validate l with
  | Some e => throw e
  | None =>
      match ModerationLog_pre_save l with
      | Some e => throw e
      | None =>
          remote_call ;;;
          w <- get_world ;;
          match moderationlogs (db w) !! id with
          | Some _ => throw (DuplicateKey "_id_")
          | None =>
              modify_db (λ d, set_moderationlogs d (<[id := l]> (moderationlogs d))) ;;;
              ret l
          end
      end
  end.

(** ** The moderation controller *)

(** [a || null] on a string that may be undefined. *)
Definition or_null (o : option string) : option string :=
  if Js.truthy_opt o then o else None.

Definition approveResource_fn (req : Req.t) : M Response :=
  if negb (bool_decide (Req.validationErrors req = [])) then
    ret (Json 400 (ValidationFailed (Req.validationErrors req)))
  else
    found <- Resource_findById (Req.params_id req) ;;
    match found with
    | None => ret (Json 404 (Failure "Resource not found"))
    | Some resource =>
        if negb (bool_decide (Resource.status resource = pending)) then
          ret (Json 400 (Failure "Resource is not pending moderation"))
        else
          let previousStatus := Resource.status resource in
          u <- req_user req ;;
          now <- new_Date ;;
          let resource :=
            Resource.set_moderation resource approved (Some (Req.id u))
              (Some now) (or_null (Req.notes (Req.body req))) in
          resource <- Resource_save resource ;;
          ModerationLog_create (Resource._id resource) (Req.id u)
            action_approved (Req.notes (Req.body req)) previousStatus
            (Resource.status resource) ;;;
          populate "uploader" ;;;
          populate "school" ;;;
          populate "moderatedBy" ;;;
          ret (Json 200 (ResourceData (Some "Resource approved successfully")
                           resource))
    end.

Definition approveResource := asyncHandler approveResource_fn.

(** [!notes || notes.trim().length === 0] *)
Definition notes_missing (notes : option string) : bool :=
  match notes with
  | None => true
  | Some s => negb (Js.truthy s) || (String.length (Js.trim s) =? 0)%nat
  end.

Definition rejectResource_fn (req : Req.t) : M Response :=
  if negb (bool_decide (Req.validationErrors req = [])) then
    ret (Json 400 (ValidationFailed (Req.validationErrors req)))
  else
    let notes := Req.notes (Req.body req) in
    if notes_missing notes then
      ret (Json 400 (Failure "Rejection notes are required"))
    else
      found <- Resource_findById (Req.params_id req) ;;
      match found with
      | None => ret (Json 404 (Failure "Resource not found"))
      | Some resource =>
          if negb (bool_decide (Resource.status resource = pending)) then
            ret (Json 400 (Failure "Resource is not pending moderation"))
          else
            let previousStatus := Resource.status resource in
            u <- req_user req ;;
            now <- new_Date ;;
            let resource :=
              Resource.set_moderation resource rejected (Some (Req.id u))
                (Some now) notes in
            resource <- Resource_save resource ;;
            ModerationLog_create (Resource._id resource) (Req.id u)
              action_rejected notes previousStatus
              (Resource.status resource) ;;;
            populate "uploader" ;;;
            populate "school" ;;;
            populate "moderatedBy" ;;;
            ret (Json 200 (ResourceData (Some "Resource rejected successfully")
                             resource))
      end.

Definition rejectResource := asyncHandler rejectResource_fn.

(** ** Mongoose: queries over the resources *)

(** One alternative of an [$or] key. *)
Inductive Filter_or :=
| or_subject (s : string)
| or_grade (s : string)
| or_tags_in (l : list string)
| or_school (s : ObjectId).

(** The filter object of a query on resources.  A key that is absent from
    the JavaScript object is [None]. *)
Record Filter := mkFilter {
  f_ne_id : option ObjectId;
  f_status : option string;
  f_text : option string;
  f_subject : option string;
  f_grade : option string;
  f_school : option ObjectId;
  f_strand : option string;
  f_tags_in : option (list string);
  f_uploader : option ObjectId;
  f_or : option (list Filter_or)
}.

Definition no_filter : Filter :=
  mkFilter None None None None None None None None None None.

(** [{ tags: { $in: l } }]: some tag of the document is in [l]. *)
Definition tags_in (l : list string) (r : Resource.t) : bool :=
  existsb (λ t, bool_decide (t ∈ l)) (Resource.tags r).

Definition matches_or (c : Filter_or) (r : Resource.t) : bool :=
  match c with
  | or_subject s => String.eqb (Resource.subject r) s
  | or_grade s => String.eqb (Resource.grade r) s
  | or_tags_in l => tags_in l r
  | or_school s => bool_decide (Resource.school r = s)
  end.

Definition holds {A} (o : option A) (p : A → bool) : bool :=
  match o with
  | Some a => p a
  | None => true
  end.

(** Whether a document satisfies a filter object.  The strings of the
    filter are compared as they stand: they are the values of a query
    after its cast, which the setters of the schema leave as they are when
    they have no white space at either end. *)
Definition matches (text : string → Resource.t → bool) (q : Filter)
    (r : Resource.t) : bool :=
  holds (f_ne_id q) (λ i, negb (bool_decide (Resource._id r = i)))
  && holds (f_status q) (λ s, String.eqb (status_name (Resource.status r)) s)
  && holds (f_text q) (λ s, text s r)
  && holds (f_subject q) (λ s, String.eqb (Resource.subject r) s)
  && holds (f_grade q) (λ s, String.eqb (Resource.grade r) s)
  && holds (f_school q) (λ s, bool_decide (Resource.school r = s))
  && holds (f_strand q) (λ s, bool_decide (Resource.strand r = Some s))
  && holds (f_tags_in q) (λ l, tags_in l r)
  && holds (f_uploader q) (λ u, bool_decide (Resource.uploader r = u))
  && holds (f_or q) (λ cs, existsb (λ c, matches_or c r) cs).

(** Sort orders. *)
Definition createdAt_asc : relation Resource.t :=
  λ a b, (Resource.createdAt a ≤ Resource.createdAt b)%Z.

Definition createdAt_desc : relation Resource.t :=
  λ a b, (Resource.createdAt b ≤ Resource.createdAt a)%Z.

(** [{ downloadCount: -1, createdAt: -1 }] *)
Definition downloads_then_createdAt_desc : relation Resource.t :=
  λ a b, (Resource.downloadCount b < Resource.downloadCount a)%Z
         ∨ (Resource.downloadCount b = Resource.downloadCount a
            ∧ Resource.createdAt b ≤ Resource.createdAt a)%Z.

Global Instance createdAt_asc_dec : RelDecision createdAt_asc.
Proof. intros a b. unfold createdAt_asc. apply _. Defined.

Global Instance createdAt_desc_dec : RelDecision createdAt_desc.
Proof. intros a b. unfold createdAt_desc. apply _. Defined.

Global Instance downloads_then_createdAt_desc_dec :
  RelDecision downloads_then_createdAt_desc.
Proof. intros a b. unfold downloads_then_createdAt_desc. apply _. Defined.

(** The documents of the collection that satisfy a filter. *)
Definition select (w : World) (q : Filter) : list Resource.t :=
  filter (λ r, Is_true (matches (text_index w) q r))
         (map_to_list (resources (db w))).*2.

(** [.limit(n)]: zero means no limit, a negative number counts as its
    absolute value. *)
Definition apply_limit {A} (n : Z) (l : list A) : list A :=
  if (n =? 0)%Z then l else take (Z.to_nat (Z.abs n)) l.

(** [Resource.find(q).sort(order).skip(skip).limit(limit)], with the
    [populate] calls chained on the query: one read.  The server sorts,
    then skips, then limits; it refuses a negative skip.  Among documents
    that the order holds equal, the server is free in each query; the
    order here is that of the merge sort. *)
Definition Resource_find (q : Filter) (order : relation Resource.t)
    `{!RelDecision order} (skip limit : Z) : M (list Resource.t) :=
  remote_call ;;;
  if (skip <? 0)%Z then throw (MongoError "skip must be non-negative")
  else
    w <- get_world ;;
    ret (apply_limit limit (drop (Z.to_nat skip) (merge_sort order (select w q)))).

(** [Resource.countDocuments(q)] *)
Definition Resource_countDocuments (q : Filter) : M Z :=
  remote_call ;;;
  w <- get_world ;;
  ret (Z.of_nat (length (select w q))).

(** [Resource.distinct(path, q)] for a string path. *)
Definition Resource_distinct (path : Resource.t → string) (q : Filter)
    : M (list string) :=
  remote_call ;;;
  w <- get_world ;;
  ret (remove_dups (path <$> select w q)).

(** [parseInt(x) || d]: NaN and 0 give the default. *)
Definition or_default (x : option Z) (d : Z) : Z :=
  match x with
  | Some n => if (n =? 0)%Z then d else n
  | None => d
  end.

(** [Math.ceil(total / limit)] *)
Definition ceil_div (total limit : Z) : Z := (- ((- total) / limit))%Z.

Definition status_approved : Filter :=
  mkFilter None (Some "approved") None None None None None None None None.

Definition status_pending : Filter :=
  mkFilter None (Some "pending") None None None None None None None None.

(** [GET /api/moderation/pending] *)
Definition getPendingResources_fn (req : Req.t) : M Response :=
  let page := or_default (Req.q_page (Req.query req)) 1 in
  let limit := or_default (Req.q_limit (Req.query req)) 20 in
  let skip := ((page - 1) * limit)%Z in
  resources <- Resource_find status_pending createdAt_asc skip limit ;;
  total <- Resource_countDocuments status_pending ;;
  ret (Json 200 (PendingData resources
                   (mkPagination page limit total (ceil_div total limit)))).

Definition getPendingResources := asyncHandler getPendingResources_fn.

(** ** The resource controller: reading *)

Definition tags_array (t : Req.Tags) : list string :=
  match t with
  | Req.TagsString s => Js.split ","%char s
  | Req.TagsArray l => l
  end.

(** [if (tags) query.tags = { $in: ... }]: the empty string is falsy, an
    array never is. *)
Definition tags_filter (t : option Req.Tags) : option (list string) :=
  match t with
  | Some (Req.TagsString s) =>
      if Js.truthy s then Some (tags_array (Req.TagsString s)) else None
  | Some (Req.TagsArray l) => Some l
  | None => None
  end.

(** [if (x) query.key = x], for a string parameter. *)
Definition when_truthy (o : option string) : option string :=
  if Js.truthy_opt o then o else None.

(** The filter object that [getResources] builds. *)
Definition getResources_query (req : Req.t) : Filter :=
  let q := Req.query req in
  let status :=
    if Req.is_admin req && Js.truthy_opt (Req.q_status q) then Req.q_status q
    else if Req.is_admin req && negb (Js.truthy_opt (Req.q_status q)) then None
    else Some "approved" in
  mkFilter None status
    (when_truthy (Req.q_search q))
    (when_truthy (Req.q_subject q))
    (when_truthy (Req.q_grade q))
    (Req.q_school q)
    (when_truthy (Req.q_strand q))
    (tags_filter (Req.q_tags q))
    (Req.q_uploader q)
    None.

(** [GET /api/resources] *)
Definition getResources_fn (req : Req.t) : M Response :=
  let page := or_default (Req.q_page (Req.query req)) 1 in
  let limit := or_default (Req.q_limit (Req.query req)) 12 in
  let skip := ((page - 1) * limit)%Z in
  let query := getResources_query req in
  resources <- Resource_find query createdAt_desc skip limit ;;
  total <- Resource_countDocuments query ;;
  uniqueSubjects <- Resource_distinct Resource.subject status_approved ;;
  uniqueGrades <- Resource_distinct Resource.grade status_approved ;;
  ret (Json 200 (ListData resources uniqueSubjects uniqueGrades
                   (mkPagination page limit total (ceil_div total limit)))).

Definition getResources := asyncHandler getResources_fn.

(** [GET /api/resources/:id] *)
Definition getResourceById_fn (req : Req.t) : M Response :=
  found <- Resource_findById (Req.params_id req) ;;
  match found with
  | None => ret (Json 404 (Failure "Resource not found"))
  | Some resource =>
      if negb (bool_decide (Resource.status resource = approved))
         && negb (Req.is_admin req)
      then ret (Json 404 (Failure "Resource not found"))
      else ret (Json 200 (ResourceData None resource))
  end.

Definition getResourceById := asyncHandler getResourceById_fn.

(** [GET /api/resources/:id/related] *)
Definition getRelatedResources_fn (req : Req.t) : M Response :=
  found <- Resource_findById (Req.params_id req) ;;
  match found with
  | None => ret (Json 404 (Failure "Resource not found"))
  | Some resource =>
      let query :=
        mkFilter (Some (Resource._id resource)) (Some "approved")
          None None None None None None None
          (Some [or_subject (Resource.subject resource);
                 or_grade (Resource.grade resource);
                 or_tags_in (Resource.tags resource);
                 or_school (Resource.school resource)]) in
      relatedResources <-
        Resource_find query downloads_then_createdAt_desc 0 6 ;;
      ret (Json 200 (RelatedData relatedResources))
  end.

Definition getRelatedResources := asyncHandler getRelatedResources_fn.

(** ** The school controller: resources and statistics of a school *)

Definition school_approved (schoolId : ObjectId) : Filter :=
  mkFilter None (Some "approved") None None None (Some schoolId)
    None None None None.

(** [GET /api/schools/:id/resources] *)
Definition getSchoolResources_fn (req : Req.t) : M Response :=
  let schoolId := Req.params_id req in
  let page := or_default (Req.q_page (Req.query req)) 1 in
  let limit := or_default (Req.q_limit (Req.query req)) 12 in
  let skip := ((page - 1) * limit)%Z in
  let query :=
    mkFilter None (Some "approved") None
      (when_truthy (Req.q_subject (Req.query req)))
      (when_truthy (Req.q_grade (Req.query req)))
      (Some schoolId) None None None None in
  resources <- Resource_find query createdAt_desc skip limit ;;
  total <- Resource_countDocuments query ;;
  subjects <- Resource_distinct Resource.subject (school_approved schoolId) ;;
  grades <- Resource_distinct Resource.grade (school_approved schoolId) ;;
  ret (Json 200 (ListData resources subjects grades
                   (mkPagination page limit total (ceil_div total limit)))).

Definition getSchoolResources := asyncHandler getSchoolResources_fn.

(** ** Mongoose: schools, users and downloads *)

(** [/^[A-Z0-9]{3,10}$/] *)
Definition code_char (c : ascii) : bool :=
  let n := nat_of_ascii c in
  ((65 <=? n) && (n <=? 90) || (48 <=? n) && (n <=? 57))%nat.

Definition code_matches (s : string) : bool :=
  (3 <=? String.length s)%nat && (String.length s <=? 10)%nat
  && forallb code_char (String.list_ascii_of_string s).

(** The validators of the required paths of [schoolSchema]. *)
Definition School_validate (s : School.t) : option Err :=
  first_error [
    required "name" (School.name s);
    maxlength "name" 100 "School name cannot exceed 100 characters"
      (School.name s);
    required "code" (School.code s);
    (if code_matches (School.code s) then None
     else Some (ValidationError "code"
                  "School code must be 3-10 alphanumeric characters"));
    required "address.city" (School.city s);
    required "address.state" (School.state s);
    (match School.admin s with
     | Some _ => None
     | None => Some (ValidationError "admin" "School admin is required")
     end)
  ].

(** [School.findById(id)] *)
Definition School_findById (id : ObjectId) : M (option School.t) :=
  remote_call ;;;
  w <- get_world ;;
  ret (schools (db w) !! id).

(** [school.save()] *)
Definition School_save (s : School.t) : M School.t :=
  match School_validate s with
  | Some e => throw e
  | None =>
      remote_call ;;;
      modify_db (λ d, set_schools d (<[School._id s := s]> (schools d))) ;;;
      ret s
  end.

Definition inc_totalResources (by_ : Z) (s : School.t) : School.t :=
  let st := School.statistics s in
  School.set_statistics s
    (School.mkStatistics (School.totalResources st + by_)
       (School.totalDownloads st) (School.activeUsers st)).

Definition inc_totalDownloads (by_ : Z) (s : School.t) : School.t :=
  let st := School.statistics s in
  School.set_statistics s
    (School.mkStatistics (School.totalResources st)
       (School.totalDownloads st + by_) (School.activeUsers st)).

(** [School.findByIdAndUpdate(id, { $inc: ... })]: one atomic update on
    the server, without effect when no school has this id. *)
Definition School_findByIdAndUpdate (id : ObjectId)
    (update : School.t → School.t) : M unit :=
  remote_call ;;;
  modify_db (λ d, set_schools d (alter update id (schools d))).

(** [User.countDocuments({ school, isActive: true })] *)
Definition User_countDocuments_active (schoolId : ObjectId) : M Z :=
  remote_call ;;;
  w <- get_world ;;
  ret (Z.of_nat (length (filter
         (λ u, User.school u = schoolId ∧ User.isActive u = true)
         (map_to_list (users (db w))).*2))).

(** [$group: { _id: '$subject', count: { $sum: 1 } }] *)
Definition group_count (l : list string) : list (string * Z) :=
  (λ s, (s, Z.of_nat (length (filter (λ x, x = s) l)))) <$> remove_dups l.

Definition count_desc : relation (string * Z) := λ a b, (b.2 ≤ a.2)%Z.

Global Instance count_desc_dec : RelDecision count_desc.
Proof. intros a b. unfold count_desc. apply _. Defined.

(** The pipeline of popular subjects: match, group, sort, limit 5. *)
Definition Resource_aggregate_popularSubjects (schoolId : ObjectId)
    : M (list (string * Z)) :=
  remote_call ;;;
  w <- get_world ;;
  ret (take 5 (merge_sort count_desc
         (group_count (Resource.subject <$> select w (school_approved schoolId))))).

(** The pipeline that sums [downloadCount] over the approved resources of
    a school: no group, hence no result, when nothing matches. *)
Definition Resource_aggregate_downloads (schoolId : ObjectId)
    : M (option Z) :=
  remote_call ;;;
  w <- get_world ;;
  match select w (school_approved schoolId) with
  | [] => ret None
  | l => ret (Some (foldr Z.add 0%Z (Resource.downloadCount <$> l)))
  end.

(** [schoolSchema.methods.updateStatistics] *)
Definition School_updateStatistics (this : School.t) : M School.t :=
  resourceCount <- Resource_countDocuments (school_approved (School._id this)) ;;
  downloadCount <- Resource_aggregate_downloads (School._id this) ;;
  userCount <- User_countDocuments_active (School._id this) ;;
  School_save (School.set_statistics this
                 (School.mkStatistics resourceCount
                    (default 0%Z downloadCount) userCount)).

(** [GET /api/schools/:id/statistics] *)
Definition getSchoolStatistics_fn (req : Req.t) : M Response :=
  let schoolId := Req.params_id req in
  school <- School_findById schoolId ;;
  resourceCount <- Resource_countDocuments (school_approved schoolId) ;;
  userCount <- User_countDocuments_active schoolId ;;
  recentResources <-
    Resource_find (school_approved schoolId) createdAt_desc 0 5 ;;
  match school with
  | None => ret (Json 404 (Failure "School not found"))
  | Some school =>
      popularSubjects <- Resource_aggregate_popularSubjects (School._id school) ;;
      ret (Json 200 (StatisticsData resourceCount userCount
                       (School.totalDownloads (School.statistics school))
                       popularSubjects recentResources))
  end.

Definition getSchoolStatistics := asyncHandler getSchoolStatistics_fn.

(** The unique index [{ user: 1, resource: 1 }] of the downloads. *)
Definition downloaded (m : gmap ObjectId Download.t) (user resource : ObjectId)
    : Prop :=
  map_Exists (λ _ d, Download.user d = user ∧ Download.resource d = resource) m.

Global Instance downloaded_dec m user resource :
  Decision (downloaded m user resource).
Proof. unfold downloaded. apply _. Defined.

(** [Download.create({ user, resource, ipAddress, userAgent })] *)
Definition Download_create (user resource : ObjectId)
    (ipAddress userAgent : option string) : M Download.t :=
  id <- new_ObjectId ;;
  now <- new_Date ;;
  let d := Download.mk id user resource now (Js.trim <$> ipAddress)
             (Js.trim <$> userAgent) false Download.synced in
  remote_call ;;;
  w <- get_world ;;
  if bool_decide (is_Some (downloads (db w) !! id)) then
    throw (DuplicateKey "_id_")
  else if bool_decide (downloaded (downloads (db w)) user resource) then
    throw (DuplicateKey "user_1_resource_1")
  else
    modify_db (λ d', set_downloads d' (<[id := d]> (downloads d'))) ;;;
    ret d.

(** [resourceSchema.methods.incrementDownload] *)
Definition Resource_incrementDownload (this : Resource.t) : M Resource.t :=
  let this :=
    Resource.set_downloadCount this (Resource.downloadCount this + 1)%Z in
  this <- Resource_save this ;;
  School_findByIdAndUpdate (Resource.school this) (inc_totalDownloads 1) ;;;
  ret this.

(** [Resource.findByIdAndDelete(id)] *)
Definition Resource_findByIdAndDelete (id : ObjectId) : M unit :=
  remote_call ;;;
  modify_db (λ d, set_resources d (delete id (resources d))).

(** ** The storage services *)

(** [fs.unlink(path)], for a path under the upload directory: [disk] holds
    the names of the files that are there. *)
Definition fs_unlink (name : string) : M unit :=
  λ w, if bool_decide (name ∈ disk w)
       then (Ok tt, set_disk w (disk w ∖ {[name]}))
       else (Throw (ENOENT name), w).

(** [s3Client.send(new DeleteObjectCommand({ Bucket, Key }))]: the object
    store answers with success whether or not the key held an object. *)
Definition s3_send_DeleteObject (key : string) : M unit :=
  remote_call ;;;
  modify_world (λ w, set_bucket w (bucket w ∖ {[key]})).

(** [getSignedUrl(s3Client, command, { expiresIn })]: resolving the
    credentials may fail. *)
Definition getSignedUrl (key disposition : string) (expiresIn : Z) : M Url :=
  remote_call ;;;
  ret (SignedUrl key disposition expiresIn).

Module LocalStorageService.

Definition getDownloadUrl (key originalName : string) : M Url :=
  ret (LocalUrl key originalName).

Definition deleteFile (key : string) : M unit :=
  try_catch (fs_unlink key)
    (λ error,
       console_error "Error deleting local file:" ;;;
       throw error).

End LocalStorageService.

Module S3StorageService.

(** [`attachment; filename="${originalName}"`] *)
Definition contentDisposition (originalName : string) : string :=
  let quote := String (Ascii.ascii_of_nat 34) EmptyString in
  "attachment; filename=" +:+ quote +:+ originalName +:+ quote.

Definition getDownloadUrl (key originalName : string) : M Url :=
  try_catch
    (getSignedUrl key (contentDisposition originalName) 3600)
    (λ error,
       console_error "Error generating S3 signed URL:" ;;;
       throw error).

Definition deleteFile (key : string) : M unit :=
  try_catch (s3_send_DeleteObject key)
    (λ error,
       console_error "Error deleting S3 file:" ;;;
       throw error).

End S3StorageService.

(** The [StorageService] of services/storageService.js, which hands each
    call to the service of the driver. *)
Module storageService.

Definition getDownloadUrl (key originalName : string) : M Url :=
  w <- get_world ;;
  match driver w with
  | LocalDriver => LocalStorageService.getDownloadUrl key originalName
  | S3Driver => S3StorageService.getDownloadUrl key originalName
  end.

Definition deleteFile (key : string) : M unit :=
  w <- get_world ;;
  match driver w with
  | LocalDriver => LocalStorageService.deleteFile key
  | S3Driver => S3StorageService.deleteFile key
  end.

End storageService.

(** ** The resource controller: download, delete, upload, edit *)

(** [GET /api/resources/:id/download] *)
Definition downloadResource_fn (req : Req.t) : M Response :=
  found <- Resource_findById (Req.params_id req) ;;
  match found with
  | None => ret (Json 404 (Failure "Resource not found"))
  | Some resource =>
      denied <-
        (if negb (bool_decide (Resource.status resource = approved)) then
           u <- req_user req ;;
           ret (negb (bool_decide (Req.role u = admin))
                && negb (bool_decide (Resource.uploader resource = Req.id u)))
         else ret false) ;;
      if denied : bool then ret (Json 403 (Failure "Access denied"))
      else
        try_catch
          (downloadUrl <-
             storageService.getDownloadUrl (File.key (Resource.file resource))
               (File.originalName (Resource.file resource)) ;;
           resource <- Resource_incrementDownload resource ;;
           u <- req_user req ;;
           Download_create (Req.id u) (Resource._id resource) (Req.ip req)
             (Req.userAgent req) ;;;
           ret (Json 200 (DownloadData downloadUrl (Resource._id resource)
                            (Resource.title resource) (Resource.file resource))))
          (λ error,
             console_error "Download error:" ;;;
             ret (Json 500 (Failure "Error generating download URL")))
  end.

Definition downloadResource := asyncHandler downloadResource_fn.

(** [DELETE /api/resources/:id] *)
Definition deleteResource_fn (req : Req.t) : M Response :=
  found <- Resource_findById (Req.params_id req) ;;
  match found with
  | None => ret (Json 404 (Failure "Resource not found"))
  | Some resource =>
      u <- req_user req ;;
      if negb (bool_decide (Resource.uploader resource = Req.id u))
         && negb (bool_decide (Req.role u = admin))
      then ret (Json 403 (Failure "Access denied"))
      else
        try_catch
          (storageService.deleteFile (File.key (Resource.file resource)) ;;;
           Resource_findByIdAndDelete (Req.params_id req) ;;;
           School_findByIdAndUpdate (Resource.school resource)
             (inc_totalResources (-1)) ;;;
           ret (Json 200 (Success "Resource deleted successfully")))
          (λ error,
             console_error "Delete error:" ;;;
             ret (Json 500 (Failure "Error deleting resource")))
  end.

Definition deleteResource := asyncHandler deleteResource_fn.

(** [Resource.create({...})]: the defaults and the [trim] setters of the
    schema, the validators, then the insertion. *)
Definition Resource_create (title description subject grade : option string)
    (strand : option string) (tags : list string) (isPublic : bool)
    (uploader school : ObjectId) (file : Req.UploadedFile) : M Resource.t :=
  id <- new_ObjectId ;;
  now <- new_Date ;;
  let r :=
    Resource.mk id (Js.trim (default "" title)) (default "" description)
      (File.mk (Req.originalname file) (default "" (Req.filename file))
         (Req.mimetype file) (Req.size file) (default "" (Req.key file)))
      uploader school (Js.trim (default "" subject)) (Js.trim (default "" grade))
      (Js.trim <$> strand) (Js.trim <$> tags)
      pending None None None 0%Z isPublic now now in
  match Resource_validate r with
  | Some e => throw e
  | None =>
      remote_call ;;;
      w <- get_world ;;
      if bool_decide (is_Some (resources (db w) !! id)) then
        throw (DuplicateKey "_id_")
      else
        modify_db (λ d, set_resources d (<[id := r]> (resources d))) ;;;
        ret r
  end.

(** [tags.split(',').map(tag => tag.trim()).filter(tag => tag)] *)
Definition parse_tags (s : string) : list string :=
  List.filter Js.truthy (Js.trim <$> Js.split "," s).

(** [POST /api/resources] *)
Definition uploadResource_fn (req : Req.t) : M Response :=
  if negb (bool_decide (Req.validationErrors req = [])) then
    ret (Json 400 (ValidationFailed (Req.validationErrors req)))
  else
    match Req.file req with
    | None => ret (Json 400 (Failure "File is required"))
    | Some file =>
        let body := Req.body req in
        let tagsArray :=
          match Req.tags body with
          | Some (Req.TagsString s) => parse_tags s
          | Some (Req.TagsArray l) => l
          | None => []
          end in
        u <- req_user req ;;
        resource <-
          Resource_create (Req.title body) (Req.description body)
            (Req.subject body) (Req.grade body) (or_null (Req.strand body))
            tagsArray (negb (bool_decide (Req.isPublic body = Some "false")))
            (Req.id u) (Req.school u) file ;;
        School_findByIdAndUpdate (Req.school u) (inc_totalResources 1) ;;;
        populate "uploader" ;;;
        populate "school" ;;;
        ret (Json 201
               (ResourceData
                  (Some "Resource uploaded successfully and is pending moderation")
                  resource))
    end.

Definition uploadResource := asyncHandler uploadResource_fn.

(** The cast of a value to the Boolean type of the schema. *)
Definition cast_boolean (s : string) : option bool :=
  if bool_decide (s ∈ ["true"; "1"; "yes"]) then Some true
  else if bool_decide (s ∈ ["false"; "0"; "no"]) then Some false
  else None.

(** [PUT /api/resources/:id] *)
Definition updateResource_fn (req : Req.t) : M Response :=
  if negb (bool_decide (Req.validationErrors req = [])) then
    ret (Json 400 (ValidationFailed (Req.validationErrors req)))
  else
    found <- Resource_findById (Req.params_id req) ;;
    match found with
    | None => ret (Json 404 (Failure "Resource not found"))
    | Some resource =>
        u <- req_user req ;;
        if negb (bool_decide (Resource.uploader resource = Req.id u))
           && negb (bool_decide (Req.role u = admin))
        then ret (Json 403 (Failure "Access denied"))
        else
          let body := Req.body req in
          let pick (new : option string) (old : string) (set : string → string) :=
            if Js.truthy_opt new then set (default "" new) else old in
          let isPublic :=
            match Req.isPublic body with
            | Some s => cast_boolean s
            | None => Some (Resource.isPublic resource)
            end in
          let resource :=
            Resource.set_metadata resource
              (pick (Req.title body) (Resource.title resource) Js.trim)
              (pick (Req.description body) (Resource.description resource) id)
              (pick (Req.subject body) (Resource.subject resource) Js.trim)
              (pick (Req.grade body) (Resource.grade resource) Js.trim)
              (match Req.strand body with
               | Some s => Some (Js.trim s)
               | None => Resource.strand resource
               end)
              (match Req.tags body with
               | Some (Req.TagsString s) => Js.trim <$> parse_tags s
               | Some (Req.TagsArray l) => Js.trim <$> l
               | None => Resource.tags resource
               end)
              (default (Resource.isPublic resource) isPublic) in
          let resource :=
            if bool_decide (Req.role u = admin)
               && bool_decide (Resource.status resource = approved)
            then Resource.set_moderation resource pending None None None
            else resource in
          resource <-
            match isPublic with
            | None => throw (ValidationError "isPublic" "Cast to Boolean failed")
            | Some _ => Resource_save resource
            end ;;
          populate "uploader" ;;;
          populate "school" ;;;
          ret (Json 200 (ResourceData (Some "Resource updated successfully")
                           resource))
    end.

Definition updateResource := asyncHandler updateResource_fn.

(** ** The requests that write *)

Inductive Route :=
| POST_resources
| PUT_resource
| DELETE_resource
| GET_resource_download
| POST_moderation_approve
| POST_moderation_reject.

Definition serve (route : Route) : Req.t → World → Response * World :=
  match route with
  | POST_resources => uploadResource
  | PUT_resource => updateResource
  | DELETE_resource => deleteResource
  | GET_resource_download => downloadResource
  | POST_moderation_approve => approveResource
  | POST_moderation_reject => rejectResource
  end.

(** The worlds that a sequence of such requests reaches. *)
Inductive reaches (w0 : World) : World → Prop :=
| reaches_refl : reaches w0 w0
| reaches_step w route req :
    reaches w0 w → reaches w0 (serve route req w).2.

(** ** Sample data *)

Module Sample.

Definition teacher : Req.AuthUser := Req.mkUser 10 teacher 1.
Definition moderator : Req.AuthUser := Req.mkUser 20 admin 1.
Definition pupil : Req.AuthUser := Req.mkUser 30 student 1.

Definition worksheet_file : File.t :=
  File.mk "algebra-worksheet.pdf" "file-1700000000000-1.pdf"
    "application/pdf" 1024 "file-1700000000000-1.pdf".

(** A resource of the teacher, with the given id and status. *)
Definition worksheet (id : ObjectId) (s : Status) : Resource.t :=
  Resource.mk id "Algebra Basics Worksheet" "Basic algebra exercises"
    worksheet_file 10 1 "Mathematics" "Grade 9" None ["math"; "algebra"]
    s None None None 0 true 1000 1000.

(** The same, created at the given time. *)
Definition worksheet_at (id : ObjectId) (s : Status) (at_ : Z) : Resource.t :=
  Resource.mk id "Algebra Basics Worksheet" "Basic algebra exercises"
    worksheet_file 10 1 "Mathematics" "Grade 9" None ["math"; "algebra"]
    s None None None 0 true at_ at_.

Definition central_high : School.t :=
  School.mk 1 "Central High School" "CHS001" "New York" "NY" true (Some 20)
    (School.mkStatistics 0 0 0).

(** A database with the school and the given resources. *)
Definition database (rs : list Resource.t) : Db :=
  mkDb (list_to_map ((λ r, (Resource._id r, r)) <$> rs)) ∅ ∅
    {[1 := central_high]} ∅.

(** A world on the local disk, with the given files and fault script. *)
Definition world (rs : list Resource.t) (files : list string)
    (script : list bool) : World :=
  mkWorld (database rs) (list_to_set files) ∅ [] 2000 100 script
    LocalDriver (λ _ _, true).

(** A request of [user] on the document [id], with [notes] in the body. *)
Definition request (user : option Req.AuthUser) (id : ObjectId)
    (notes : option string) : Req.t :=
  Req.mk user id
    (Req.mkBody notes None None None None None None None)
    Req.no_query None None None [].

(** The upload of a worksheet by the teacher. *)
Definition upload : Req.t :=
  Req.mk (Some teacher) 0
    (Req.mkBody None (Some "Algebra Basics Worksheet")
       (Some "Basic algebra exercises") (Some "Mathematics")
       (Some "Grade 9") None (Some (Req.TagsString "math, algebra")) None)
    Req.no_query
    (Some (Req.mkFile "algebra-worksheet.pdf"
             (Some "file-1700000000000-1.pdf") "application/pdf" 1024
             (Some "file-1700000000000-1.pdf")))
    None None [].

End Sample.

(** ** Vocabulary of the statements *)

(** *** Responses *)

(** The answer of the moderation controller to a resource that is not
    pending: the error kind InvalidTransition. *)
Definition InvalidTransition : Response :=
  Json 400 (Failure "Resource is not pending moderation").

(** A response that reports a failure to the caller. *)
Definition failed (res : Response) : Prop :=
  match res with
  | Json code _ => 400 ≤ code
  | Next _ => True
  end.

(** *** Availability of the remote services *)

(** The [n]-th call to a remote service of a request fails. *)
Definition fails_at (n : nat) (w : World) : Prop := faults w !! n = Some true.

(** The first [n] calls to a remote service of a request get through. *)
Definition through (n : nat) (w : World) : Prop :=
  ∀ i, i < n → faults w !! i ≠ Some true.

(** The next call to a remote service gets through. *)
Definition up (w : World) : bool :=
  match faults w with
  | true :: _ => false
  | _ => true
  end.

(** The world after one call to a remote service. *)
Definition pop (w : World) : World :=
  match faults w with
  | [] => w
  | _ :: fs => set_faults w fs
  end.

(** A computation that leaves the collections as they are. *)
Definition readonly {A} (c : M A) : Prop := ∀ w, db (c w).2 = db w.

(** A computation that, when the services are available, touches neither
    the resources nor the schools, and leaves the services available. *)
Definition aside {A} (c : M A) : Prop :=
  ∀ w, faults w = [] →
    faults (c w).2 = []
    ∧ resources (db (c w).2) = resources (db w)
    ∧ schools (db (c w).2) = schools (db w).

(** *** Moderation decisions *)

(** A moderation decision and the handler that takes it. *)
Inductive Verdict := Approve | Reject.

Definition moderate (v : Verdict) : Req.t → World → Response * World :=
  match v with
  | Approve => approveResource
  | Reject => rejectResource
  end.

Definition verdict_status (v : Verdict) : Status :=
  match v with
  | Approve => approved
  | Reject => rejected
  end.

(** The notes that the handler of a verdict stores on the resource. *)
Definition verdict_notes (v : Verdict) (notes : option string)
    : option string :=
  match v with
  | Approve => or_null notes
  | Reject => notes
  end.

(** A request that the handler of a verdict takes as well formed. *)
Definition well_formed (v : Verdict) (req : Req.t) : Prop :=
  Req.validationErrors req = []
  ∧ (∀ s, Req.notes (Req.body req) = Some s → String.length s ≤ 500)
  ∧ (v = Reject → notes_missing (Req.notes (Req.body req)) = false).

(** The document that a decision stores: the four moderation fields, and
    the time stamp of the save. *)
Definition decided (v : Verdict) (r : Resource.t) (u : Req.AuthUser)
    (notes : option string) (w : World) : Resource.t :=
  Resource.set_updatedAt
    (Resource.set_moderation r (verdict_status v) (Some (Req.id u))
       (Some (clock w)) (verdict_notes v notes))
    (clock w).

(** The log entry of a decision. *)
Definition decision_log (v : Verdict) (r : Resource.t) (u : Req.AuthUser)
    (notes : option string) (w : World) : ModerationLog.t :=
  ModerationLog.mk (oidgen w) (Resource._id r) (Req.id u)
    (match v with Approve => action_approved | Reject => action_rejected end)
    (Js.trim <$> notes) (Resource.status r) (verdict_status v) (clock w).

(** A moderation log entry for a decision on [id]. *)
Definition logged (w : World) (id : ObjectId) (from to : Status) : Prop :=
  map_Exists (λ _ l, ModerationLog.resource l = id
                     ∧ ModerationLog.previousStatus l = from
                     ∧ ModerationLog.newStatus l = to)
             (moderationlogs (db w)).

(** What the two handlers answer on a resource that is not pending. *)
Definition refusal (req : Req.t) (notes_ok : bool) (w : World)
    : Response * World :=
  if negb (bool_decide (Req.validationErrors req = [])) then
    (Json 400 (ValidationFailed (Req.validationErrors req)), w)
  else if negb notes_ok then
    (Json 400 (Failure "Rejection notes are required"), w)
  else
    match faults w with
    | [] => (InvalidTransition, w)
    | false :: fs => (InvalidTransition, set_faults w fs)
    | true :: fs => (Next NetworkError, set_faults w fs)
    end.

(** *** The listing *)

(** The request with another [status] parameter in its query string. *)
Definition with_status (req : Req.t) (s : option string) : Req.t :=
  Req.set_query req (Req.set_status (Req.query req) s).

(** *** The counters of the schools *)

(** A stored document sits under its own [_id]. *)
Definition keyed (d : Db) : Prop :=
  ∀ k r, resources d !! k = Some r → Resource._id r = k.

(** The resources of a school, whatever their status. *)
Definition resources_of (d : Db) (schoolId : ObjectId) : list Resource.t :=
  filter (λ r, Resource.school r = schoolId) (map_to_list (resources d)).*2.

(** The cached counter of every school is the number of its resources. *)
Definition counted (d : Db) : Prop :=
  ∀ id s, schools d !! id = Some s →
    School.totalResources (School.statistics s)
    = Z.of_nat (length (resources_of d id)).

(** A world whose services are available and whose counters are exact. *)
Definition orderly (w : World) : Prop :=
  faults w = [] ∧ keyed (db w) ∧ counted (db w).

(** *** The download records *)

(** No two download records have the same user and resource. *)
Definition one_record_per_pair (d : Db) : Prop :=
  ∀ i j d1 d2,
    downloads d !! i = Some d1 → downloads d !! j = Some d2 →
    Download.user d1 = Download.user d2 →
    Download.resource d1 = Download.resource d2 →
    i = j.

(** A computation that keeps the download records one per pair. *)
Definition steady {A} (c : M A) : Prop :=
  ∀ w, one_record_per_pair (db w) → one_record_per_pair (db (c w).2).

(** ** Scenarios *)

Module Scenario.
Import Sample.

(** Catalogs that hold one worksheet, pending, approved or rejected. *)
Definition pending_catalog : World := world [worksheet 1 pending] [] [].
Definition approved_catalog : World := world [worksheet 1 approved] [] [].
Definition rejected_catalog : World := world [worksheet 1 rejected] [] [].

(** The moderator approves the worksheet, or rejects it, with notes. *)
Definition approve_it : Req.t := request (Some moderator) 1 (Some "ok").
Definition reject_it : Req.t := request (Some moderator) 1 (Some "outdated").

(** The pending catalog, on a database that drops the third call of a
    request: for an approval, the insertion of the log entry. *)
Definition log_write_lost : World :=
  world [worksheet 1 pending] [] [false; false; true].

(** The teacher uploads a worksheet to an empty catalog.  The file of
    the worksheet is not on the disk. *)
Definition empty_catalog : World := world [] [] [].
Definition uploaded : World := (serve POST_resources upload empty_catalog).2.

(** The worksheet and the school as the upload stored them. *)
Definition uploaded_worksheet : Resource.t :=
  Resource.mk 100 "Algebra Basics Worksheet" "Basic algebra exercises"
    worksheet_file 10 1 "Mathematics" "Grade 9" None ["math"; "algebra"]
    pending None None None 0 true 2000 2000.
Definition school_after_upload : School.t :=
  School.set_statistics central_high (School.mkStatistics 1 0 0).

(** The teacher deletes the uploaded worksheet. *)
Definition delete_it : Req.t := request (Some teacher) 100 None.

(** The statistics of the school are recomputed from the catalog, and
    then asked for. *)
Definition recomputed : World :=
  (School_updateStatistics school_after_upload uploaded).2.
Definition statistics_of_school : Req.t := request None 1 None.

(** Three worksheets, stored in another order than they were created;
    the one created in between is approved. *)
Definition queue : World :=
  world [worksheet_at 1 pending 3000; worksheet_at 2 pending 1000;
         worksheet_at 3 approved 2000] [] [].

(** A disk that holds one file. *)
Definition one_file : World := world [] ["a.pdf"] [].

(** The pupil downloads the approved worksheet, twice. *)
Definition download_it : Req.t := request (Some pupil) 1 None.
Definition once : World := (downloadResource download_it approved_catalog).2.
Definition twice : World := (downloadResource download_it once).2.

End Scenario.

(** ** Further operations of the storage services, models and controllers *)

(** *** The extension of a file name, for the keys of S3 *)

Module JsString.

(** [s.lastIndexOf(c)] for one character, -1 when [c] is absent: [i] is
    the index of the head of [s], [last] the last index seen so far. *)
Fixpoint lastIndexOf_from (c : ascii) (s : string) (i last : Z) : Z :=
  match s with
  | EmptyString => last
  | String x s' =>
      lastIndexOf_from c s' (i + 1) (if Ascii.eqb x c then i else last)
  end.

Definition lastIndexOf (c : ascii) (s : string) : Z :=
  lastIndexOf_from c s 0 (-1).

(** [x >>> 0]: the conversion to an unsigned integer of 32 bits. *)
Definition to_uint32 (x : Z) : Z := x mod 2 ^ 32.

Fixpoint drop (n : nat) (s : string) : string :=
  match n, s with
  | O, _ => s
  | S n', String _ s' => drop n' s'
  | S _, EmptyString => EmptyString
  end.

(** [s.slice(start)]: a negative start counts from the end, and the start
    is clamped to the string. *)
Definition slice (s : string) (start : Z) : string :=
  let len := Z.of_nat (String.length s) in
  let from := if (start <? 0)%Z then Z.max (len + start) 0
              else Z.min start len in
  drop (Z.to_nat from) s.

End JsString.

(** [S3StorageService.getFileExtension]:
    [filename.slice((filename.lastIndexOf('.') - 1 >>> 0) + 2)] *)
Definition S3StorageService_getFileExtension (filename : string) : string :=
  JsString.slice filename
    (JsString.to_uint32 (JsString.lastIndexOf "." filename - 1) + 2).

(** *** Handlers that answer with other data *)

(** What a wrapped handler whose data has type [A] does with a request:
    [res.json({ success: true, data })], an answer
    [res.status(code).json({ success: false, message })], or a rejection
    passed to [next]. *)
Inductive Reply (A : Type) :=
| Sent (data : A)
| Refused (code : nat) (message : string)
| Passed (e : Err).
Arguments Sent {A} data.
Arguments Refused {A} code message.
Arguments Passed {A} e.

(** [asyncHandler(fn)], as above, for such a handler. *)
Definition asyncHandler_of {A} (fn : Req.t → M (Reply A)) (req : Req.t)
    (w : World) : Reply A * World :=
  match fn req w with
  | (Ok res, w') => (res, w')
  | (Throw e, w') => (Passed e, w')
  end.

(** *** The history of the moderation of a resource *)

Definition log_createdAt_desc : relation ModerationLog.t :=
  λ a b, (ModerationLog.createdAt b ≤ ModerationLog.createdAt a)%Z.

Global Instance log_createdAt_desc_dec : RelDecision log_createdAt_desc.
Proof. intros a b. unfold log_createdAt_desc. apply _. Defined.

(** [moderationLogSchema.statics.getResourceHistory]:
    [this.find({ resource }).populate(...).sort({ createdAt: -1 })] *)
Definition ModerationLog_getResourceHistory (resourceId : ObjectId)
    : M (list ModerationLog.t) :=
  remote_call ;;;
  w <- get_world ;;
  ret (merge_sort log_createdAt_desc
         (filter (λ l, ModerationLog.resource l = resourceId)
            (map_to_list (moderationlogs (db w))).*2)).

(** [GET /api/moderation/resources/:id/history] *)
Definition getResourceModerationHistory_fn (req : Req.t)
    : M (Reply (list ModerationLog.t)) :=
  history <- ModerationLog_getResourceHistory (Req.params_id req) ;;
  ret (Sent history).

Definition getResourceModerationHistory :=
  asyncHandler_of getResourceModerationHistory_fn.

(** *** The activity of the moderators *)

(** A row of the aggregation by moderator, after the lookup of the user. *)
Record ModeratorStat := mkModeratorStat {
  stat_id : ObjectId;
  stat_approved : Z;
  stat_rejected : Z;
  stat_total : Z;
  stat_lastActivity : Z;
  stat_moderator : User.t
}.

Definition is_action (a : Action) (l : ModerationLog.t) : bool :=
  match a, ModerationLog.action l with
  | action_approved, action_approved => true
  | action_rejected, action_rejected => true
  | _, _ => false
  end.

(** [{ $sum: { $cond: [{ $eq: ['$action', a] }, 1, 0] } }] *)
Definition sum_action (a : Action) (logs : list ModerationLog.t) : Z :=
  foldr (λ l acc, ((if is_action a l then 1 else 0) + acc)%Z) 0%Z logs.

(** [{ $max: '$createdAt' }] over a group, which is not empty. *)
Definition max_createdAt (logs : list ModerationLog.t) : Z :=
  match logs with
  | [] => 0%Z
  | l :: ls => foldr (λ x acc, Z.max (ModerationLog.createdAt x) acc)
                 (ModerationLog.createdAt l) ls
  end.

Definition stat_total_desc : relation ModeratorStat :=
  λ a b, (stat_total b ≤ stat_total a)%Z.

Global Instance stat_total_desc_dec : RelDecision stat_total_desc.
Proof. intros a b. unfold stat_total_desc. apply _. Defined.

(** The pipeline of the statistics by moderator: [$group] by moderator,
    [$lookup] in the users and [$unwind], which drops the groups whose
    moderator is no user, then [$sort] by total, descending. *)
Definition ModerationLog_aggregate_moderatorStats : M (list ModeratorStat) :=
  remote_call ;;;
  w <- get_world ;;
  let logs := (map_to_list (moderationlogs (db w))).*2 in
  let group m := filter (λ l, ModerationLog.moderator l = m) logs in
  let rows :=
    omap (λ m, user ← users (db w) !! m;
               Some (mkModeratorStat m
                       (sum_action action_approved (group m))
                       (sum_action action_rejected (group m))
                       (Z.of_nat (length (group m)))
                       (max_createdAt (group m))
                       user))
         (remove_dups (ModerationLog.moderator <$> logs)) in
  ret (merge_sort stat_total_desc rows).

(** [ModerationLog.countDocuments({ action, createdAt: { $gte: since } })] *)
Definition ModerationLog_countDocuments_since (a : Action) (since : Z)
    : M Z :=
  remote_call ;;;
  w <- get_world ;;
  ret (Z.of_nat (length (filter
         (λ l, is_action a l = true ∧ (since ≤ ModerationLog.createdAt l)%Z)
         (map_to_list (moderationlogs (db w))).*2))).

(** The data of the moderation statistics. *)
Record ModerationStatistics := mkModerationStatistics {
  totalPending : Z;
  today_approved : Z;
  today_rejected : Z;
  today_total : Z;
  moderatorStats : list ModeratorStat
}.

(** [GET /api/moderation/statistics].  [midnight] is
    [d => d.setHours(0, 0, 0, 0)] in the time zone of the process; the
    two dates are taken when the queries are built, and the four reads of
    [Promise.all] are taken in the order of the array. *)
Definition getModerationStatistics_fn (midnight : Z → Z) (req : Req.t)
    : M (Reply ModerationStatistics) :=
  now <- new_Date ;;
  now' <- new_Date ;;
  totalPending <- Resource_countDocuments status_pending ;;
  todayApproved <-
    ModerationLog_countDocuments_since action_approved (midnight now) ;;
  todayRejected <-
    ModerationLog_countDocuments_since action_rejected (midnight now') ;;
  stats <- ModerationLog_aggregate_moderatorStats ;;
  ret (Sent (mkModerationStatistics totalPending todayApproved todayRejected
               (todayApproved + todayRejected) stats)).

Definition getModerationStatistics (midnight : Z → Z) :=
  asyncHandler_of (getModerationStatistics_fn midnight).

(** *** The user controller: the resources and the downloads of a user *)

Definition by_uploader (userId : ObjectId) : Filter :=
  mkFilter None None None None None None None None (Some userId) None.

(** [GET /api/users/:id/resources] *)
Definition getUserResources_fn (req : Req.t) : M Response :=
  let userId := Req.params_id req in
  u <- req_user req ;;
  if negb (bool_decide (Req.role u = admin))
     && negb (bool_decide (Req.id u = userId))
  then ret (Json 403 (Failure "Access denied"))
  else
    let page := or_default (Req.q_page (Req.query req)) 1 in
    let limit := or_default (Req.q_limit (Req.query req)) 10 in
    let skip := ((page - 1) * limit)%Z in
    resources <- Resource_find (by_uploader userId) createdAt_desc skip limit ;;
    total <- Resource_countDocuments (by_uploader userId) ;;
    ret (Json 200 (PendingData resources
                     (mkPagination page limit total (ceil_div total limit)))).

Definition getUserResources := asyncHandler getUserResources_fn.

Definition downloadedAt_desc : relation Download.t :=
  λ a b, (Download.downloadedAt b ≤ Download.downloadedAt a)%Z.

Global Instance downloadedAt_desc_dec : RelDecision downloadedAt_desc.
Proof. intros a b. unfold downloadedAt_desc. apply _. Defined.

(** The download records of a user. *)
Definition downloads_of (d : Db) (userId : ObjectId) : list Download.t :=
  filter (λ x, Download.user x = userId) (map_to_list (downloads d)).*2.

(** [Download.find({ user }).populate(...).sort({ downloadedAt: -1 })
    .skip(skip).limit(limit)] *)
Definition Download_find_user (userId : ObjectId) (skip limit : Z)
    : M (list Download.t) :=
  remote_call ;;;
  if (skip <? 0)%Z then throw (MongoError "skip must be non-negative")
  else
    w <- get_world ;;
    ret (apply_limit limit
           (drop (Z.to_nat skip)
              (merge_sort downloadedAt_desc (downloads_of (db w) userId)))).

(** [Download.countDocuments({ user })] *)
Definition Download_countDocuments_user (userId : ObjectId) : M Z :=
  remote_call ;;;
  w <- get_world ;;
  ret (Z.of_nat (length (downloads_of (db w) userId))).

(** [GET /api/users/:id/downloads] *)
Definition getUserDownloads_fn (req : Req.t)
    : M (Reply (list Download.t * Pagination)) :=
  let userId := Req.params_id req in
  u <- req_user req ;;
  if negb (bool_decide (Req.role u = admin))
     && negb (bool_decide (Req.id u = userId))
  then ret (Refused 403 "Access denied")
  else
    let page := or_default (Req.q_page (Req.query req)) 1 in
    let limit := or_default (Req.q_limit (Req.query req)) 20 in
    let skip := ((page - 1) * limit)%Z in
    downloads <- Download_find_user userId skip limit ;;
    total <- Download_countDocuments_user userId ;;
    ret (Sent (downloads,
               mkPagination page limit total (ceil_div total limit))).

Definition getUserDownloads := asyncHandler_of getUserDownloads_fn.

(** *** File names *)

(** A string without a dot. *)
Definition dotless (s : string) : Prop :=
  "."%char ∉ String.list_ascii_of_string s.

(** *** Further scenarios *)

Module Cases.

(** A colleague of the teacher, at the same school. *)
Definition colleague : Req.AuthUser := Req.mkUser 11 teacher 1.

Import Sample.

(** An empty catalog on a database that drops the second call of a
    request: for an upload, the update of the counter of the school. *)
Definition counter_update_lost : World := world [] [] [false; true].

(** The teacher renames the worksheet; so does the moderator. *)
Definition rename (user : Req.AuthUser) : Req.t :=
  Req.mk (Some user) 1
    (Req.mkBody None (Some "Algebra Worksheet, second edition") None None
       None None None None)
    Req.no_query None None None [].

(** An approved worksheet whose file is on the disk, on a database that
    drops the second call of a request: for a delete, the removal of the
    document. *)
Definition removal_lost : World :=
  world [worksheet 1 approved] ["file-1700000000000-1.pdf"] [false; true].

(** The same catalog, every call getting through. *)
Definition stored_catalog : World :=
  world [worksheet 1 approved] ["file-1700000000000-1.pdf"] [].

(** The approved catalog on S3, the second call of a request failing:
    for a download, the signature of the URL. *)
Definition signature_fails : World :=
  mkWorld (database [worksheet 1 approved]) ∅
    {["file-1700000000000-1.pdf"]} [] 2000 100 [false; true] S3Driver
    (λ _ _, true).

(** Two approved worksheets of the teacher. *)
Definition two_worksheets : World :=
  world [worksheet 1 approved; worksheet 2 approved] [] [].

(** The moderator, as a user, has approved one worksheet and rejected
    another. *)
Definition two_decisions : World :=
  mkWorld
    (mkDb (resources (database [worksheet 1 approved; worksheet 2 rejected]))
       {[100 := ModerationLog.mk 100 1 20 action_approved (Some "ok")
                  pending approved 1500;
         101 := ModerationLog.mk 101 2 20 action_rejected (Some "outdated")
                  pending rejected 1800]}
       ∅ {[1 := central_high]} {[20 := User.mk 20 admin 1 true]})
    ∅ ∅ [] 2000 102 [] LocalDriver (λ _ _, true).

(** Midnight, for a process in the time zone UTC. *)
Definition midnight_utc (now : Z) : Z := (now - now `mod` 86400000)%Z.

(** The statistics of the moderation of these two decisions. *)
Definition statistics_of_two_decisions : ModerationStatistics :=
  mkModerationStatistics 0 1 1 2
    [mkModeratorStat 20 1 1 2 1800 (User.mk 20 admin 1 true)].

(** The download record of the pupil, and the page that lists it. *)
Definition record_of_pupil : Download.t :=
  Download.mk 100 30 1 2000 None None false Download.synced.
Definition page_of_pupil : Pagination := mkPagination 1 20 1 1.

(** The upload of the worksheet, with a title of one space. *)
Definition untitled : Req.t :=
  Req.mk (Some teacher) 0
    (Req.mkBody None (Some " ") (Some "Basic algebra exercises")
       (Some "Mathematics") (Some "Grade 9") None None None)
    Req.no_query
    (Some (Req.mkFile "algebra-worksheet.pdf"
             (Some "file-1700000000000-1.pdf") "application/pdf" 1024
             (Some "file-1700000000000-1.pdf")))
    None None [].

(** The moderator lists the pending resources. *)
Definition list_pending : Req.t :=
  with_status (request (Some moderator) 0 None) (Some "pending").

(** The pending catalog after the moderator has approved the worksheet. *)
Definition approved_once : World :=
  (approveResource Scenario.approve_it Scenario.pending_catalog).2.

(** The mathematics of the ninth grade of the school, asked by a visitor. *)
Definition mathematics_of_school : Req.t :=
  Req.set_query (Sample.request None 1 None)
    (Req.mkQuery None None None (Some "Mathematics") (Some "Grade 9")
       None None None None None).

End Cases.

(** *** The pages of the moderation queue *)

(** The pending resources of the catalog, in no order. *)
Definition waiting (d : Db) : list Resource.t :=
  filter (λ r, Resource.status r = pending) (map_to_list (resources d)).*2.

(** Older, for two resources. *)
Definition older (a b : Resource.t) : Prop :=
  (Resource.createdAt a < Resource.createdAt b)%Z.

(** The request for one page of the queue. *)
Definition page_request (page limit : Z) : Req.t :=
  Req.mk None 0 Req.no_body
    (Req.mkQuery (Some page) (Some limit) None None None None None None None
       None)
    None None None [].

(** The pending resources, oldest first. *)
Definition pending_queue (w : World) : list Resource.t :=
  merge_sort createdAt_asc (select w status_pending).

(** The resources of the answer to the request for a page. *)
Definition pending_page (w : World) (page limit : Z) : list Resource.t :=
  match (getPendingResources (page_request page limit) w).1 with
  | Json _ (PendingData l _) => l
  | _ => []
  end.

(** *** Strings *)

(** The characters of a string. *)
Definition chars (s : string) : list ascii := String.list_ascii_of_string s.

(** A string of white space only; the empty string is one. *)
Definition blank (s : string) : Prop :=
  ∀ c, c ∈ chars s → Ascii.is_space c = true.

(** A character of ASCII: a string of such characters is the same text in
    JavaScript, one character for one code unit. *)
Definition is_ascii (c : ascii) : Prop := nat_of_ascii c < 128.

Definition ascii_only (s : string) : Prop := ∀ c, c ∈ chars s → is_ascii c.

(** *** The moderation log *)

(** A log entry that records a decision on a pending resource: the
    approval of a pending resource, or its rejection. *)
Definition decision_entry (l : ModerationLog.t) : Prop :=
  ModerationLog.previousStatus l = pending
  ∧ ModerationLog.newStatus l
    = match ModerationLog.action l with
      | action_approved => approved
      | action_rejected => rejected
      end.

(** Every entry of the log records such a decision. *)
Definition audit_trail (d : Db) : Prop :=
  map_Forall (λ _ l, decision_entry l) (moderationlogs d).

(** A computation that leaves the moderation log as it is. *)
Definition unlogged {A} (c : M A) : Prop :=
  ∀ w, moderationlogs (db (c w).2) = moderationlogs (db w).

(** *** The most downloaded resources *)

(** A row of the aggregation of the downloads by resource, after the
    lookup of the resource. *)
Record PopularResource := mkPopularResource {
  popular_id : ObjectId;
  popular_downloadCount : Z;
  popular_resource : Resource.t
}.

Definition downloadCount_desc : relation (ObjectId * Z) :=
  λ a b, (b.2 ≤ a.2)%Z.

Global Instance downloadCount_desc_dec : RelDecision downloadCount_desc.
Proof. intros a b. unfold downloadCount_desc. apply _. Defined.

(** The download records since a date. *)
Definition downloads_since (d : Db) (startDate : Z) : list Download.t :=
  filter (λ x, (startDate ≤ Download.downloadedAt x)%Z)
    (map_to_list (downloads d)).*2.

(** [$group: { _id: '$resource', downloadCount: { $sum: 1 } }] *)
Definition group_downloads (l : list Download.t) : list (ObjectId * Z) :=
  (λ id, (id, Z.of_nat (length (filter (λ x, Download.resource x = id) l))))
    <$> remove_dups (Download.resource <$> l).

(** [downloadSchema.statics.getPopularResources], with its defaults of
    thirty days and ten resources.  [days_before] is
    [(d, n) => d.setDate(d.getDate() - n)] in the time zone of the
    process.  The stages of the pipeline: [$match] on the date, [$group]
    by resource, [$sort] by count, [$limit], which the server refuses
    when it is not positive, [$lookup] in the resources with [$unwind],
    which drops the groups whose resource is gone, and [$match] on the
    status of the resource.  Among groups of the same count, the server
    is free; the order here is that of the merge sort. *)
Definition Download_getPopularResources (days_before : Z → Z → Z)
    (days limit : option Z) : M (list PopularResource) :=
  now <- new_Date ;;
  let startDate := days_before now (default 30%Z days) in
  remote_call ;;;
  if (default 10%Z limit <=? 0)%Z then
    throw (MongoError "the limit must be positive")
  else
    w <- get_world ;;
    let top :=
      take (Z.to_nat (default 10%Z limit))
        (merge_sort downloadCount_desc
           (group_downloads (downloads_since (db w) startDate))) in
    let joined :=
      omap (λ g, r ← resources (db w) !! g.1;
                 Some (mkPopularResource g.1 g.2 r)) top in
    ret (filter (λ row, Resource.status (popular_resource row) = approved)
           joined).

Module Rounds.
Import Sample.

(** An empty catalog; the upload middleware has stored the file of the
    worksheet on the disk. *)
Definition file_received : World :=
  world [] ["file-1700000000000-1.pdf"] [].

(** The worksheet is uploaded, then deleted by the teacher. *)
Definition after_upload : World :=
  (uploadResource upload file_received).2.
Definition after_delete : World :=
  (deleteResource Scenario.delete_it after_upload).2.

(** The date so many days before, for a process in the time zone UTC. *)
Definition days_before_utc (now days : Z) : Z :=
  (now - days * 86400000)%Z.

(** Two worksheets: the pending one was downloaded twice, by the teacher
    and by the moderator, the approved one once, by the pupil. *)
Definition pending_is_popular : World :=
  mkWorld
    (mkDb (resources (database [worksheet 1 pending; worksheet 2 approved]))
       ∅
       {[100 := Download.mk 100 10 1 1500 None None false Download.synced;
         101 := Download.mk 101 20 1 1600 None None false Download.synced;
         102 := Download.mk 102 30 2 1700 None None false Download.synced]}
       {[1 := central_high]} ∅)
    ∅ ∅ [] 2000 103 [] LocalDriver (λ _ _, true).

End Rounds.

(** * Properties *)

(** ** The monad *)

Lemma remote_call_available w : faults w = [] → remote_call w = (Ok tt, w).
Proof. unfold remote_call. by intros ->. Qed.

(** Unfolds the plumbing of the monad. *)
Ltac unfold_async :=
  unfold asyncHandler, bind, ret, throw, try_catch, get_world, modify_db,
    modify_world, new_Date, new_ObjectId, req_user, populate, console_error
    in *.

(** ** Moderation of a resource that is not pending *)

Lemma approve_non_pending (req : Req.t) (w : World) (r : Resource.t) :
  resources (db w) !! Req.params_id req = Some r →
  Resource.status r ≠ pending →
  approveResource req w = refusal req true w.
Proof.
  intros Hr Hst.
  unfold approveResource, asyncHandler, approveResource_fn, refusal.
  destruct (negb (bool_decide (Req.validationErrors req = []))); [done|].
  unfold Resource_findById, remote_call. unfold_async. simpl.
  destruct (faults w) as [|[] fs]; simpl; [|done|];
    rewrite Hr; rewrite bool_decide_eq_false_2 by done; done.
Qed.

Lemma reject_non_pending (req : Req.t) (w : World) (r : Resource.t) :
  resources (db w) !! Req.params_id req = Some r →
  Resource.status r ≠ pending →
  rejectResource req w
  = refusal req (negb (notes_missing (Req.notes (Req.body req)))) w.
Proof.
  intros Hr Hst.
  unfold rejectResource, asyncHandler, rejectResource_fn, refusal.
  destruct (negb (bool_decide (Req.validationErrors req = []))); [done|].
  destruct (notes_missing (Req.notes (Req.body req))); [done|].
  unfold Resource_findById, remote_call. unfold_async. simpl.
  destruct (faults w) as [|[] fs]; simpl; [|done|];
    rewrite Hr; rewrite bool_decide_eq_false_2 by done; done.
Qed.

Lemma refusal_spec (req : Req.t) (notes_ok : bool) (w : World) :
  db (refusal req notes_ok w).2 = db w
  ∧ failed (refusal req notes_ok w).1
  ∧ (Req.validationErrors req = [] → notes_ok = true → faults w = [] →
     (refusal req notes_ok w).1 = InvalidTransition).
Proof.
  unfold refusal. case_bool_decide as Herr; simpl.
  - destruct notes_ok; simpl.
    + destruct (faults w) as [|[] fs]; simpl; (split_and!; [done| |done]);
        try done; unfold InvalidTransition; simpl; lia.
    + split_and!; [done|lia|done].
  - split_and!; [done|lia|done].
Qed.

(** C5. Approve and reject on a resource that is not pending write
    nothing and report a failure, and a well-formed request gets
    InvalidTransition. *)
Theorem moderation_refuses_non_pending (req : Req.t) (w : World)
    (r : Resource.t) :
  resources (db w) !! Req.params_id req = Some r →
  Resource.status r ≠ pending →
  (db (approveResource req w).2 = db w
   ∧ failed (approveResource req w).1
   ∧ (Req.validationErrors req = [] → faults w = [] →
      (approveResource req w).1 = InvalidTransition))
  ∧ (db (rejectResource req w).2 = db w
     ∧ failed (rejectResource req w).1
     ∧ (Req.validationErrors req = [] →
        notes_missing (Req.notes (Req.body req)) = false →
        faults w = [] →
        (rejectResource req w).1 = InvalidTransition)).
Proof.
  intros Hr Hst.
  rewrite (approve_non_pending req w r Hr Hst).
  rewrite (reject_non_pending req w r Hr Hst).
  split.
  - destruct (refusal_spec req true w) as (? & ? & H). split_and!; auto.
  - destruct (refusal_spec req
                (negb (notes_missing (Req.notes (Req.body req)))) w)
      as (? & ? & H).
    split_and!; auto. intros ? Hn ?. apply H; auto. by rewrite Hn.
Qed.

(** ** The calls to remote services *)

Lemma remote_call_eq w :
  remote_call w = (if up w then Ok tt else Throw NetworkError, pop w).
Proof. unfold remote_call, up, pop. by destruct (faults w) as [|[] ?]. Qed.

Lemma pop_db w : db (pop w) = db w.
Proof. unfold pop. by destruct (faults w). Qed.

Lemma pop_clock w : clock (pop w) = clock w.
Proof. unfold pop. by destruct (faults w). Qed.

Lemma pop_oidgen w : oidgen (pop w) = oidgen w.
Proof. unfold pop. by destruct (faults w). Qed.

Lemma pop_faults w : faults (pop w) = tail (faults w).
Proof. unfold pop. by destruct (faults w) eqn:E. Qed.

Lemma pop_available w : faults w = [] → pop w = w.
Proof. unfold pop. by intros ->. Qed.

Lemma up_available w : faults w = [] → up w = true.
Proof. unfold up. by intros ->. Qed.

Lemma up_head w : up w = true ↔ faults w !! 0 ≠ Some true.
Proof. unfold up. destruct (faults w) as [|[] ?]; simpl; naive_solver. Qed.

Lemma up_set_db w d : up (set_db w d) = up w.
Proof. done. Qed.

Lemma up_set_oidgen w n : up (set_oidgen w n) = up w.
Proof. done. Qed.

Lemma pop_set_oidgen w n : pop (set_oidgen w n) = set_oidgen (pop w) n.
Proof. unfold pop. simpl. by destruct (faults w). Qed.

(** ** Validation *)

Lemma rev_app_length s1 s2 :
  String.length (String.rev_app s1 s2) = String.length s1 + String.length s2.
Proof.
  revert s2. induction s1 as [|c s1 IH]; intros s2; simpl; [done|].
  rewrite IH. simpl. lia.
Qed.

Lemma trimStart_length s : String.length (Js.trimStart s) ≤ String.length s.
Proof.
  induction s as [|c s IH]; simpl; [done|].
  destruct (Ascii.is_space c); simpl; lia.
Qed.

Lemma trim_length s : String.length (Js.trim s) ≤ String.length s.
Proof.
  unfold Js.trim, Js.trimEnd, String.rev.
  rewrite rev_app_length. simpl.
  pose proof (trimStart_length (String.rev_app (Js.trimStart s) "")) as H1.
  rewrite rev_app_length in H1. simpl in H1.
  pose proof (trimStart_length s). lia.
Qed.

Lemma maxlength_fits path n message s :
  String.length s ≤ n → maxlength path n message s = None.
Proof.
  intros H. unfold maxlength.
  destruct (Nat.ltb_spec n (String.length s)); [lia|done].
Qed.

Lemma maxlength_opt_fits path n message (o : option string) :
  (∀ s, o = Some s → String.length s ≤ n) →
  maxlength_opt path n message o = None.
Proof.
  intros H. destruct o as [s|]; simpl; [|done].
  apply maxlength_fits. by apply H.
Qed.

Lemma validate_set_moderation r s by_ at_ notes :
  Resource_validate r = None →
  (∀ n, notes = Some n → String.length n ≤ 500) →
  Resource_validate (Resource.set_moderation r s by_ at_ notes) = None.
Proof.
  intros Hv Hn. unfold Resource_validate, first_error in *. simpl in *.
  rewrite (maxlength_opt_fits _ _ _ notes Hn).
  repeat case_match; congruence.
Qed.

Lemma log_pre_save_pending id resource moderator action notes to at_ :
  to ∈ [approved; rejected] →
  ModerationLog_pre_save
    (ModerationLog.mk id resource moderator action notes pending to at_)
  = None.
Proof.
  intros Hto. unfold ModerationLog_pre_save. simpl.
  by rewrite bool_decide_eq_true_2.
Qed.

Lemma log_validate_fits id resource moderator action notes from to at_ :
  (∀ n, notes = Some n → String.length n ≤ 500) →
  ModerationLog_validate
    (ModerationLog.mk id resource moderator action (Js.trim <$> notes)
       from to at_)
  = None.
Proof.
  intros Hn. unfold ModerationLog_validate. simpl.
  apply maxlength_opt_fits. intros s Hs.
  destruct notes as [n|]; simplify_eq/=.
  pose proof (trim_length n). specialize (Hn n eq_refl). lia.
Qed.

Lemma or_null_fits (notes : option string) :
  (∀ n, notes = Some n → String.length n ≤ 500) →
  ∀ n, or_null notes = Some n → String.length n ≤ 500.
Proof. unfold or_null. destruct (Js.truthy_opt notes); naive_solver. Qed.

(** ** The operations of the models, step by step *)

Lemma Resource_findById_eq id w :
  Resource_findById id w
  = (if up w then Ok (resources (db w) !! id) else Throw NetworkError, pop w).
Proof.
  unfold Resource_findById. unfold_async. rewrite remote_call_eq.
  destruct (up w); [|done]. by rewrite pop_db.
Qed.

Lemma Resource_save_eq r w :
  Resource_validate r = None →
  Resource_save r w
  = if up w
    then (Ok (Resource.set_updatedAt r (clock w)),
          set_db (pop w)
            (set_resources (db w)
               (<[Resource._id r := Resource.set_updatedAt r (clock w)]>
                  (resources (db w)))))
    else (Throw NetworkError, pop w).
Proof.
  intros Hv. unfold Resource_save. rewrite Hv. unfold_async.
  rewrite remote_call_eq. destruct (up w); [|done].
  by rewrite pop_clock, pop_db.
Qed.

Lemma Resource_save_invalid r w e :
  Resource_validate r = Some e → Resource_save r w = (Throw e, w).
Proof. intros Hv. unfold Resource_save. by rewrite Hv. Qed.

(** ** Computations that only read *)

Lemma bind_eq {A B} (c : M A) (k : A → M B) w :
  bind c k w = match c w with
               | (Ok a, w') => k a w'
               | (Throw e, w') => (Throw e, w')
               end.
Proof. done. Qed.

Lemma readonly_ret {A} (a : A) : readonly (ret a).
Proof. done. Qed.

Lemma readonly_throw {A} e : readonly (@throw A e).
Proof. done. Qed.

Lemma readonly_bind {A B} (c : M A) (k : A → M B) :
  readonly c → (∀ a, readonly (k a)) → readonly (bind c k).
Proof.
  intros Hc Hk w. rewrite bind_eq. specialize (Hc w).
  destruct (c w) as [[a|e] w']; simpl in *; [|done].
  by rewrite Hk.
Qed.

Lemma readonly_try_catch {A} (c : M A) (h : Err → M A) :
  readonly c → (∀ e, readonly (h e)) → readonly (try_catch c h).
Proof.
  intros Hc Hh w. unfold try_catch. specialize (Hc w).
  destruct (c w) as [[a|e] w']; simpl in *; [done|].
  by rewrite Hh.
Qed.

Lemma readonly_remote_call : readonly remote_call.
Proof. intros w. rewrite remote_call_eq. apply pop_db. Qed.

Lemma readonly_populate path : readonly (populate path).
Proof. apply readonly_remote_call. Qed.

Lemma readonly_get_world : readonly get_world.
Proof. done. Qed.

Lemma readonly_console_error line : readonly (console_error line).
Proof. done. Qed.

Lemma readonly_new_Date : readonly new_Date.
Proof. done. Qed.

Lemma readonly_req_user req : readonly (req_user req).
Proof. unfold req_user. by destruct (Req.user req). Qed.

Lemma readonly_findById id : readonly (Resource_findById id).
Proof. intros w. rewrite Resource_findById_eq. apply pop_db. Qed.

Create HintDb readonly.
#[global] Hint Resolve readonly_ret readonly_throw readonly_remote_call
  readonly_populate readonly_get_world readonly_console_error
  readonly_new_Date readonly_req_user readonly_findById : readonly.

(** Solves [readonly c] for a computation built from reads. *)
Ltac solve_readonly :=
  repeat first
    [ progress eauto with readonly
    | apply readonly_bind; [|intros ?]
    | apply readonly_try_catch; [|intros ?]
    | match goal with
      | |- readonly (if ?b then _ else _) => destruct b
      | |- readonly (match ?x with _ => _ end) => destruct x
      end ].

(** What follows a computation and only reads does not show in the
    collections. *)
Lemma bind_tail_db {A B} (c : M A) (k : A → M B) w :
  (∀ a, readonly (k a)) → db (bind c k w).2 = db (c w).2.
Proof.
  intros Hk. rewrite bind_eq.
  destruct (c w) as [[a|e] w']; simpl; [|done]. apply Hk.
Qed.

Lemma asyncHandler_db (fn : Req.t → M Response) req w :
  db (asyncHandler fn req w).2 = db (fn req w).2.
Proof. unfold asyncHandler. by destruct (fn req w) as [[?|?] ?]. Qed.

(** ** A moderation decision on a pending resource *)

Lemma ModerationLog_create_eq resource moderator action notes from to w :
  let l := ModerationLog.mk (oidgen w) resource moderator action
             (Js.trim <$> notes) from to (clock w) in
  ModerationLog_validate l = None →
  ModerationLog_pre_save l = None →
  moderationlogs (db w) !! oidgen w = None →
  ModerationLog_create resource moderator action notes from to w
  = if up w
    then (Ok l,
          set_db (set_oidgen (pop w) (S (oidgen w)))
            (set_moderationlogs (db w)
               (<[oidgen w := l]> (moderationlogs (db w)))))
    else (Throw NetworkError, set_oidgen (pop w) (S (oidgen w))).
Proof.
  intros l Hv Hp Hf. unfold ModerationLog_create. unfold_async. simpl.
  fold l. rewrite Hv, Hp, remote_call_eq. simpl.
  rewrite up_set_oidgen, !pop_set_oidgen. destruct (up w); [|done]. simpl.
  rewrite pop_db, Hf. simpl. by rewrite pop_db.
Qed.

Section decision.
Context (v : Verdict) (req : Req.t) (w : World) (r : Resource.t)
        (u : Req.AuthUser).
Hypothesis Hwf : well_formed v req.
Hypothesis Hu : Req.user req = Some u.
Hypothesis Hr : resources (db w) !! Req.params_id req = Some r.
Hypothesis Hid : Resource._id r = Req.params_id req.
Hypothesis Hst : Resource.status r = pending.
Hypothesis Hvalid : Resource_validate r = None.
Hypothesis Hfresh : moderationlogs (db w) !! oidgen w = None.

Let notes := Req.notes (Req.body req).

(** The collections after the request, by the calls that get through:
    the read, the save of the resource, the insertion of the log. *)
Lemma moderate_pending_db :
  db (moderate v req w).2
  = if up w && up (pop w) then
      let d := set_resources (db w)
                 (<[Req.params_id req := decided v r u notes w]>
                    (resources (db w))) in
      if up (pop (pop w)) then
        set_moderationlogs d
          (<[oidgen w := decision_log v r u notes w]> (moderationlogs (db w)))
      else d
    else db w.
Proof.
  destruct Hwf as (Herr & Hlen & Hrej).
  assert (Hpending : bool_decide (Resource.status r = pending) = true)
    by by apply bool_decide_eq_true_2.
  destruct v; simpl.
  - unfold approveResource. rewrite asyncHandler_db.
    unfold approveResource_fn. rewrite Herr. simpl.
    rewrite bind_eq, Resource_findById_eq.
    destruct (up w); simpl; [|by rewrite pop_db].
    rewrite Hr, Hpending. simpl.
    rewrite bind_eq. unfold req_user. rewrite Hu. unfold ret at 1.
    rewrite bind_eq. unfold new_Date at 1.
    rewrite bind_eq, Resource_save_eq
      by (apply validate_set_moderation; [done|by apply or_null_fits]).
    destruct (up (pop w)); simpl; [|by rewrite !pop_db].
    rewrite bind_tail_db by (intros ?; solve_readonly).
    rewrite ModerationLog_create_eq; simpl;
      [|by apply log_validate_fits
       |rewrite Hst; apply log_pre_save_pending; set_solver
       |by rewrite !pop_db, !pop_oidgen].
    rewrite up_set_db, !pop_db, !pop_clock, !pop_oidgen, Hid.
    unfold decided, decision_log. simpl. rewrite Hid.
    by destruct (up (pop (pop w))); simpl; rewrite ?pop_db.
  - specialize (Hrej eq_refl).
    unfold rejectResource. rewrite asyncHandler_db.
    unfold rejectResource_fn. rewrite Herr, Hrej. simpl.
    rewrite bind_eq, Resource_findById_eq.
    destruct (up w); simpl; [|by rewrite pop_db].
    rewrite Hr, Hpending. simpl.
    rewrite bind_eq. unfold req_user. rewrite Hu. unfold ret at 1.
    rewrite bind_eq. unfold new_Date at 1.
    rewrite bind_eq, Resource_save_eq
      by (by apply validate_set_moderation).
    destruct (up (pop w)); simpl; [|by rewrite !pop_db].
    rewrite bind_tail_db by (intros ?; solve_readonly).
    rewrite ModerationLog_create_eq; simpl;
      [|by apply log_validate_fits
       |rewrite Hst; apply log_pre_save_pending; set_solver
       |by rewrite !pop_db, !pop_oidgen].
    rewrite up_set_db, !pop_db, !pop_clock, !pop_oidgen, Hid.
    unfold decided, decision_log. simpl. rewrite Hid.
    by destruct (up (pop (pop w))); simpl; rewrite ?pop_db.
Qed.
End decision.

Lemma faults_iter n w : faults (Nat.iter n pop w) = drop n (faults w).
Proof.
  induction n as [|n IH]; simpl; [by rewrite drop_0|].
  rewrite pop_faults, IH. generalize (faults w). clear.
  intros l. revert n. induction l as [|x l IH]; intros [|n]; simpl; auto.
Qed.

Lemma up_iter n w :
  up (Nat.iter n pop w) = true ↔ faults w !! n ≠ Some true.
Proof.
  rewrite up_head, faults_iter, lookup_drop. by rewrite Nat.add_0_r.
Qed.

Lemma through_up n w i :
  through n w → i < n → up (Nat.iter i pop w) = true.
Proof. intros H Hi. apply up_iter. by apply H. Qed.

Lemma fails_at_up n w : fails_at n w → up (Nat.iter n pop w) = false.
Proof.
  intros H. apply not_true_is_false. rewrite up_iter. unfold fails_at in H.
  naive_solver.
Qed.

Lemma through_2 w : through 2 w → up w = true ∧ up (pop w) = true.
Proof.
  intros H. split; [apply (through_up 2 w 0 H)|apply (through_up 2 w 1 H)]; lia.
Qed.

Lemma through_3 w :
  through 3 w → up w = true ∧ up (pop w) = true ∧ up (pop (pop w)) = true.
Proof.
  intros H. split_and!;
    [apply (through_up 3 w 0 H)|apply (through_up 3 w 1 H)
    |apply (through_up 3 w 2 H)]; lia.
Qed.

(** C3, as amended. A moderation decision is two writes in sequence, the
    save of the resource and then the insertion of the log entry.  When
    both get through, the new status and a matching log entry are there
    together; when the request stops at or before the save, neither is;
    when the save gets through and the insertion fails, the new status
    stays without a log entry. *)
Theorem moderation_writes_in_sequence (v : Verdict) (req : Req.t)
    (w : World) (r : Resource.t) (u : Req.AuthUser) :
  well_formed v req →
  Req.user req = Some u →
  resources (db w) !! Req.params_id req = Some r →
  Resource._id r = Req.params_id req →
  Resource.status r = pending →
  Resource_validate r = None →
  moderationlogs (db w) !! oidgen w = None →
  Resource.status (decided v r u (Req.notes (Req.body req)) w)
  = verdict_status v
  ∧ (through 3 w →
     resources (db (moderate v req w).2) !! Req.params_id req
     = Some (decided v r u (Req.notes (Req.body req)) w)
     ∧ logged (moderate v req w).2 (Req.params_id req) pending
         (verdict_status v))
  ∧ (fails_at 0 w ∨ (through 1 w ∧ fails_at 1 w) →
     db (moderate v req w).2 = db w)
  ∧ (through 2 w → fails_at 2 w →
     resources (db (moderate v req w).2) !! Req.params_id req
     = Some (decided v r u (Req.notes (Req.body req)) w)
     ∧ moderationlogs (db (moderate v req w).2) = moderationlogs (db w)).
Proof.
  intros Hwf Hu Hr Hid Hst Hvalid Hfresh. unfold logged.
  rewrite (moderate_pending_db v req w r u) by done.
  split; [done|]. split_and!.
  - intros Ht. destruct (through_3 w Ht) as (-> & -> & ->).
    simpl. split; [by rewrite lookup_insert_eq|].
    apply map_Exists_insert_2_1.
    unfold decision_log. simpl. by rewrite Hid, Hst.
  - intros [Hf|[Ht Hf]].
    + apply fails_at_up in Hf. simpl in Hf. by rewrite Hf.
    + apply fails_at_up in Hf. simpl in Hf. rewrite Hf.
      by rewrite andb_false_r.
  - intros Ht Hf. destruct (through_2 w Ht) as (-> & ->).
    apply fails_at_up in Hf. simpl in Hf. rewrite Hf. simpl.
    by rewrite lookup_insert_eq.
Qed.

(** The approval of the pending worksheet, all calls getting through. *)
Lemma moderation_writes_in_sequence_witness :
  through 3 Scenario.pending_catalog
  ∧ resources (db (approveResource Scenario.approve_it
                     Scenario.pending_catalog).2) !! 1
    = Some (decided Approve (Sample.worksheet 1 pending) Sample.moderator
              (Some "ok") Scenario.pending_catalog)
  ∧ logged (approveResource Scenario.approve_it Scenario.pending_catalog).2
      1 pending approved.
Proof.
  assert (Ht : through 3 Scenario.pending_catalog).
  { intros i _. vm_compute. by destruct i. }
  split; [exact Ht|].
  apply (moderation_writes_in_sequence Approve Scenario.approve_it
           Scenario.pending_catalog (Sample.worksheet 1 pending)
           Sample.moderator); try reflexivity; try exact Ht.
  split_and!; [reflexivity| |discriminate].
  intros s [= <-]. vm_compute. lia.
Defined.

(** C3, counterexample. The log write of an approval is lost: the
    resource is approved, and the moderation log is empty. *)
Lemma approval_without_log_entry :
  Resource.status
    <$> resources (db (approveResource Scenario.approve_it
                         Scenario.log_write_lost).2) !! 1
  = Some approved
  ∧ moderationlogs (db (approveResource Scenario.approve_it
                          Scenario.log_write_lost).2) = ∅.
Proof. by vm_compute. Qed.

(** The approval and the rejection of the approved worksheet. *)
Lemma moderation_refuses_non_pending_witness :
  (db (approveResource Scenario.approve_it Scenario.approved_catalog).2
   = db Scenario.approved_catalog
   ∧ failed (approveResource Scenario.approve_it Scenario.approved_catalog).1
   ∧ (Req.validationErrors Scenario.approve_it = [] →
      faults Scenario.approved_catalog = [] →
      (approveResource Scenario.approve_it Scenario.approved_catalog).1
      = InvalidTransition))
  ∧ (db (rejectResource Scenario.approve_it Scenario.approved_catalog).2
     = db Scenario.approved_catalog
     ∧ failed (rejectResource Scenario.approve_it Scenario.approved_catalog).1
     ∧ (Req.validationErrors Scenario.approve_it = [] →
        notes_missing (Req.notes (Req.body Scenario.approve_it)) = false →
        faults Scenario.approved_catalog = [] →
        (rejectResource Scenario.approve_it Scenario.approved_catalog).1
        = InvalidTransition)).
Proof.
  apply (moderation_refuses_non_pending Scenario.approve_it
           Scenario.approved_catalog (Sample.worksheet 1 approved)).
  - reflexivity.
  - simpl. discriminate.
Defined.

(** ** The transitions that the moderation operations take *)

(** C2, as amended. The table that the moderation log checks before an
    entry is saved admits approved to rejected and rejected to approved,
    but the operations take a pending resource only: reject on an approved
    resource and approve on a rejected one answer InvalidTransition and
    leave everything as it was. *)
Theorem moderation_only_from_pending (req : Req.t) (w : World)
    (r : Resource.t) :
  resources (db w) !! Req.params_id req = Some r →
  faults w = [] →
  (rejected ∈ validTransitions approved ∧ approved ∈ validTransitions rejected)
  ∧ (Resource.status r = approved → well_formed Reject req →
     rejectResource req w = (InvalidTransition, w))
  ∧ (Resource.status r = rejected → well_formed Approve req →
     approveResource req w = (InvalidTransition, w)).
Proof.
  intros Hr Hf. split; [|split].
  - simpl. set_solver.
  - intros Hs (Herr & _ & Hn).
    rewrite (reject_non_pending req w r Hr) by by rewrite Hs.
    unfold refusal. by rewrite Herr, (Hn eq_refl), Hf.
  - intros Hs (Herr & _ & _).
    rewrite (approve_non_pending req w r Hr) by by rewrite Hs.
    unfold refusal. by rewrite Herr, Hf.
Qed.

(** The rejection of the approved worksheet. *)
Lemma moderation_only_from_pending_witness :
  (rejected ∈ validTransitions approved ∧ approved ∈ validTransitions rejected)
  ∧ (Resource.status (Sample.worksheet 1 approved) = approved →
     well_formed Reject Scenario.reject_it →
     rejectResource Scenario.reject_it Scenario.approved_catalog
     = (InvalidTransition, Scenario.approved_catalog))
  ∧ (Resource.status (Sample.worksheet 1 approved) = rejected →
     well_formed Approve Scenario.reject_it →
     approveResource Scenario.reject_it Scenario.approved_catalog
     = (InvalidTransition, Scenario.approved_catalog)).
Proof.
  apply (moderation_only_from_pending Scenario.reject_it
           Scenario.approved_catalog (Sample.worksheet 1 approved));
    reflexivity.
Defined.

(** C2, counterexample. A well-formed reject on an approved resource does
    not succeed: it is answered with InvalidTransition and the resource
    stays approved; likewise approve on a rejected resource. *)
Lemma reject_of_approved_refused :
  (Resource.status <$> resources (db Scenario.approved_catalog) !! 1
   = Some approved
   ∧ (rejectResource Scenario.reject_it Scenario.approved_catalog).1
     = Json 400 (Failure "Resource is not pending moderation")
   ∧ Resource.status
       <$> resources (db (rejectResource Scenario.reject_it
                            Scenario.approved_catalog).2) !! 1
     = Some approved)
  ∧ (Resource.status <$> resources (db Scenario.rejected_catalog) !! 1
     = Some rejected
     ∧ (approveResource Scenario.approve_it Scenario.rejected_catalog).1
       = Json 400 (Failure "Resource is not pending moderation")
     ∧ Resource.status
         <$> resources (db (approveResource Scenario.approve_it
                              Scenario.rejected_catalog).2) !! 1
       = Some rejected).
Proof. by vm_compute. Qed.

(** ** Queries *)

Lemma select_pop w q : select (pop w) q = select w q.
Proof. unfold select. rewrite pop_db. unfold pop. by destruct (faults w). Qed.

Lemma Resource_find_eq q (order : relation Resource.t) `{!RelDecision order}
    skip limit w :
  Resource_find q order skip limit w
  = (if up w
     then if (skip <? 0)%Z
          then Throw (MongoError "skip must be non-negative")
          else Ok (apply_limit limit
                     (drop (Z.to_nat skip) (merge_sort order (select w q))))
     else Throw NetworkError,
     pop w).
Proof.
  unfold Resource_find. unfold_async. rewrite remote_call_eq.
  destruct (up w); [|done]. destruct (skip <? 0)%Z; [done|].
  by rewrite select_pop.
Qed.

Lemma Resource_countDocuments_eq q w :
  Resource_countDocuments q w
  = (if up w then Ok (Z.of_nat (length (select w q))) else Throw NetworkError,
     pop w).
Proof.
  unfold Resource_countDocuments. unfold_async. rewrite remote_call_eq.
  destruct (up w); [|done]. by rewrite select_pop.
Qed.

Lemma Resource_distinct_eq path q w :
  Resource_distinct path q w
  = (if up w then Ok (remove_dups (path <$> select w q))
     else Throw NetworkError,
     pop w).
Proof.
  unfold Resource_distinct. unfold_async. rewrite remote_call_eq.
  destruct (up w); [|done]. by rewrite select_pop.
Qed.

Lemma readonly_find q (order : relation Resource.t) `{!RelDecision order}
    skip limit :
  readonly (Resource_find q order skip limit).
Proof. intros w. rewrite Resource_find_eq. apply pop_db. Qed.

Lemma readonly_countDocuments q : readonly (Resource_countDocuments q).
Proof. intros w. rewrite Resource_countDocuments_eq. apply pop_db. Qed.

Lemma readonly_distinct path q : readonly (Resource_distinct path q).
Proof. intros w. rewrite Resource_distinct_eq. apply pop_db. Qed.

#[global] Hint Resolve readonly_find readonly_countDocuments
  readonly_distinct : readonly.

Lemma apply_limit_subseteq {A} n (l : list A) : apply_limit n l ⊆ l.
Proof.
  unfold apply_limit. destruct (n =? 0)%Z; [done|apply subseteq_take].
Qed.

(** A page of a sorted selection holds selected documents only. *)
Lemma page_subseteq (order : relation Resource.t) `{!RelDecision order}
    skip limit l :
  apply_limit limit (drop skip (merge_sort order l)) ⊆ l.
Proof.
  intros x Hx. apply apply_limit_subseteq, subseteq_drop in Hx.
  by rewrite merge_sort_Permutation in Hx.
Qed.

Lemma select_matches w q r :
  r ∈ select w q → matches (text_index w) q r = true.
Proof.
  unfold select. rewrite list_elem_of_filter. intros [H _].
  by apply Is_true_true.
Qed.

Lemma matches_status text q r s :
  f_status q = Some (status_name s) → matches text q r = true →
  Resource.status r = s.
Proof.
  unfold matches. intros ->. simpl. rewrite !andb_true_iff.
  intros [[[[[[[[[_ H] _] _] _] _] _] _] _] _].
  apply String.eqb_eq in H. by destruct (Resource.status r), s.
Qed.

(** The documents of a page all have the status that the filter asks. *)
Lemma page_status (order : relation Resource.t) `{!RelDecision order}
    w q s skip limit :
  f_status q = Some (status_name s) →
  Forall (λ r, Resource.status r = s)
    (apply_limit limit (drop skip (merge_sort order (select w q)))).
Proof.
  intros Hq. apply Forall_forall. intros r Hr.
  apply page_subseteq in Hr.
  by eapply matches_status, select_matches.
Qed.

(** ** The moderation queue *)

Lemma createdAt_asc_trans : Transitive createdAt_asc.
Proof. unfold createdAt_asc. intros a b c. lia. Qed.

Lemma createdAt_asc_total : Total createdAt_asc.
Proof. unfold createdAt_asc. intros a b. lia. Qed.

Lemma apply_limit_sorted {A} (R : relation A) n (l : list A) :
  StronglySorted R l → StronglySorted R (apply_limit n l).
Proof.
  unfold apply_limit. destruct (n =? 0)%Z; [done|]. intros H.
  rewrite <-(take_drop (Z.to_nat (Z.abs n)) l) in H.
  by apply StronglySorted_app_1_l in H.
Qed.

Lemma drop_sorted {A} (R : relation A) n (l : list A) :
  StronglySorted R l → StronglySorted R (drop n l).
Proof.
  intros H. rewrite <-(take_drop n l) in H.
  by apply StronglySorted_app_1_r in H.
Qed.

Lemma sorted_lookup {A} (R : relation A) (l : list A) i j a b :
  StronglySorted R l → l !! i = Some a → l !! j = Some b → i < j → R a b.
Proof.
  intros H. revert i j. induction H as [|x l Hl IH Hx]; intros i j Hi Hj Hij.
  - by rewrite lookup_nil in Hi.
  - destruct i as [|i], j as [|j]; simplify_eq/=; try lia.
    + eapply Forall_forall; [exact Hx|]. by eapply list_elem_of_lookup_2.
    + apply (IH i j); auto. lia.
Qed.


Lemma matches_status_pending text r :
  matches text status_pending r = true ↔ Resource.status r = pending.
Proof.
  unfold matches, status_pending. simpl.
  rewrite !andb_true_r, String.eqb_eq. by destruct (Resource.status r).
Qed.

Lemma select_status_pending w : select w status_pending = waiting (db w).
Proof.
  unfold select, waiting. apply list_filter_iff. intros r.
  rewrite Is_true_true. apply matches_status_pending.
Qed.





(** The queue of the three worksheets: the two pending ones, the older
    first. *)
Example pending_queue_of_three :
  (getPendingResources (Sample.request (Some Sample.moderator) 0 None)
     Scenario.queue).1
  = Json 200
      (PendingData
         [Sample.worksheet_at 2 pending 1000; Sample.worksheet_at 1 pending 3000]
         (mkPagination 1 20 2 1)).
Proof. by vm_compute. Qed.

(** ** The catalog as callers that are not admins see it *)

Lemma getResources_query_non_admin req s :
  Req.is_admin req = false →
  getResources_query (with_status req s) = getResources_query req.
Proof.
  intros H. unfold getResources_query, with_status. simpl.
  unfold Req.is_admin in *. simpl. by rewrite H.
Qed.

Lemma getResources_query_status req :
  Req.is_admin req = false →
  f_status (getResources_query req) = Some (status_name approved).
Proof. intros H. unfold getResources_query. by rewrite H. Qed.

(** C9. For a caller who is not an admin, signed in or not, the listing
    holds approved resources only, and the [status] parameter of the
    request does not show in the answer. *)
Theorem listing_of_non_admin (req : Req.t) (w : World) :
  Req.is_admin req = false →
  (∀ s1 s2,
     getResources (with_status req s1) w = getResources (with_status req s2) w)
  ∧ (∀ s l subjects grades pg,
       (getResources (with_status req s) w).1
       = Json 200 (ListData l subjects grades pg) →
       Forall (λ r, Resource.status r = approved) l).
Proof.
  intros Hadmin.
  assert (Heq : ∀ s, getResources (with_status req s) w = getResources req w).
  { intros s. unfold getResources, asyncHandler, getResources_fn.
    by rewrite getResources_query_non_admin. }
  split; [intros s1 s2; by rewrite !Heq|].
  intros s l subjects grades pg. rewrite Heq.
  unfold getResources, asyncHandler, getResources_fn.
  rewrite bind_eq, Resource_find_eq. destruct (up w); [|done].
  destruct (_ <? 0)%Z; [done|].
  rewrite bind_eq, Resource_countDocuments_eq. destruct (up (pop w)); [|done].
  rewrite bind_eq, Resource_distinct_eq.
  destruct (up (pop (pop w))); [|done].
  rewrite bind_eq, Resource_distinct_eq.
  destruct (up (pop (pop (pop w)))); [|done].
  unfold ret. simpl. intros [= <- _ _ _].
  apply page_status. by apply getResources_query_status.
Qed.

(** The listing that the pupil asks for. *)
Lemma listing_of_non_admin_witness :
  (∀ s1 s2,
     getResources (with_status (Sample.request (Some Sample.pupil) 0 None) s1)
       Scenario.pending_catalog
     = getResources (with_status (Sample.request (Some Sample.pupil) 0 None) s2)
         Scenario.pending_catalog)
  ∧ (∀ s l subjects grades pg,
       (getResources (with_status (Sample.request (Some Sample.pupil) 0 None) s)
          Scenario.pending_catalog).1
       = Json 200 (ListData l subjects grades pg) →
       Forall (λ r, Resource.status r = approved) l).
Proof.
  apply (listing_of_non_admin (Sample.request (Some Sample.pupil) 0 None)
           Scenario.pending_catalog).
  reflexivity.
Defined.

(** ** Who reads a resource that is not approved *)

Lemma getResourceById_eq req w r :
  resources (db w) !! Req.params_id req = Some r →
  faults w = [] →
  getResourceById req w
  = (if negb (bool_decide (Resource.status r = approved))
        && negb (Req.is_admin req)
     then Json 404 (Failure "Resource not found")
     else Json 200 (ResourceData None r),
     w).
Proof.
  intros Hr Hf. unfold getResourceById, asyncHandler, getResourceById_fn.
  rewrite bind_eq, Resource_findById_eq, (up_available w Hf),
    (pop_available w Hf), Hr.
  by destruct (negb _ && negb _).
Qed.

Lemma related_approved req w l :
  (getRelatedResources req w).1 = Json 200 (RelatedData l) →
  Forall (λ r, Resource.status r = approved) l.
Proof.
  unfold getRelatedResources, asyncHandler, getRelatedResources_fn.
  rewrite bind_eq, Resource_findById_eq. destruct (up w); [|done].
  destruct (resources (db w) !! Req.params_id req) as [resource|]; [|done].
  rewrite bind_eq, Resource_find_eq. destruct (up (pop w)); [|done].
  simpl. unfold ret. intros [= <-]. by apply page_status.
Qed.

Lemma school_resources_approved req w l subjects grades pg :
  (getSchoolResources req w).1 = Json 200 (ListData l subjects grades pg) →
  Forall (λ r, Resource.status r = approved) l.
Proof.
  unfold getSchoolResources, asyncHandler, getSchoolResources_fn.
  rewrite bind_eq, Resource_find_eq. destruct (up w); [|done].
  destruct (_ <? 0)%Z; [done|].
  rewrite bind_eq, Resource_countDocuments_eq. destruct (up (pop w)); [|done].
  rewrite bind_eq, Resource_distinct_eq.
  destruct (up (pop (pop w))); [|done].
  rewrite bind_eq, Resource_distinct_eq.
  destruct (up (pop (pop (pop w)))); [|done].
  unfold ret. simpl. intros [= <- _ _ _]. by apply page_status.
Qed.

(** C4, as amended. A resource that is not approved is shown by the
    detail view to admins and to nobody else, its uploader included, and
    the listings of related resources and of the resources of a school
    show it to nobody, admins included. *)
Theorem non_approved_is_for_admins (req : Req.t) (w : World)
    (r : Resource.t) :
  Resource.status r ≠ approved →
  (resources (db w) !! Req.params_id req = Some r → faults w = [] →
   getResourceById req w
   = (if Req.is_admin req then Json 200 (ResourceData None r)
      else Json 404 (Failure "Resource not found"),
      w))
  ∧ (∀ l, (getRelatedResources req w).1 = Json 200 (RelatedData l) → r ∉ l)
  ∧ (∀ l subjects grades pg,
       (getSchoolResources req w).1 = Json 200 (ListData l subjects grades pg) →
       r ∉ l).
Proof.
  intros Hs. split_and!.
  - intros Hr Hf. rewrite (getResourceById_eq req w r Hr Hf).
    rewrite bool_decide_eq_false_2 by done. simpl.
    by destruct (Req.is_admin req).
  - intros l Hl Hin. apply related_approved in Hl.
    rewrite Forall_forall in Hl. by apply Hs, Hl.
  - intros l subjects grades pg Hl Hin.
    apply school_resources_approved in Hl.
    rewrite Forall_forall in Hl. by apply Hs, Hl.
Qed.

(** The pending worksheet, asked for by the moderator. *)
Lemma non_approved_is_for_admins_witness :
  (resources (db Scenario.pending_catalog)
     !! Req.params_id (Sample.request (Some Sample.moderator) 1 None)
   = Some (Sample.worksheet 1 pending) →
   faults Scenario.pending_catalog = [] →
   getResourceById (Sample.request (Some Sample.moderator) 1 None)
     Scenario.pending_catalog
   = (if Req.is_admin (Sample.request (Some Sample.moderator) 1 None)
      then Json 200 (ResourceData None (Sample.worksheet 1 pending))
      else Json 404 (Failure "Resource not found"),
      Scenario.pending_catalog))
  ∧ (∀ l,
       (getRelatedResources (Sample.request (Some Sample.moderator) 1 None)
          Scenario.pending_catalog).1 = Json 200 (RelatedData l) →
       Sample.worksheet 1 pending ∉ l)
  ∧ (∀ l subjects grades pg,
       (getSchoolResources (Sample.request (Some Sample.moderator) 1 None)
          Scenario.pending_catalog).1
       = Json 200 (ListData l subjects grades pg) →
       Sample.worksheet 1 pending ∉ l).
Proof.
  apply (non_approved_is_for_admins
           (Sample.request (Some Sample.moderator) 1 None)
           Scenario.pending_catalog (Sample.worksheet 1 pending)).
  simpl. discriminate.
Defined.

(** C4, counterexample. The teacher who uploaded a worksheet that is
    still pending asks for it by id, and is told that it is not found. *)
Lemma uploader_cannot_read_own_pending :
  Resource.uploader <$> resources (db Scenario.pending_catalog) !! 1
  = Some (Req.id Sample.teacher)
  ∧ Resource.status <$> resources (db Scenario.pending_catalog) !! 1
    = Some pending
  ∧ getResourceById (Sample.request (Some Sample.teacher) 1 None)
      Scenario.pending_catalog
    = (Json 404 (Failure "Resource not found"), Scenario.pending_catalog).
Proof. by vm_compute. Qed.

(** ** The storage services *)

Lemma local_deleteFile_absent key w :
  key ∉ disk w →
  LocalStorageService.deleteFile key w
  = (Throw (ENOENT key),
     set_console w (console w ++ ["Error deleting local file:"])).
Proof.
  intros H. unfold LocalStorageService.deleteFile, try_catch, fs_unlink.
  by rewrite bool_decide_eq_false_2.
Qed.

Lemma local_deleteFile_present key w :
  key ∈ disk w →
  LocalStorageService.deleteFile key w
  = (Ok tt, set_disk w (disk w ∖ {[key]})).
Proof.
  intros H. unfold LocalStorageService.deleteFile, try_catch, fs_unlink.
  by rewrite bool_decide_eq_true_2.
Qed.

Lemma s3_deleteFile_available key w :
  faults w = [] →
  S3StorageService.deleteFile key w
  = (Ok tt, set_bucket w (bucket w ∖ {[key]})).
Proof.
  intros H. unfold S3StorageService.deleteFile, try_catch,
    s3_send_DeleteObject. unfold_async.
  by rewrite remote_call_eq, (up_available w H), (pop_available w H).
Qed.

(** C7, as amended. On the local disk the delete of a key whose file is
    absent logs the error and throws it again, so that of two deletes of
    the same key the first succeeds and the second fails, the file being
    gone after each; on S3 the delete of a key succeeds whether or not the
    key holds an object, provided that the request gets through. *)
Theorem storage_delete_twice (key : string) (w : World) :
  (key ∉ disk w →
   LocalStorageService.deleteFile key w
   = (Throw (ENOENT key),
      set_console w (console w ++ ["Error deleting local file:"])))
  ∧ (key ∈ disk w →
     ∃ w1 w2,
       LocalStorageService.deleteFile key w = (Ok tt, w1)
       ∧ LocalStorageService.deleteFile key w1 = (Throw (ENOENT key), w2)
       ∧ disk w1 = disk w ∖ {[key]} ∧ disk w2 = disk w1)
  ∧ (faults w = [] →
     ∃ w1 w2,
       S3StorageService.deleteFile key w = (Ok tt, w1)
       ∧ S3StorageService.deleteFile key w1 = (Ok tt, w2)
       ∧ bucket w1 = bucket w ∖ {[key]} ∧ bucket w2 = bucket w1).
Proof.
  split_and!.
  - apply local_deleteFile_absent.
  - intros Hin. exists (set_disk w (disk w ∖ {[key]})). eexists.
    rewrite (local_deleteFile_present key w Hin).
    rewrite local_deleteFile_absent; [done|].
    simpl. rewrite elem_of_difference, elem_of_singleton. tauto.
  - intros Hf. exists (set_bucket w (bucket w ∖ {[key]})). eexists.
    rewrite (s3_deleteFile_available key w Hf).
    rewrite s3_deleteFile_available; [|done].
    split_and!; [done|done|done|]. simpl.
    apply set_eq. intros x. rewrite !elem_of_difference. tauto.
Qed.

(** C7, counterexample. The local storage service throws on the delete of
    a key whose file is absent, and on the second of two deletes. *)
Lemma local_delete_of_absent_key_throws :
  ("gone.pdf" ∉ disk Scenario.one_file)
  ∧ (LocalStorageService.deleteFile "gone.pdf" Scenario.one_file).1
    = Throw (ENOENT "gone.pdf")
  ∧ (LocalStorageService.deleteFile "a.pdf" Scenario.one_file).1 = Ok tt
  ∧ (LocalStorageService.deleteFile "a.pdf"
       (LocalStorageService.deleteFile "a.pdf" Scenario.one_file).2).1
    = Throw (ENOENT "a.pdf").
Proof. split; [by vm_compute|by vm_compute]. Qed.

(** ** The delete of a resource *)

Lemma readonly_deleteFile key : readonly (storageService.deleteFile key).
Proof.
  intros w. unfold storageService.deleteFile. rewrite bind_eq. simpl.
  destruct (driver w).
  - unfold LocalStorageService.deleteFile, try_catch, fs_unlink.
    by case_bool_decide.
  - unfold S3StorageService.deleteFile, try_catch, s3_send_DeleteObject.
    unfold_async. rewrite remote_call_eq.
    destruct (up w); simpl; by rewrite pop_db.
Qed.

Lemma deleteResource_storage_failure req w r u e w1 :
  resources (db w) !! Req.params_id req = Some r →
  Req.user req = Some u →
  Resource.uploader r = Req.id u ∨ Req.role u = admin →
  up w = true →
  storageService.deleteFile (File.key (Resource.file r)) (pop w)
  = (Throw e, w1) →
  deleteResource req w
  = (Json 500 (Failure "Error deleting resource"),
     set_console w1 (console w1 ++ ["Delete error:"])).
Proof.
  intros Hr Hu Hperm Hup He.
  assert (Hallowed :
    negb (bool_decide (Resource.uploader r = Req.id u))
    && negb (bool_decide (Req.role u = admin)) = false).
  { destruct Hperm as [H|H]; rewrite (bool_decide_eq_true_2 _ H); simpl;
      [done|by rewrite andb_false_r]. }
  unfold deleteResource, asyncHandler, deleteResource_fn.
  rewrite bind_eq, Resource_findById_eq, Hup, Hr.
  rewrite bind_eq. unfold req_user. rewrite Hu. unfold ret at 1.
  rewrite Hallowed. unfold try_catch. rewrite bind_eq, He. done.
Qed.

(** C6, as amended. When the delete of the stored file fails, the delete
    of the resource stops there: the failure is logged, the answer is an
    error, and the collections are as before, the resource still in the
    catalog and the counter of the school not decremented. *)
Theorem delete_stops_on_storage_failure (req : Req.t) (w : World)
    (r : Resource.t) (u : Req.AuthUser) (e : Err) :
  resources (db w) !! Req.params_id req = Some r →
  Req.user req = Some u →
  Resource.uploader r = Req.id u ∨ Req.role u = admin →
  through 1 w →
  (storageService.deleteFile (File.key (Resource.file r)) (pop w)).1
  = Throw e →
  (deleteResource req w).1 = Json 500 (Failure "Error deleting resource")
  ∧ db (deleteResource req w).2 = db w
  ∧ last (console (deleteResource req w).2) = Some "Delete error:".
Proof.
  intros Hr Hu Hperm Ht He.
  assert (Hup : up w = true) by (apply (through_up 1 w 0 Ht); lia).
  pose proof (readonly_deleteFile (File.key (Resource.file r)) (pop w)) as Hdb.
  destruct (storageService.deleteFile _ (pop w)) as [res w1] eqn:Hd.
  simpl in *. subst res.
  rewrite (deleteResource_storage_failure req w r u e w1) by done.
  simpl. rewrite Hdb, pop_db. split_and!; [done|done|].
  by rewrite last_snoc.
Qed.

(** The delete of the uploaded worksheet, whose file is not on the disk. *)
Lemma delete_stops_on_storage_failure_witness :
  (deleteResource Scenario.delete_it Scenario.uploaded).1
  = Json 500 (Failure "Error deleting resource")
  ∧ db (deleteResource Scenario.delete_it Scenario.uploaded).2
    = db Scenario.uploaded
  ∧ last (console (deleteResource Scenario.delete_it Scenario.uploaded).2)
    = Some "Delete error:".
Proof.
  apply (delete_stops_on_storage_failure Scenario.delete_it
           Scenario.uploaded
           Scenario.uploaded_worksheet Sample.teacher (ENOENT "file-1700000000000-1.pdf")).
  - by vm_compute.
  - reflexivity.
  - left. reflexivity.
  - intros i _. vm_compute. by destruct i.
  - by vm_compute.
Defined.

(** C6, counterexample. The file of an uploaded worksheet is not on the
    disk; the delete of the worksheet answers with an error, the worksheet
    stays in the catalog and the counter of its school stays at one. *)
Lemma resource_survives_storage_failure :
  (deleteResource Scenario.delete_it Scenario.uploaded).1
  = Json 500 (Failure "Error deleting resource")
  ∧ Resource.status
      <$> resources (db (deleteResource Scenario.delete_it
                           Scenario.uploaded).2) !! 100
    = Some pending
  ∧ School.totalResources ∘ School.statistics
      <$> schools (db (deleteResource Scenario.delete_it
                         Scenario.uploaded).2) !! 1
    = Some 1%Z.
Proof. by vm_compute. Qed.

(** ** Counting the resources of a school *)

Section counting.
Context (P : Resource.t → Prop) `{!∀ r, Decision (P r)}.

Lemma count_insert_fresh (m : gmap ObjectId Resource.t) k r :
  m !! k = None →
  length (filter P (map_to_list (<[k:=r]> m)).*2)
  = (if decide (P r) then 1 else 0) + length (filter P (map_to_list m).*2).
Proof.
  intros Hk. rewrite (map_to_list_insert m k r Hk). simpl.
  rewrite filter_cons. by destruct (decide (P r)).
Qed.

Lemma count_delete (m : gmap ObjectId Resource.t) k r :
  m !! k = Some r →
  length (filter P (map_to_list m).*2)
  = (if decide (P r) then 1 else 0)
    + length (filter P (map_to_list (delete k m)).*2).
Proof.
  intros Hk. rewrite <-(map_to_list_delete m k r Hk). simpl.
  rewrite filter_cons. by destruct (decide (P r)).
Qed.

Lemma count_replace (m : gmap ObjectId Resource.t) k r r' :
  m !! k = Some r → (P r' ↔ P r) →
  length (filter P (map_to_list (<[k:=r']> m)).*2)
  = length (filter P (map_to_list m).*2).
Proof.
  intros Hk HP. rewrite <-insert_delete_eq.
  rewrite count_insert_fresh by apply lookup_delete_eq.
  rewrite (count_delete m k r Hk).
  destruct (decide (P r')), (decide (P r)); tauto.
Qed.

End counting.

Lemma keyed_insert d k r :
  keyed d → Resource._id r = k →
  keyed (set_resources d (<[k:=r]> (resources d))).
Proof.
  intros Hd Hr k' r'. simpl. rewrite lookup_insert.
  case_decide; [naive_solver|apply Hd].
Qed.

Lemma keyed_delete d k :
  keyed d → keyed (set_resources d (delete k (resources d))).
Proof.
  intros Hd k' r'. simpl. rewrite lookup_delete.
  case_decide; [done|apply Hd].
Qed.

Lemma keyed_same d d' : resources d' = resources d → keyed d → keyed d'.
Proof. unfold keyed. by intros ->. Qed.

(** A save that keeps the school of the document keeps the counters
    exact. *)
Lemma counted_replace d k r r' :
  counted d → resources d !! k = Some r →
  Resource.school r' = Resource.school r →
  counted (set_resources d (<[k:=r']> (resources d))).
Proof.
  intros Hd Hk Hs id s. unfold resources_of. simpl. intros Hid.
  rewrite (count_replace _ _ k r r' Hk) by by rewrite Hs.
  by apply Hd.
Qed.

(** An update of the schools that keeps [totalResources] keeps the
    counters exact. *)
Lemma counted_alter d f id :
  counted d →
  (∀ s, School.totalResources (School.statistics (f s))
        = School.totalResources (School.statistics s)) →
  counted (set_schools d (alter f id (schools d))).
Proof.
  intros Hd Hf id' s. unfold resources_of. simpl. rewrite lookup_alter.
  case_decide as Hi.
  - subst id'. destruct (schools d !! id) as [s0|] eqn:Hs0; [|done].
    simpl. intros [= <-]. rewrite Hf. by apply Hd.
  - apply Hd.
Qed.

Lemma counted_same d d' :
  resources d' = resources d → schools d' = schools d →
  counted d → counted d'.
Proof. unfold counted, resources_of. by intros -> ->. Qed.

(** The insertion of a new resource and the increment of the counter of
    its school, together, keep the counters exact. *)
Lemma counted_upload d k r :
  counted d → resources d !! k = None →
  counted (set_schools (set_resources d (<[k:=r]> (resources d)))
             (alter (inc_totalResources 1) (Resource.school r) (schools d))).
Proof.
  intros Hd Hk id s. unfold resources_of. simpl.
  rewrite (count_insert_fresh _ _ k r Hk), lookup_alter.
  case_decide as Hi.
  - subst id. destruct (schools d !! Resource.school r) as [s0|] eqn:Hs0;
      [|done].
    simpl. intros [= <-]. simpl. rewrite (Hd _ _ Hs0).
    unfold resources_of. lia.
  - intros Hs. simpl. by apply Hd.
Qed.

(** The removal of a resource and the decrement of the counter of its
    school, together, keep the counters exact. *)
Lemma counted_delete d k r :
  counted d → resources d !! k = Some r →
  counted (set_schools (set_resources d (delete k (resources d)))
             (alter (inc_totalResources (-1)) (Resource.school r) (schools d))).
Proof.
  intros Hd Hk id s. unfold resources_of. simpl. rewrite lookup_alter.
  case_decide as Hi.
  - subst id. destruct (schools d !! Resource.school r) as [s0|] eqn:Hs0;
      [|done].
    simpl. intros [= <-]. simpl. rewrite (Hd _ _ Hs0). unfold resources_of.
    rewrite (count_delete _ (resources d) k r Hk).
    rewrite decide_True by done. lia.
  - intros Hs. rewrite (Hd _ _ Hs). unfold resources_of.
    rewrite (count_delete _ (resources d) k r Hk).
    by rewrite decide_False by done.
Qed.

(** ** The operations when the services are available *)

Lemma Resource_findById_available id w :
  faults w = [] → Resource_findById id w = (Ok (resources (db w) !! id), w).
Proof.
  intros H. by rewrite Resource_findById_eq, (up_available w H),
    (pop_available w H).
Qed.

Lemma Resource_save_available r w :
  faults w = [] →
  Resource_save r w
  = match Resource_validate r with
    | Some e => (Throw e, w)
    | None =>
        (Ok (Resource.set_updatedAt r (clock w)),
         set_db w
           (set_resources (db w)
              (<[Resource._id r := Resource.set_updatedAt r (clock w)]>
                 (resources (db w)))))
    end.
Proof.
  intros H. destruct (Resource_validate r) as [e|] eqn:Hv.
  - by apply Resource_save_invalid.
  - by rewrite Resource_save_eq, (up_available w H), (pop_available w H).
Qed.

Lemma populate_available path w :
  faults w = [] → populate path w = (Ok tt, w).
Proof. apply remote_call_available. Qed.

Lemma School_findByIdAndUpdate_available id f w :
  faults w = [] →
  School_findByIdAndUpdate id f w
  = (Ok tt, set_db w (set_schools (db w) (alter f id (schools (db w))))).
Proof.
  intros H. unfold School_findByIdAndUpdate. unfold_async.
  by rewrite (remote_call_available w H).
Qed.

Lemma Resource_findByIdAndDelete_available id w :
  faults w = [] →
  Resource_findByIdAndDelete id w
  = (Ok tt, set_db w (set_resources (db w) (delete id (resources (db w))))).
Proof.
  intros H. unfold Resource_findByIdAndDelete. unfold_async.
  by rewrite (remote_call_available w H).
Qed.

(** ** Computations aside of the catalog *)

Lemma aside_ret {A} (a : A) : aside (ret a).
Proof. by intros w H. Qed.

Lemma aside_throw {A} e : aside (@throw A e).
Proof. by intros w H. Qed.

Lemma aside_bind {A B} (c : M A) (k : A → M B) :
  aside c → (∀ a, aside (k a)) → aside (bind c k).
Proof.
  intros Hc Hk w H. rewrite bind_eq. specialize (Hc w H).
  destruct (c w) as [[a|e] w']; simpl in *; [|done].
  destruct Hc as (Hf & Hr & Hs). destruct (Hk a w' Hf) as (? & ? & ?).
  split_and!; congruence.
Qed.

Lemma aside_try_catch {A} (c : M A) (h : Err → M A) :
  aside c → (∀ e, aside (h e)) → aside (try_catch c h).
Proof.
  intros Hc Hh w H. unfold try_catch. specialize (Hc w H).
  destruct (c w) as [[a|e] w']; simpl in *; [done|].
  destruct Hc as (Hf & Hr & Hs). destruct (Hh e w' Hf) as (? & ? & ?).
  split_and!; congruence.
Qed.

Lemma aside_remote_call : aside remote_call.
Proof. intros w H. by rewrite (remote_call_available w H). Qed.

Lemma aside_populate path : aside (populate path).
Proof. apply aside_remote_call. Qed.

Lemma aside_get_world : aside get_world.
Proof. by intros w H. Qed.

Lemma aside_console_error line : aside (console_error line).
Proof. by intros w H. Qed.

Lemma aside_new_Date : aside new_Date.
Proof. by intros w H. Qed.

Lemma aside_new_ObjectId : aside new_ObjectId.
Proof. by intros w H. Qed.

Lemma aside_req_user req : aside (req_user req).
Proof. unfold req_user. by destruct (Req.user req). Qed.

Lemma aside_modify_logs f :
  aside (modify_db (λ d, set_moderationlogs d (f d))).
Proof. by intros w H. Qed.

Lemma aside_modify_downloads f :
  aside (modify_db (λ d, set_downloads d (f d))).
Proof. by intros w H. Qed.

Lemma aside_fs_unlink name : aside (fs_unlink name).
Proof. intros w H. unfold fs_unlink. by case_bool_decide. Qed.

Lemma aside_modify_bucket f :
  aside (modify_world (λ w, set_bucket w (f w))).
Proof. by intros w H. Qed.

Create HintDb aside.
#[global] Hint Resolve aside_ret aside_throw aside_remote_call aside_populate
  aside_get_world aside_console_error aside_new_Date aside_new_ObjectId
  aside_req_user aside_modify_logs aside_modify_downloads aside_fs_unlink
  aside_modify_bucket : aside.

(** Solves [aside c] for a computation built from such operations. *)
Ltac solve_aside :=
  repeat first
    [ progress eauto with aside
    | apply aside_bind; [|intros ?]
    | apply aside_try_catch; [|intros ?]
    | match goal with
      | |- aside (if ?b then _ else _) => destruct b
      | |- aside (match ?x with _ => _ end) => destruct x
      end ].

Lemma aside_ModerationLog_create resource moderator action notes from to :
  aside (ModerationLog_create resource moderator action notes from to).
Proof. unfold ModerationLog_create. solve_aside. Qed.

Lemma aside_Download_create user resource ip agent :
  aside (Download_create user resource ip agent).
Proof. unfold Download_create. solve_aside. Qed.

Lemma aside_deleteFile key : aside (storageService.deleteFile key).
Proof.
  unfold storageService.deleteFile, LocalStorageService.deleteFile,
    S3StorageService.deleteFile, s3_send_DeleteObject.
  solve_aside.
Qed.

Lemma aside_getDownloadUrl key name :
  aside (storageService.getDownloadUrl key name).
Proof.
  unfold storageService.getDownloadUrl, LocalStorageService.getDownloadUrl,
    S3StorageService.getDownloadUrl, getSignedUrl.
  solve_aside.
Qed.

#[global] Hint Resolve aside_ModerationLog_create aside_Download_create
  aside_deleteFile aside_getDownloadUrl : aside.

Lemma aside_orderly {A} (c : M A) w :
  aside c → orderly w → orderly (c w).2.
Proof.
  intros Hc (Hf & Hk & Hn). destruct (Hc w Hf) as (Hf' & Hr & Hs).
  split_and!; [done|by eapply keyed_same|by eapply counted_same].
Qed.

(** The world after a handler whose body is [fn]. *)
Lemma asyncHandler_world (fn : Req.t → M Response) req w :
  (asyncHandler fn req w).2 = (fn req w).2.
Proof. unfold asyncHandler. by destruct (fn req w) as [[?|?] ?]. Qed.

(** ** The download of a resource *)

(** *** One download record for a user and a resource *)

Lemma steady_ret {A} (a : A) : steady (ret a).
Proof. by intros w H. Qed.

Lemma steady_throw {A} e : steady (@throw A e).
Proof. by intros w H. Qed.

Lemma steady_bind {A B} (c : M A) (k : A → M B) :
  steady c → (∀ a, steady (k a)) → steady (bind c k).
Proof.
  intros Hc Hk w H. rewrite bind_eq. specialize (Hc w H).
  destruct (c w) as [[a|e] w']; simpl in *; [|done]. by apply Hk.
Qed.

Lemma steady_try_catch {A} (c : M A) (h : Err → M A) :
  steady c → (∀ e, steady (h e)) → steady (try_catch c h).
Proof.
  intros Hc Hh w H. unfold try_catch. specialize (Hc w H).
  destruct (c w) as [[a|e] w']; simpl in *; [done|]. by apply Hh.
Qed.

Lemma steady_remote_call : steady remote_call.
Proof.
  intros w H. rewrite remote_call_eq. simpl. unfold one_record_per_pair.
  by rewrite pop_db.
Qed.

Lemma steady_get_world : steady get_world.
Proof. by intros w H. Qed.

Lemma steady_new_Date : steady new_Date.
Proof. by intros w H. Qed.

Lemma steady_new_ObjectId : steady new_ObjectId.
Proof. by intros w H. Qed.

Lemma steady_fs_unlink name : steady (fs_unlink name).
Proof. intros w H. unfold fs_unlink. by case_bool_decide. Qed.

(** An update of the database that leaves the download records. *)
Lemma steady_modify_db f :
  (∀ d, downloads (f d) = downloads d) → steady (modify_db f).
Proof.
  intros Hf w H. unfold modify_db, modify_world, one_record_per_pair. simpl.
  rewrite Hf. apply H.
Qed.

(** An update of the world that leaves the database. *)
Lemma steady_modify_world f :
  (∀ w, db (f w) = db w) → steady (modify_world f).
Proof.
  intros Hf w H. unfold modify_world. simpl. by rewrite Hf.
Qed.

Create HintDb steady.
#[global] Hint Resolve steady_ret steady_throw steady_remote_call
  steady_get_world steady_new_Date steady_new_ObjectId steady_fs_unlink
  : steady.

(** Solves [steady c] for a computation that inserts no download. *)
Ltac solve_steady :=
  repeat first
    [ progress eauto with steady
    | apply steady_bind; [|intros ?]
    | apply steady_try_catch; [|intros ?]
    | apply steady_modify_db; done
    | apply steady_modify_world; done
    | match goal with
      | |- steady (if ?b then _ else _) => destruct b
      | |- steady (match ?x with _ => _ end) => destruct x
      end ].

Lemma steady_Download_create user resource ip agent :
  steady (Download_create user resource ip agent).
Proof.
  unfold Download_create.
  apply steady_bind; [solve_steady|intros id].
  apply steady_bind; [solve_steady|intros now].
  apply steady_bind; [solve_steady|intros _].
  intros w H. unfold get_world, bind, throw, ret, modify_db, modify_world.
  case_bool_decide as Hid; [done|].
  case_bool_decide as Hd; [done|]. simpl.
  apply eq_None_not_Some in Hid.
  intros i j d1 d2. simpl. rewrite !lookup_insert_Some.
  intros [[<- <-]|[Hi H1]] [[<- <-]|[Hj H2]] Hu Hr; [done| | |by eapply H].
  - destruct Hd. unfold downloaded. apply map_Exists_lookup. by eexists j, d2.
  - destruct Hd. unfold downloaded. apply map_Exists_lookup. by eexists i, d1.
Qed.

#[global] Hint Resolve steady_Download_create : steady.

Lemma steady_req_user req : steady (req_user req).
Proof. unfold req_user. solve_steady. Qed.

Lemma steady_console_error line : steady (console_error line).
Proof. unfold console_error. solve_steady. Qed.

Lemma steady_populate path : steady (populate path).
Proof. unfold populate. solve_steady. Qed.

Lemma steady_findById id : steady (Resource_findById id).
Proof. unfold Resource_findById. solve_steady. Qed.

Lemma steady_save r : steady (Resource_save r).
Proof. unfold Resource_save. solve_steady. Qed.

Lemma steady_create title description subject grade strand tags isPublic
    uploader school file :
  steady (Resource_create title description subject grade strand tags
            isPublic uploader school file).
Proof. unfold Resource_create. solve_steady. Qed.

Lemma steady_findByIdAndDelete id : steady (Resource_findByIdAndDelete id).
Proof. unfold Resource_findByIdAndDelete. solve_steady. Qed.

Lemma steady_School_findByIdAndUpdate id f :
  steady (School_findByIdAndUpdate id f).
Proof. unfold School_findByIdAndUpdate. solve_steady. Qed.

Lemma steady_ModerationLog_create resource moderator action notes from to :
  steady (ModerationLog_create resource moderator action notes from to).
Proof. unfold ModerationLog_create. solve_steady. Qed.

Lemma steady_deleteFile key : steady (storageService.deleteFile key).
Proof.
  unfold storageService.deleteFile, LocalStorageService.deleteFile,
    S3StorageService.deleteFile, s3_send_DeleteObject.
  solve_steady.
Qed.

Lemma steady_getDownloadUrl key name :
  steady (storageService.getDownloadUrl key name).
Proof.
  unfold storageService.getDownloadUrl, LocalStorageService.getDownloadUrl,
    S3StorageService.getDownloadUrl, getSignedUrl.
  solve_steady.
Qed.

#[global] Hint Resolve steady_req_user steady_console_error steady_populate
  steady_findById steady_save steady_create steady_findByIdAndDelete
  steady_School_findByIdAndUpdate steady_ModerationLog_create
  steady_deleteFile steady_getDownloadUrl : steady.

Lemma steady_incrementDownload r : steady (Resource_incrementDownload r).
Proof. unfold Resource_incrementDownload. solve_steady. Qed.

#[global] Hint Resolve steady_incrementDownload : steady.

(** Whatever requests are served, and whether or not the remote services
    are available, no user ever has two download records for one
    resource. *)
Lemma serve_one_record_per_pair route req w :
  one_record_per_pair (db w) → one_record_per_pair (db (serve route req w).2).
Proof.
  intros H.
  assert (Hs : ∀ fn : Req.t → M Response,
            steady (fn req) → one_record_per_pair (db (asyncHandler fn req w).2)).
  { intros fn Hfn. rewrite asyncHandler_world. by apply Hfn. }
  destruct route; simpl; apply Hs;
    unfold uploadResource_fn, updateResource_fn, deleteResource_fn,
      downloadResource_fn, approveResource_fn, rejectResource_fn;
    solve_steady.
Qed.

Lemma reaches_one_record_per_pair w0 w :
  one_record_per_pair (db w0) → reaches w0 w → one_record_per_pair (db w).
Proof.
  intros H0 Hr. induction Hr; [done|by apply serve_one_record_per_pair].
Qed.

(** *** A second download *)

(** The unique index refuses a second record of a user and a resource. *)
Lemma Download_create_duplicate user resource ip agent w :
  downloaded (downloads (db w)) user resource →
  ∃ e w', Download_create user resource ip agent w = (Throw e, w')
          ∧ db w' = db w.
Proof.
  intros Hd. unfold Download_create. unfold_async. simpl.
  rewrite remote_call_eq, up_set_oidgen, pop_set_oidgen.
  destruct (up w); simpl.
  - rewrite pop_db. case_bool_decide.
    + eexists _, _. split; [done|]. simpl. apply pop_db.
    + rewrite bool_decide_eq_true_2 by done.
      eexists _, _. split; [done|]. simpl. apply pop_db.
  - eexists _, _. split; [done|]. simpl. apply pop_db.
Qed.

Lemma getDownloadUrl_available key name w :
  faults w = [] →
  ∃ url, storageService.getDownloadUrl key name w = (Ok url, w).
Proof.
  intros H. unfold storageService.getDownloadUrl. rewrite bind_eq. simpl.
  destruct (driver w); [by eexists|].
  unfold S3StorageService.getDownloadUrl, try_catch, getSignedUrl.
  rewrite bind_eq, (remote_call_available w H). by eexists.
Qed.

(** A further download by a user who has a record for the resource counts
    one more download and is answered with an error; no record is added. *)
Lemma repeated_download_counts_and_fails req w r u :
  faults w = [] →
  resources (db w) !! Req.params_id req = Some r →
  Resource._id r = Req.params_id req →
  Resource.status r = approved →
  Resource_validate r = None →
  Req.user req = Some u →
  downloaded (downloads (db w)) (Req.id u) (Req.params_id req) →
  ∃ w',
    downloadResource req w
    = (Json 500 (Failure "Error generating download URL"), w')
    ∧ Resource.downloadCount <$> resources (db w') !! Req.params_id req
      = Some (Resource.downloadCount r + 1)%Z
    ∧ downloads (db w') = downloads (db w).
Proof.
  intros Hf Hr Hid Hst Hvalid Hu Hd.
  unfold downloadResource, asyncHandler, downloadResource_fn.
  rewrite bind_eq, (Resource_findById_available _ w Hf), Hr.
  rewrite bind_eq, (bool_decide_eq_true_2 _ Hst). simpl. unfold ret at 1.
  unfold try_catch. rewrite bind_eq.
  destruct (getDownloadUrl_available (File.key (Resource.file r))
              (File.originalName (Resource.file r)) w Hf) as [url ->].
  rewrite bind_eq. unfold Resource_incrementDownload.
  rewrite bind_eq, (Resource_save_available _ w Hf).
  change (Resource_validate (Resource.set_downloadCount r _))
    with (Resource_validate r).
  rewrite Hvalid, bind_eq, School_findByIdAndUpdate_available by done.
  unfold ret at 1. rewrite bind_eq. unfold req_user. rewrite Hu.
  unfold ret at 1. rewrite bind_eq.
  match goal with
  | |- context [Download_create ?a ?b ?c ?d ?w1] =>
      destruct (Download_create_duplicate a b c d w1) as (e & w' & -> & Hdb)
  end.
  { simpl. by rewrite Hid. }
  eexists. split; [reflexivity|]. simpl. rewrite Hdb. simpl.
  by rewrite Hid, lookup_insert_eq.
Qed.

(** C1. The pupil downloads the approved worksheet twice.  The first
    request is answered with the URL and counts one download.  The second
    counts another download, on the resource and on the school, then runs
    into the unique index of the download records and is answered with an
    error; one download record exists. *)
Lemma second_download_counts_and_fails :
  (downloadResource Scenario.download_it Scenario.approved_catalog).1
  = Json 200
      (DownloadData
         (LocalUrl "file-1700000000000-1.pdf" "algebra-worksheet.pdf") 1
         "Algebra Basics Worksheet" Sample.worksheet_file)
  ∧ Resource.downloadCount <$> resources (db Scenario.once) !! 1 = Some 1%Z
  ∧ size (downloads (db Scenario.once)) = 1
  ∧ (downloadResource Scenario.download_it Scenario.once).1
    = Json 500 (Failure "Error generating download URL")
  ∧ Resource.downloadCount <$> resources (db Scenario.twice) !! 1 = Some 2%Z
  ∧ School.totalDownloads ∘ School.statistics
      <$> schools (db Scenario.twice) !! 1 = Some 2%Z
  ∧ size (downloads (db Scenario.twice)) = 1.
Proof. by vm_compute. Qed.

(** ** The requests keep the counters exact *)

(** The save of an edited document, which keeps its id and its school. *)
Lemma save_orderly w k r r' t :
  orderly w → resources (db w) !! k = Some r →
  Resource._id r' = Resource._id r → Resource.school r' = Resource.school r →
  orderly (set_db w
             (set_resources (db w)
                (<[Resource._id r' := Resource.set_updatedAt r' t]>
                   (resources (db w))))).
Proof.
  intros (Hf & Hk & Hn) Hr Hid Hs. rewrite Hid, (Hk _ _ Hr).
  split_and!; simpl; [done| |].
  - apply keyed_insert; [done|]. simpl. by rewrite Hid, (Hk _ _ Hr).
  - by eapply counted_replace.
Qed.

(** An update of a school that keeps its count of resources. *)
Lemma orderly_alter w f id :
  orderly w →
  (∀ s, School.totalResources (School.statistics (f s))
        = School.totalResources (School.statistics s)) →
  orderly (set_db w (set_schools (db w) (alter f id (schools (db w))))).
Proof.
  intros (Hf & Hk & Hn) H. split_and!; simpl; [done|done|].
  by apply counted_alter.
Qed.

Lemma approveResource_orderly req w :
  orderly w → orderly (approveResource req w).2.
Proof.
  intros Ho. pose proof Ho as (Hf & Hk & Hn).
  unfold approveResource. rewrite asyncHandler_world.
  unfold approveResource_fn. destruct (negb _); [done|].
  rewrite bind_eq, (Resource_findById_available _ w Hf).
  destruct (resources (db w) !! Req.params_id req) as [r|] eqn:Hr; [|done].
  destruct (negb _); [done|].
  rewrite bind_eq. unfold req_user. destruct (Req.user req) as [u|]; [|done].
  unfold ret at 1. rewrite bind_eq. unfold new_Date at 1.
  rewrite bind_eq, (Resource_save_available _ w Hf).
  destruct (Resource_validate _); [done|].
  apply aside_orderly; [solve_aside|]. by eapply save_orderly.
Qed.

Lemma rejectResource_orderly req w :
  orderly w → orderly (rejectResource req w).2.
Proof.
  intros Ho. pose proof Ho as (Hf & Hk & Hn).
  unfold rejectResource. rewrite asyncHandler_world.
  unfold rejectResource_fn. destruct (negb _); [done|].
  destruct (notes_missing _); [done|].
  rewrite bind_eq, (Resource_findById_available _ w Hf).
  destruct (resources (db w) !! Req.params_id req) as [r|] eqn:Hr; [|done].
  destruct (negb _); [done|].
  rewrite bind_eq. unfold req_user. destruct (Req.user req) as [u|]; [|done].
  unfold ret at 1. rewrite bind_eq. unfold new_Date at 1.
  rewrite bind_eq, (Resource_save_available _ w Hf).
  destruct (Resource_validate _); [done|].
  apply aside_orderly; [solve_aside|]. by eapply save_orderly.
Qed.

Lemma updateResource_orderly req w :
  orderly w → orderly (updateResource req w).2.
Proof.
  intros Ho. pose proof Ho as (Hf & Hk & Hn).
  unfold updateResource. rewrite asyncHandler_world.
  unfold updateResource_fn. destruct (negb _); [done|].
  rewrite bind_eq, (Resource_findById_available _ w Hf).
  destruct (resources (db w) !! Req.params_id req) as [r|] eqn:Hr; [|done].
  rewrite bind_eq. unfold req_user. destruct (Req.user req) as [u|]; [|done].
  unfold ret at 1. destruct (negb _ && negb _); [done|].
  rewrite bind_eq.
  destruct (match Req.isPublic (Req.body req) with
            | Some s => cast_boolean s
            | None => Some (Resource.isPublic r)
            end); [|done].
  rewrite (Resource_save_available _ w Hf).
  destruct (Resource_validate _); [done|].
  apply aside_orderly; [solve_aside|].
  eapply save_orderly; [done|exact Hr|by destruct (_ && _)..].
Qed.

Lemma downloadResource_orderly req w :
  orderly w → orderly (downloadResource req w).2.
Proof.
  intros Ho. pose proof Ho as (Hf & Hk & Hn).
  unfold downloadResource. rewrite asyncHandler_world.
  unfold downloadResource_fn.
  rewrite bind_eq, (Resource_findById_available _ w Hf).
  destruct (resources (db w) !! Req.params_id req) as [r|] eqn:Hr; [|done].
  rewrite bind_eq.
  assert (Hdenied : ∃ res,
    (if negb (bool_decide (Resource.status r = approved))
     then u <- req_user req ;;
          ret (negb (bool_decide (Req.role u = admin))
               && negb (bool_decide (Resource.uploader r = Req.id u)))
     else ret false) w = (res, w)).
  { destruct (negb _); [|by eexists].
    rewrite bind_eq. unfold req_user. destruct (Req.user req); by eexists. }
  destruct Hdenied as [res ->]. destruct res as [[]|e]; [done| |done].
  unfold try_catch. rewrite bind_eq.
  destruct (aside_getDownloadUrl (File.key (Resource.file r))
              (File.originalName (Resource.file r)) w Hf) as (Hf1 & Hr1 & Hs1).
  destruct (storageService.getDownloadUrl _ _ w) as [[url|e] w1]; simpl in *.
  2:{ apply (aside_orderly (console_error "Download error:" ;;;
               ret (Json 500 (Failure "Error generating download URL")))).
      - solve_aside.
      - split_and!; [done|by eapply keyed_same|by eapply counted_same]. }
  assert (Ho1 : orderly w1)
    by (split_and!; [done|by eapply keyed_same|by eapply counted_same]).
  assert (Hr' : resources (db w1) !! Req.params_id req = Some r)
    by by rewrite Hr1.
  rewrite bind_eq. unfold Resource_incrementDownload.
  rewrite bind_eq, (Resource_save_available _ w1 Hf1).
  destruct (Resource_validate _).
  { apply (aside_orderly (console_error "Download error:" ;;;
             ret (Json 500 (Failure "Error generating download URL"))));
      [solve_aside|done]. }
  rewrite bind_eq, School_findByIdAndUpdate_available by done.
  unfold ret at 1.
  apply (aside_orderly (try_catch _ _)); [solve_aside|].
  apply orderly_alter; [|done]. by eapply save_orderly.
Qed.

Lemma deleteResource_orderly req w :
  orderly w → orderly (deleteResource req w).2.
Proof.
  intros Ho. pose proof Ho as (Hf & Hk & Hn).
  unfold deleteResource. rewrite asyncHandler_world.
  unfold deleteResource_fn.
  rewrite bind_eq, (Resource_findById_available _ w Hf).
  destruct (resources (db w) !! Req.params_id req) as [r|] eqn:Hr; [|done].
  rewrite bind_eq. unfold req_user. destruct (Req.user req) as [u|]; [|done].
  unfold ret at 1. destruct (negb _ && negb _); [done|].
  unfold try_catch. rewrite bind_eq.
  destruct (aside_deleteFile (File.key (Resource.file r)) w Hf)
    as (Hf1 & Hr1 & Hs1).
  destruct (storageService.deleteFile _ w) as [[[]|e] w1]; simpl in *.
  - rewrite bind_eq, Resource_findByIdAndDelete_available by done.
    rewrite bind_eq, School_findByIdAndUpdate_available by done.
    unfold ret. simpl. split_and!; simpl; [done| |].
    + apply keyed_delete. by eapply keyed_same.
    + apply counted_delete; [by eapply counted_same|by rewrite Hr1].
  - apply (aside_orderly (console_error "Delete error:" ;;;
             ret (Json 500 (Failure "Error deleting resource")))).
    + solve_aside.
    + split_and!; [done|by eapply keyed_same|by eapply counted_same].
Qed.

(** What the creation of a resource leaves: on success a pending document
    of the given school under a key that was free, on failure the
    collections as they were. *)
Lemma Resource_create_spec title description subject grade strand tags
    isPublic uploader school file w :
  faults w = [] →
  match Resource_create title description subject grade strand tags isPublic
          uploader school file w with
  | (Ok r, w') =>
      faults w' = []
      ∧ resources (db w) !! oidgen w = None
      ∧ Resource._id r = oidgen w
      ∧ Resource.school r = school
      ∧ Resource.status r = pending
      ∧ db w' = set_resources (db w) (<[oidgen w := r]> (resources (db w)))
  | (Throw e, w') => faults w' = [] ∧ db w' = db w
  end.
Proof.
  intros Hf. unfold Resource_create. unfold_async. simpl.
  destruct (Resource_validate _); [done|].
  rewrite remote_call_available by done. simpl.
  case_bool_decide as Hfree; [done|].
  split_and!; try done. by apply eq_None_not_Some.
Qed.

Lemma uploadResource_orderly req w :
  orderly w → orderly (uploadResource req w).2.
Proof.
  intros Ho. pose proof Ho as (Hf & Hk & Hn).
  unfold uploadResource. rewrite asyncHandler_world.
  unfold uploadResource_fn. destruct (negb _); [done|].
  destruct (Req.file req) as [file|]; [|done].
  rewrite bind_eq. unfold req_user. destruct (Req.user req) as [u|]; [|done].
  unfold ret at 1. rewrite bind_eq.
  match goal with
  | |- context [Resource_create ?a ?b ?c ?d ?e ?f ?g ?h ?i ?j w] =>
      pose proof (Resource_create_spec a b c d e f g h i j w Hf) as Hc;
      destruct (Resource_create a b c d e f g h i j w) as [[r|e'] w1]
  end.
  - destruct Hc as (Hf1 & Hfree & Hid & Hs & _ & Hdb).
    rewrite bind_eq, School_findByIdAndUpdate_available by done.
    apply aside_orderly; [solve_aside|].
    split_and!; simpl; [done|rewrite Hdb..].
    + by apply keyed_insert.
    + simpl. rewrite <-Hs. by apply counted_upload.
  - destruct Hc as (Hf1 & Hdb). simpl.
    split_and!; [done|by rewrite Hdb..].
Qed.

(** Every request that writes keeps the counters exact. *)
Lemma serve_orderly route req w : orderly w → orderly (serve route req w).2.
Proof.
  destruct route; simpl;
    auto using uploadResource_orderly, updateResource_orderly,
      deleteResource_orderly, downloadResource_orderly,
      approveResource_orderly, rejectResource_orderly.
Qed.

Lemma reaches_orderly w0 w : orderly w0 → reaches w0 w → orderly w.
Proof. intros H0 Hr. induction Hr; [done|by apply serve_orderly]. Qed.

(** ** The cached counter and the recomputed total *)

(** An upload that succeeds stores a pending resource and increments the
    counter of the school of the uploader. *)
Lemma upload_counts_pending req w m r w' :
  faults w = [] →
  uploadResource req w = (Json 201 (ResourceData m r), w') →
  ∃ u, Req.user req = Some u
       ∧ Resource.status r = pending
       ∧ Resource.school r = Req.school u
       ∧ schools (db w')
         = alter (inc_totalResources 1) (Req.school u) (schools (db w)).
Proof.
  intros Hf. unfold uploadResource, asyncHandler, uploadResource_fn.
  destruct (negb _); [done|].
  destruct (Req.file req) as [file|]; [|done].
  rewrite bind_eq. unfold req_user. destruct (Req.user req) as [u|]; [|done].
  unfold ret at 1. rewrite bind_eq.
  match goal with
  | |- context [Resource_create ?a ?b ?c ?d ?e ?f ?g ?h ?i ?j w] =>
      pose proof (Resource_create_spec a b c d e f g h i j w Hf) as Hc;
      destruct (Resource_create a b c d e f g h i j w) as [[r'|e'] w1]
  end; [|done].
  destruct Hc as (Hf1 & Hfree & Hid & Hs & Hst & Hdb).
  rewrite bind_eq, School_findByIdAndUpdate_available by done.
  rewrite bind_eq, populate_available by done.
  rewrite bind_eq, populate_available by done.
  unfold ret. intros [= _ <- <-]. exists u.
  split_and!; [done|done|done|]. simpl. by rewrite Hdb.
Qed.

(** A delete that succeeds removes the resource and decrements the
    counter of its school, whatever the status of the resource. *)
Lemma delete_uncounts_any_status req w r w' :
  faults w = [] →
  resources (db w) !! Req.params_id req = Some r →
  deleteResource req w
  = (Json 200 (Success "Resource deleted successfully"), w') →
  resources (db w') = delete (Req.params_id req) (resources (db w))
  ∧ schools (db w')
    = alter (inc_totalResources (-1)) (Resource.school r) (schools (db w)).
Proof.
  intros Hf Hr. unfold deleteResource, asyncHandler, deleteResource_fn.
  rewrite bind_eq, (Resource_findById_available _ w Hf), Hr.
  rewrite bind_eq. unfold req_user. destruct (Req.user req) as [u|]; [|done].
  unfold ret at 1. destruct (negb _ && negb _); [done|].
  unfold try_catch. rewrite bind_eq.
  destruct (aside_deleteFile (File.key (Resource.file r)) w Hf)
    as (Hf1 & Hr1 & Hs1).
  destruct (storageService.deleteFile _ w) as [[[]|e] w1]; simpl in *;
    [|done].
  rewrite bind_eq, Resource_findByIdAndDelete_available by done.
  rewrite bind_eq, School_findByIdAndUpdate_available by done.
  unfold ret. intros [= <-]. simpl. by rewrite Hr1, Hs1.
Qed.

Lemma matches_school_approved text id r :
  matches text (school_approved id) r = true
  ↔ Resource.status r = approved ∧ Resource.school r = id.
Proof.
  unfold matches, school_approved. simpl.
  rewrite !andb_true_r, andb_true_iff, String.eqb_eq, bool_decide_eq_true.
  split; intros [H1 H2]; (split; [|done]);
    by destruct (Resource.status r).
Qed.

(** The approved resources of a school are among its resources. *)
Lemma select_school_approved w id :
  select w (school_approved id)
  = filter (λ r, Resource.status r = approved) (resources_of (db w) id).
Proof.
  unfold select, resources_of. rewrite list_filter_filter.
  apply list_filter_iff. intros r.
  rewrite Is_true_true. apply matches_school_approved.
Qed.

Lemma filter_length_lt {A} (P : A → Prop) `{!∀ x, Decision (P x)}
    (l : list A) x :
  x ∈ l → ¬ P x → length (filter P l) < length l.
Proof.
  intros Hx Hn. induction l as [|y l IH]; [by apply not_elem_of_nil in Hx|].
  rewrite filter_cons. pose proof (length_filter P l).
  apply elem_of_cons in Hx as [->|Hx].
  - rewrite decide_False by done. simpl. lia.
  - specialize (IH Hx). destruct (decide (P y)); simpl; lia.
Qed.

Lemma getSchoolStatistics_available req w s :
  faults w = [] →
  schools (db w) !! Req.params_id req = Some s →
  ∃ users downloads subjects recent,
    (getSchoolStatistics req w).1
    = Json 200
        (StatisticsData
           (Z.of_nat (length (select w (school_approved (Req.params_id req)))))
           users downloads subjects recent).
Proof.
  intros Hf Hs. unfold getSchoolStatistics, asyncHandler,
    getSchoolStatistics_fn.
  unfold School_findById, User_countDocuments_active,
    Resource_aggregate_popularSubjects.
  unfold_async. rewrite !(remote_call_available w Hf). simpl.
  rewrite Resource_countDocuments_eq, (up_available w Hf),
    (pop_available w Hf).
  rewrite !(remote_call_available w Hf). simpl.
  rewrite Resource_find_eq, (up_available w Hf), (pop_available w Hf).
  simpl. rewrite Hs. rewrite !(remote_call_available w Hf). simpl.
  by eexists _, _, _, _.
Qed.

Lemma in_resources_of d k r :
  resources d !! k = Some r → r ∈ resources_of d (Resource.school r).
Proof.
  intros H. unfold resources_of. apply list_elem_of_filter. split; [done|].
  apply list_elem_of_fmap. exists (k, r). split; [done|].
  by apply elem_of_map_to_list.
Qed.

(** C10, as amended. In every world that requests reach from a world
    whose services are available and whose counters are exact, an empty
    catalog for one: an upload that succeeds increments the counter of the
    school for a resource that is pending; a delete that succeeds
    decrements it whatever the status; the counter is the number of the
    resources of the school of every status; the statistics of the school
    report the number of the approved ones; and the two differ as soon as
    the school has a resource that is not approved. *)
Theorem cached_counter_counts_every_status (w0 w : World) (id : ObjectId)
    (s : School.t) :
  orderly w0 → reaches w0 w →
  schools (db w) !! id = Some s →
  (∀ req m r w',
     uploadResource req w = (Json 201 (ResourceData m r), w') →
     Req.school <$> Req.user req = Some id →
     Resource.status r = pending
     ∧ Resource.school r = id
     ∧ School.totalResources ∘ School.statistics <$> schools (db w') !! id
       = Some (School.totalResources (School.statistics s) + 1)%Z)
  ∧ (∀ req r w',
       resources (db w) !! Req.params_id req = Some r →
       Resource.school r = id →
       deleteResource req w
       = (Json 200 (Success "Resource deleted successfully"), w') →
       School.totalResources ∘ School.statistics <$> schools (db w') !! id
       = Some (School.totalResources (School.statistics s) - 1)%Z)
  ∧ School.totalResources (School.statistics s)
    = Z.of_nat (length (resources_of (db w) id))
  ∧ (∀ req, Req.params_id req = id →
       ∃ total users downloads subjects recent,
         (getSchoolStatistics req w).1
         = Json 200 (StatisticsData total users downloads subjects recent)
         ∧ total
           = Z.of_nat (length (filter (λ r, Resource.status r = approved)
                                 (resources_of (db w) id)))
         ∧ (∀ k r,
              resources (db w) !! k = Some r → Resource.school r = id →
              Resource.status r ≠ approved →
              (total < School.totalResources (School.statistics s))%Z)).
Proof.
  intros Ho0 Hreach Hs.
  destruct (reaches_orderly w0 w Ho0 Hreach) as (Hf & Hk & Hn).
  split_and!.
  - intros req m r w' Hup Hu.
    destruct (upload_counts_pending req w m r w' Hf Hup)
      as (u & Hu' & Hst & Hsc & Hschools).
    rewrite Hu' in Hu. simpl in Hu. injection Hu as Hu.
    rewrite Hschools, Hu, lookup_alter_eq, Hs.
    split_and!; [done|congruence|]. simpl. f_equal.
  - intros req r w' Hr Hsc Hdel.
    destruct (delete_uncounts_any_status req w r w' Hf Hr Hdel) as [_ ->].
    rewrite Hsc, lookup_alter_eq, Hs. simpl. f_equal.
  - by apply Hn.
  - intros req <-.
    destruct (getSchoolStatistics_available req w s Hf Hs)
      as (users & downloads & subjects & recent & Hres).
    eexists _, users, downloads, subjects, recent.
    split; [exact Hres|]. rewrite select_school_approved. split; [done|].
    intros k r Hr Hsc Hst. rewrite (Hn _ _ Hs).
    apply inj_lt. apply (filter_length_lt _ _ r); [|done].
    rewrite <-Hsc. by eapply in_resources_of.
Qed.

(** The school after the upload of a worksheet to the empty catalog. *)
Lemma cached_counter_counts_every_status_witness :
  orderly Scenario.empty_catalog
  ∧ reaches Scenario.empty_catalog Scenario.uploaded
  ∧ schools (db Scenario.uploaded) !! 1 = Some Scenario.school_after_upload
  ∧ School.totalResources (School.statistics Scenario.school_after_upload)
    = Z.of_nat (length (resources_of (db Scenario.uploaded) 1)).
Proof.
  assert (Ho : orderly Scenario.empty_catalog).
  { split_and!; [reflexivity| |].
    - intros k r H. simpl in H. by rewrite lookup_empty in H.
    - intros id s H. simpl in H.
      apply lookup_singleton_Some in H as [<- <-]. reflexivity. }
  assert (Hr : reaches Scenario.empty_catalog Scenario.uploaded)
    by apply reaches_step, reaches_refl.
  assert (Hs : schools (db Scenario.uploaded) !! 1
               = Some Scenario.school_after_upload)
    by (vm_compute; reflexivity).
  split_and!; [exact Ho|exact Hr|exact Hs|].
  apply (cached_counter_counts_every_status Scenario.empty_catalog
           Scenario.uploaded 1 Scenario.school_after_upload Ho Hr Hs).
Defined.

(** C10, counterexample. The teacher uploads a worksheet, and the
    statistics of the school are recomputed by [updateStatistics]: the
    school has a pending resource, and its cached counter and the total
    that the statistics report are both zero. *)
Lemma recomputed_counter_agrees :
  schools (db Scenario.uploaded) !! 1 = Some Scenario.school_after_upload
  ∧ Resource.status <$> resources (db Scenario.recomputed) !! 100
    = Some pending
  ∧ Resource.school <$> resources (db Scenario.recomputed) !! 100 = Some 1
  ∧ School.totalResources ∘ School.statistics
      <$> schools (db Scenario.recomputed) !! 1
    = Some 0%Z
  ∧ (getSchoolStatistics Scenario.statistics_of_school Scenario.recomputed).1
    = Json 200 (StatisticsData 0 0 0 [] []).
Proof. by vm_compute. Qed.

(** ** The extension of a file name *)

Lemma lastIndexOf_from_absent c s i last :
  c ∉ String.list_ascii_of_string s →
  JsString.lastIndexOf_from c s i last = last.
Proof.
  revert i last. induction s as [|x s IH]; intros i last Hc; [done|].
  simpl in *. apply not_elem_of_cons in Hc as [Hx Hs].
  rewrite IH by done. destruct (Ascii.eqb_spec x c); congruence.
Qed.

Lemma lastIndexOf_from_last c base ext i last :
  c ∉ String.list_ascii_of_string ext →
  JsString.lastIndexOf_from c (base +:+ String c ext) i last
  = (i + Z.of_nat (String.length base))%Z.
Proof.
  intros Hc. revert i last. induction base as [|x b IH]; intros i last.
  - simpl. rewrite lastIndexOf_from_absent by done.
    rewrite Ascii.eqb_refl. lia.
  - simpl. rewrite IH. lia.
Qed.

Lemma string_drop_all s n : String.length s ≤ n → JsString.drop n s = "".
Proof.
  revert n. induction s as [|x s IH]; intros [|n] Hn; simpl in *;
    try done; try lia. apply IH. lia.
Qed.

Lemma string_append_cons a b s : String a b +:+ s = String a (b +:+ s).
Proof. done. Qed.

Lemma string_append_assoc (a b c : string) : (a +:+ b) +:+ c = a +:+ (b +:+ c).
Proof.
  induction a as [|x a IH]; [done|]. by rewrite !string_append_cons, IH.
Qed.

Lemma string_drop_app base s : JsString.drop (String.length base) (base +:+ s) = s.
Proof.
  induction base as [|x b IH]; [done|]. by rewrite string_append_cons.
Qed.

Lemma string_length_app (a b : string) :
  String.length (a +:+ b) = String.length a + String.length b.
Proof.
  induction a as [|x a IH]; [done|]. rewrite string_append_cons. simpl. by rewrite IH.
Qed.

(** A string has no [c], or splits at its last [c]. *)
Lemma split_at_last c s :
  c ∉ String.list_ascii_of_string s
  ∨ ∃ base ext, s = base +:+ String c ext
                ∧ c ∉ String.list_ascii_of_string ext.
Proof.
  induction s as [|x s [IH|(base & ext & -> & IH)]].
  - left. simpl. apply not_elem_of_nil.
  - destruct (decide (x = c)) as [->|Hx].
    + right. by exists "", s.
    + left. simpl. by apply not_elem_of_cons.
  - right. by exists (String x base), ext.
Qed.

(** X1: the extension that the S3 service appends to the key of an upload
    is the text after the last dot of the file name, without the dot; it
    is empty when the name has no dot, and when its only dot is its first
    character. *)
Theorem getFileExtension_after_last_dot (filename : string)
    (Hlen : (Z.of_nat (String.length filename) < 2 ^ 32)%Z) :
  dotless (S3StorageService_getFileExtension filename)
  ∧ (dotless filename → S3StorageService_getFileExtension filename = "")
  ∧ (∀ base ext,
       filename = base +:+ String "." ext → dotless ext →
       S3StorageService_getFileExtension filename
       = if decide (base = "") then "" else ext).
Proof.
  assert (Hnone : dotless filename →
                  S3StorageService_getFileExtension filename = "").
  { intros Hd. unfold S3StorageService_getFileExtension, JsString.lastIndexOf.
    rewrite lastIndexOf_from_absent by done.
    unfold JsString.to_uint32, JsString.slice.
    change ((-1 - 1) `mod` 2 ^ 32 + 2)%Z with (2 ^ 32)%Z.
    change (2 ^ 32 <? 0)%Z with false. cbv iota.
    apply string_drop_all. lia. }
  assert (Hsplit : ∀ base ext,
            filename = base +:+ String "." ext → dotless ext →
            S3StorageService_getFileExtension filename
            = if decide (base = "") then "" else ext).
  { intros base ext -> Hd.
    unfold S3StorageService_getFileExtension, JsString.lastIndexOf.
    rewrite lastIndexOf_from_last by done.
    rewrite string_length_app in Hlen. simpl in Hlen.
    unfold JsString.to_uint32, JsString.slice.
    rewrite string_length_app. simpl String.length.
    destruct (decide (base = "")) as [->|Hb].
    - change ((0 + Z.of_nat (String.length "") - 1) `mod` 2 ^ 32 + 2)%Z
        with (2 ^ 32 + 1)%Z.
      change (2 ^ 32 + 1 <? 0)%Z with false. cbv iota.
      apply string_drop_all. simpl. simpl in Hlen. lia.
    - assert (0 < String.length base) by (destruct base; simpl; [done|lia]).
      rewrite Z.mod_small by lia.
      destruct (Z.ltb_spec (0 + Z.of_nat (String.length base) - 1 + 2) 0);
        [lia|].
      rewrite Z.min_l by lia.
      replace (Z.to_nat (0 + Z.of_nat (String.length base) - 1 + 2))
        with (String.length (base +:+ ".")) by (rewrite string_length_app; simpl; lia).
      replace (base +:+ String "." ext) with ((base +:+ ".") +:+ ext)
        by apply string_append_assoc.
      apply string_drop_app. }
  split; [|done].
  destruct (split_at_last "." filename) as [Hd|(base & ext & Heq & Hd)].
  - rewrite Hnone by done. simpl. apply not_elem_of_nil.
  - rewrite (Hsplit base ext) by done. destruct (decide (base = "")); [|done].
    simpl. apply not_elem_of_nil.
Qed.

Lemma getFileExtension_after_last_dot_witness :
  S3StorageService_getFileExtension "notes.final.pdf" = "pdf"
  ∧ S3StorageService_getFileExtension ".gitignore" = ""
  ∧ S3StorageService_getFileExtension "README" = "".
Proof.
  split; [|split].
  - pose proof (getFileExtension_after_last_dot "notes.final.pdf" eq_refl)
      as (_ & _ & H).
    apply (H "notes.final" "pdf"); [reflexivity|].
    unfold dotless. simpl. intros Hd.
    repeat (apply elem_of_cons in Hd as [Hd|Hd]; [discriminate|]).
    by apply elem_of_nil in Hd.
  - reflexivity.
  - reflexivity.
Defined.

(** ** The upload, call by call *)

Lemma School_findByIdAndUpdate_eq id f w :
  School_findByIdAndUpdate id f w
  = if up w
    then (Ok tt, set_db (pop w) (set_schools (db w) (alter f id (schools (db w)))))
    else (Throw NetworkError, pop w).
Proof.
  unfold School_findByIdAndUpdate. unfold_async. rewrite remote_call_eq.
  destruct (up w); [|done]. by rewrite pop_db.
Qed.

Lemma Resource_create_eq title description subject grade strand tags isPublic
    uploader school file w :
  let r :=
    Resource.mk (oidgen w) (Js.trim (default "" title))
      (default "" description)
      (File.mk (Req.originalname file) (default "" (Req.filename file))
         (Req.mimetype file) (Req.size file) (default "" (Req.key file)))
      uploader school (Js.trim (default "" subject))
      (Js.trim (default "" grade)) (Js.trim <$> strand) (Js.trim <$> tags)
      pending None None None 0%Z isPublic (clock w) (clock w) in
  Resource_create title description subject grade strand tags isPublic
    uploader school file w
  = match Resource_validate r with
    | Some e => (Throw e, set_oidgen w (S (oidgen w)))
    | None =>
        if up w then
          if bool_decide (is_Some (resources (db w) !! oidgen w))
          then (Throw (DuplicateKey "_id_"), set_oidgen (pop w) (S (oidgen w)))
          else (Ok r,
                set_db (set_oidgen (pop w) (S (oidgen w)))
                  (set_resources (db w)
                     (<[oidgen w := r]> (resources (db w)))))
        else (Throw NetworkError, set_oidgen (pop w) (S (oidgen w)))
    end.
Proof.
  intros r. unfold Resource_create. unfold_async. simpl. fold r.
  destruct (Resource_validate r); [done|].
  rewrite remote_call_eq. simpl. rewrite up_set_oidgen, !pop_set_oidgen.
  destruct (up w); [|done]. simpl. rewrite pop_db.
  case_bool_decide; [done|]. simpl. by rewrite pop_db.
Qed.

Lemma pop_disk w : disk (pop w) = disk w.
Proof. unfold pop. by destruct (faults w). Qed.

(** What a creation that succeeds has stored. *)
Lemma Resource_create_cases title description subject grade strand tags
    isPublic uploader school file w :
  match Resource_create title description subject grade strand tags isPublic
          uploader school file w with
  | (Ok r, w') =>
      up w = true
      ∧ resources (db w) !! oidgen w = None
      ∧ Resource._id r = oidgen w
      ∧ Resource.uploader r = uploader
      ∧ Resource.school r = school
      ∧ Resource.status r = pending
      ∧ Resource.downloadCount r = 0%Z
      ∧ Resource.moderatedBy r = None
      ∧ Resource.moderatedAt r = None
      ∧ Resource.moderationNotes r = None
      ∧ Resource_validate r = None
      ∧ w' = set_db (set_oidgen (pop w) (S (oidgen w)))
               (set_resources (db w) (<[oidgen w := r]> (resources (db w))))
  | (Throw e, w') => db w' = db w ∧ disk w' = disk w
  end.
Proof.
  rewrite Resource_create_eq.
  destruct (Resource_validate _) eqn:Hv; [done|].
  destruct (up w); [|by simpl; rewrite pop_db, pop_disk].
  case_bool_decide as Hfree.
  - simpl. by rewrite pop_db, pop_disk.
  - split_and!; try done. by apply eq_None_not_Some.
Qed.

(** X2: an upload that answers 201 has stored one new document under an
    id that was free: pending, without moderation fields, never
    downloaded, owned by the requester and their school, whose counter is
    incremented; the other documents, the logs and the download records
    are as before. *)
Theorem upload_stores_one_pending (req : Req.t) (w w' : World)
    (m : option string) (r : Resource.t) :
  uploadResource req w = (Json 201 (ResourceData m r), w') →
  ∃ u, Req.user req = Some u
       ∧ resources (db w) !! Resource._id r = None
       ∧ resources (db w') = <[Resource._id r := r]> (resources (db w))
       ∧ Resource.status r = pending
       ∧ Resource.moderatedBy r = None
       ∧ Resource.moderatedAt r = None
       ∧ Resource.moderationNotes r = None
       ∧ Resource.downloadCount r = 0%Z
       ∧ Resource.uploader r = Req.id u
       ∧ Resource.school r = Req.school u
       ∧ schools (db w')
         = alter (inc_totalResources 1) (Req.school u) (schools (db w))
       ∧ moderationlogs (db w') = moderationlogs (db w)
       ∧ downloads (db w') = downloads (db w).
Proof.
  unfold uploadResource, asyncHandler, uploadResource_fn.
  destruct (negb _); [done|].
  destruct (Req.file req) as [file|]; [|done].
  rewrite bind_eq. unfold req_user. destruct (Req.user req) as [u|]; [|done].
  unfold ret at 1. rewrite bind_eq.
  match goal with
  | |- context [Resource_create ?a ?b ?c ?d ?e ?f ?g ?h ?i ?j w] =>
      pose proof (Resource_create_cases a b c d e f g h i j w) as Hc;
      destruct (Resource_create a b c d e f g h i j w) as [[r'|e'] w1]
  end; [|done].
  destruct Hc as (_ & Hfree & Hid & Hup & Hs & Hst & Hn & Hby & Hat & Hnotes
                  & _ & ->).
  rewrite bind_eq, School_findByIdAndUpdate_eq.
  destruct (up _); [|done].
  unfold populate. rewrite bind_eq, remote_call_eq. destruct (up _); [|done].
  rewrite bind_eq, remote_call_eq. destruct (up _); [|done].
  unfold ret. intros [= _ <- <-]. exists u.
  rewrite Hid. split_and!; try done; simpl; by rewrite ?pop_db.
Qed.

Lemma upload_stores_one_pending_witness :
  ∃ u, Req.user Sample.upload = Some u
       ∧ resources (db Scenario.empty_catalog)
           !! Resource._id Scenario.uploaded_worksheet = None
       ∧ resources (db Scenario.uploaded)
         = <[Resource._id Scenario.uploaded_worksheet
             := Scenario.uploaded_worksheet]>
             (resources (db Scenario.empty_catalog))
       ∧ Resource.status Scenario.uploaded_worksheet = pending
       ∧ Resource.moderatedBy Scenario.uploaded_worksheet = None
       ∧ Resource.moderatedAt Scenario.uploaded_worksheet = None
       ∧ Resource.moderationNotes Scenario.uploaded_worksheet = None
       ∧ Resource.downloadCount Scenario.uploaded_worksheet = 0%Z
       ∧ Resource.uploader Scenario.uploaded_worksheet = Req.id u
       ∧ Resource.school Scenario.uploaded_worksheet = Req.school u
       ∧ schools (db Scenario.uploaded)
         = alter (inc_totalResources 1) (Req.school u)
             (schools (db Scenario.empty_catalog))
       ∧ moderationlogs (db Scenario.uploaded)
         = moderationlogs (db Scenario.empty_catalog)
       ∧ downloads (db Scenario.uploaded)
         = downloads (db Scenario.empty_catalog).
Proof.
  apply (upload_stores_one_pending Sample.upload Scenario.empty_catalog
           Scenario.uploaded
           (Some "Resource uploaded successfully and is pending moderation")
           Scenario.uploaded_worksheet).
  vm_compute. reflexivity.
Defined.

(** X3: the upload is not atomic.  When the insertion gets through and the
    update of the counter of the school fails, the caller gets an error,
    and the document that the upload would have answered with is stored
    all the same, the counter of the school being left behind. *)
Theorem upload_counter_update_lost (req : Req.t) (w w1 : World)
    (m : option string) (r : Resource.t) :
  uploadResource req (set_faults w []) = (Json 201 (ResourceData m r), w1) →
  through 1 w → fails_at 1 w →
  (uploadResource req w).1 = Next NetworkError
  ∧ resources (db (uploadResource req w).2)
    = <[Resource._id r := r]> (resources (db w))
  ∧ schools (db (uploadResource req w).2) = schools (db w).
Proof.
  intros H Ht Hf.
  assert (Hup : up w = true).
  { apply up_head. apply Ht. lia. }
  apply fails_at_up in Hf. simpl in Hf.
  destruct (uploadResource req w) as [res w'] eqn:E. simpl.
  unfold uploadResource, asyncHandler, uploadResource_fn in *.
  destruct (negb _); [done|].
  destruct (Req.file req) as [file|]; [|done].
  rewrite bind_eq in H, E.
  unfold req_user in *. destruct (Req.user req) as [u|]; [|done].
  unfold ret at 1 in H. unfold ret at 1 in E.
  rewrite bind_eq, Resource_create_eq in H, E.
  cbn [oidgen clock db set_faults] in H.
  destruct (Resource_validate _); [done|].
  rewrite (up_available (set_faults w [])) in H by done.
  rewrite (pop_available (set_faults w [])) in H by done.
  rewrite Hup in E.
  destruct (bool_decide (is_Some (resources (db w) !! oidgen w))); [done|].
  rewrite bind_eq, School_findByIdAndUpdate_available in H by done.
  rewrite bind_eq, populate_available in H by done.
  rewrite bind_eq, populate_available in H by done.
  unfold ret in H. injection H as _ <- _.
  rewrite bind_eq, School_findByIdAndUpdate_eq in E.
  rewrite up_set_db, up_set_oidgen, Hf in E. injection E as <- <-.
  simpl. by rewrite !pop_db.
Qed.

Lemma upload_counter_update_lost_witness :
  (uploadResource Sample.upload Cases.counter_update_lost).1
  = Next NetworkError
  ∧ resources (db (uploadResource Sample.upload Cases.counter_update_lost).2)
    = <[Resource._id Scenario.uploaded_worksheet
        := Scenario.uploaded_worksheet]>
        (resources (db Cases.counter_update_lost))
  ∧ schools (db (uploadResource Sample.upload Cases.counter_update_lost).2)
    = schools (db Cases.counter_update_lost).
Proof.
  apply (upload_counter_update_lost Sample.upload Cases.counter_update_lost
           Scenario.uploaded
           (Some "Resource uploaded successfully and is pending moderation")
           Scenario.uploaded_worksheet).
  - vm_compute. reflexivity.
  - intros i Hi. assert (i = 0) as -> by lia. discriminate.
  - reflexivity.
Defined.

(** ** The edit of a resource *)

(** What a save that succeeds has stored. *)
Lemma Resource_save_cases r w :
  match Resource_save r w with
  | (Ok r', w') =>
      up w = true
      ∧ Resource_validate r = None
      ∧ r' = Resource.set_updatedAt r (clock w)
      ∧ w' = set_db (pop w)
               (set_resources (db w) (<[Resource._id r := r']> (resources (db w))))
  | (Throw e, w') => db w' = db w ∧ disk w' = disk w
  end.
Proof.
  destruct (Resource_validate r) as [e|] eqn:Hv.
  - by rewrite (Resource_save_invalid r w e).
  - rewrite Resource_save_eq by done.
    destruct (up w); [done|]. by rewrite pop_db, pop_disk.
Qed.

(** X4: an edit that answers 200 was asked by the uploader or by an
    administrator; it stores the document under the same id, with the same
    file, uploader, school, download counter and creation date, and
    touches no other document, no school and no log. *)
Theorem edit_keeps_identity (req : Req.t) (w w' : World)
    (m : option string) (r' : Resource.t) :
  updateResource req w = (Json 200 (ResourceData m r'), w') →
  ∃ r u, resources (db w) !! Req.params_id req = Some r
         ∧ Req.user req = Some u
         ∧ (Resource.uploader r = Req.id u ∨ Req.role u = admin)
         ∧ Resource._id r' = Resource._id r
         ∧ Resource.file r' = Resource.file r
         ∧ Resource.uploader r' = Resource.uploader r
         ∧ Resource.school r' = Resource.school r
         ∧ Resource.downloadCount r' = Resource.downloadCount r
         ∧ Resource.createdAt r' = Resource.createdAt r
         ∧ resources (db w') = <[Resource._id r := r']> (resources (db w))
         ∧ schools (db w') = schools (db w)
         ∧ moderationlogs (db w') = moderationlogs (db w)
         ∧ downloads (db w') = downloads (db w).
Proof.
  unfold updateResource, asyncHandler, updateResource_fn.
  destruct (negb _); [done|].
  rewrite bind_eq, Resource_findById_eq. destruct (up w); [|done].
  destruct (resources (db w) !! Req.params_id req) as [r|] eqn:Hr; [|done].
  rewrite bind_eq. unfold req_user. destruct (Req.user req) as [u|]; [|done].
  unfold ret at 1.
  destruct (negb (bool_decide (Resource.uploader r = Req.id u))
            && negb (bool_decide (Req.role u = admin))) eqn:Hperm; [done|].
  rewrite bind_eq.
  destruct (match Req.isPublic (Req.body req) with
            | Some s => cast_boolean s
            | None => Some (Resource.isPublic r)
            end) as [isPublic|]; [|done].
  match goal with
  | |- context [Resource_save ?x ?y] =>
      pose proof (Resource_save_cases x y) as Hs;
      destruct (Resource_save x y) as [[r1|e] w1]
  end; [|done].
  destruct Hs as (_ & _ & -> & ->).
  unfold populate. rewrite bind_eq, remote_call_eq. destruct (up _); [|done].
  rewrite bind_eq, remote_call_eq. destruct (up _); [|done].
  unfold ret. intros [= _ <- <-]. exists r, u.
  assert (Resource.uploader r = Req.id u ∨ Req.role u = admin).
  { apply andb_false_iff in Hperm as [H|H]; apply negb_false_iff in H;
      apply bool_decide_eq_true in H; auto. }
  destruct (bool_decide (Req.role u = admin)
            && bool_decide (Resource.status r = approved));
    simpl; rewrite ?pop_db; split_and!; done.
Qed.

Lemma edit_keeps_identity_witness :
  ∃ r' w', updateResource (Cases.rename Sample.teacher)
             Scenario.approved_catalog
           = (Json 200 (ResourceData (Some "Resource updated successfully") r'),
              w')
           ∧ Resource.title r' = "Algebra Worksheet, second edition"
           ∧ Resource.file r' = Sample.worksheet_file.
Proof.
  eexists _, _. split; [vm_compute; reflexivity|].
  split; [reflexivity|].
  destruct (edit_keeps_identity (Cases.rename Sample.teacher)
              Scenario.approved_catalog _ _ _ ltac:(vm_compute; reflexivity))
    as (r & u & Hr & _ & _ & _ & Hfile & _).
  rewrite Hfile. vm_compute in Hr. by injection Hr as <-.
Defined.

(** X5: what an edit does to the moderation of the document.  The edit
    of an approved resource by an administrator sends it back to pending
    and clears the moderation fields; every other edit leaves the status
    and the moderation fields as they were, so that the uploader's edit of
    an approved resource stays approved. *)
Theorem edit_resets_only_admin_on_approved (req : Req.t) (w w' : World)
    (m : option string) (r r' : Resource.t) (u : Req.AuthUser) :
  updateResource req w = (Json 200 (ResourceData m r'), w') →
  resources (db w) !! Req.params_id req = Some r →
  Req.user req = Some u →
  (Req.role u = admin → Resource.status r = approved →
   Resource.status r' = pending
   ∧ Resource.moderatedBy r' = None
   ∧ Resource.moderatedAt r' = None
   ∧ Resource.moderationNotes r' = None)
  ∧ (Req.role u ≠ admin ∨ Resource.status r ≠ approved →
     Resource.status r' = Resource.status r
     ∧ Resource.moderatedBy r' = Resource.moderatedBy r
     ∧ Resource.moderatedAt r' = Resource.moderatedAt r
     ∧ Resource.moderationNotes r' = Resource.moderationNotes r).
Proof.
  intros H Hr Hu. revert H.
  unfold updateResource, asyncHandler, updateResource_fn.
  destruct (negb _); [done|].
  rewrite bind_eq, Resource_findById_eq. destruct (up w); [|done].
  rewrite Hr, bind_eq. unfold req_user. rewrite Hu. unfold ret at 1.
  destruct (negb (bool_decide (Resource.uploader r = Req.id u))
            && negb (bool_decide (Req.role u = admin))); [done|].
  rewrite bind_eq.
  destruct (match Req.isPublic (Req.body req) with
            | Some s => cast_boolean s
            | None => Some (Resource.isPublic r)
            end) as [isPublic|]; [|done].
  match goal with
  | |- context [Resource_save ?x ?y] =>
      pose proof (Resource_save_cases x y) as Hs;
      destruct (Resource_save x y) as [[r1|e] w1]
  end; [|done].
  destruct Hs as (_ & _ & -> & ->).
  unfold populate. rewrite bind_eq, remote_call_eq. destruct (up _); [|done].
  rewrite bind_eq, remote_call_eq. destruct (up _); [|done].
  unfold ret. intros [= _ <- _].
  do 2 case_bool_decide; simpl; split; try done; intros [|]; done.
Qed.

Lemma edit_resets_only_admin_on_approved_witness :
  ∃ r', (updateResource (Cases.rename Sample.teacher)
           Scenario.approved_catalog).1
        = Json 200 (ResourceData (Some "Resource updated successfully") r')
        ∧ Resource.status r' = approved.
Proof.
  eexists. split; [vm_compute; reflexivity|].
  destruct (edit_resets_only_admin_on_approved (Cases.rename Sample.teacher)
              Scenario.approved_catalog _ _ (Sample.worksheet 1 approved) _
              Sample.teacher ltac:(vm_compute; reflexivity) eq_refl eq_refl)
    as [_ H].
  apply H. left. discriminate.
Defined.

(** ** Who may edit and delete *)

(** X6: a user who is neither the uploader of a resource nor an
    administrator is refused the edit and the delete with 403; the
    request has made one read, and changed nothing. *)
Theorem edit_and_delete_are_for_uploader_and_admin (req : Req.t) (w : World)
    (r : Resource.t) (u : Req.AuthUser) :
  resources (db w) !! Req.params_id req = Some r →
  Req.user req = Some u →
  Resource.uploader r ≠ Req.id u →
  Req.role u ≠ admin →
  through 1 w →
  (Req.validationErrors req = [] →
   updateResource req w = (Json 403 (Failure "Access denied"), pop w))
  ∧ deleteResource req w = (Json 403 (Failure "Access denied"), pop w).
Proof.
  intros Hr Hu Hup Hrole Ht.
  assert (Hw : up w = true) by (apply up_head, Ht; lia).
  split.
  - intros Herr. unfold updateResource, asyncHandler, updateResource_fn.
    rewrite Herr. simpl.
    rewrite bind_eq, Resource_findById_eq, Hw, Hr.
    rewrite bind_eq. unfold req_user. rewrite Hu. unfold ret at 1.
    by rewrite (bool_decide_eq_false_2 _ Hup), (bool_decide_eq_false_2 _ Hrole).
  - unfold deleteResource, asyncHandler, deleteResource_fn.
    rewrite bind_eq, Resource_findById_eq, Hw, Hr.
    rewrite bind_eq. unfold req_user. rewrite Hu. unfold ret at 1.
    by rewrite (bool_decide_eq_false_2 _ Hup), (bool_decide_eq_false_2 _ Hrole).
Qed.

Lemma edit_and_delete_are_for_uploader_and_admin_witness :
  updateResource (Cases.rename Cases.colleague) Cases.stored_catalog
  = (Json 403 (Failure "Access denied"), Cases.stored_catalog)
  ∧ deleteResource (Cases.rename Cases.colleague) Cases.stored_catalog
    = (Json 403 (Failure "Access denied"), Cases.stored_catalog).
Proof.
  assert (Ht : through 1 Cases.stored_catalog) by (by intros i _).
  destruct (edit_and_delete_are_for_uploader_and_admin
              (Cases.rename Cases.colleague) Cases.stored_catalog
              (Sample.worksheet 1 approved) Cases.colleague
              eq_refl eq_refl ltac:(simpl; lia) ltac:(discriminate) Ht)
    as [H1 H2].
  split; [by apply H1|done].
Defined.

(** ** The download, call by call *)

Lemma Download_create_cases user resource ip agent w :
  match Download_create user resource ip agent w with
  | (Ok d, w') =>
      up w = true
      ∧ downloads (db w) !! oidgen w = None
      ∧ ¬ downloaded (downloads (db w)) user resource
      ∧ Download.user d = user
      ∧ Download.resource d = resource
      ∧ w' = set_db (set_oidgen (pop w) (S (oidgen w)))
               (set_downloads (db w) (<[oidgen w := d]> (downloads (db w))))
  | (Throw e, w') => db w' = db w
  end.
Proof.
  unfold Download_create. unfold_async. simpl.
  rewrite remote_call_eq, up_set_oidgen, pop_set_oidgen.
  destruct (up w); simpl; [|by rewrite pop_db].
  rewrite pop_db. case_bool_decide as Hid; [by simpl; rewrite pop_db|].
  case_bool_decide as Hpair; [by simpl; rewrite pop_db|].
  simpl. rewrite pop_db. split_and!; try done. by apply eq_None_not_Some.
Qed.

Lemma pop_driver w : driver (pop w) = driver w.
Proof. unfold pop. by destruct (faults w). Qed.

Lemma getDownloadUrl_cases key name w :
  match storageService.getDownloadUrl key name w with
  | (Ok url, w') =>
      db w' = db w
      ∧ match driver w with
        | LocalDriver => url = LocalUrl key name
        | S3Driver =>
            url = SignedUrl key (S3StorageService.contentDisposition name) 3600
        end
  | (Throw e, w') => db w' = db w ∧ driver w = S3Driver
  end.
Proof.
  unfold storageService.getDownloadUrl. rewrite bind_eq. simpl.
  destruct (driver w); [done|].
  unfold S3StorageService.getDownloadUrl, try_catch, getSignedUrl.
  rewrite bind_eq, remote_call_eq.
  destruct (up w); simpl; by rewrite pop_db.
Qed.

Lemma Resource_incrementDownload_cases r w :
  match Resource_incrementDownload r w with
  | (Ok r', w') =>
      Resource._id r' = Resource._id r
      ∧ Resource.title r' = Resource.title r
      ∧ Resource.file r' = Resource.file r
      ∧ Resource.status r' = Resource.status r
      ∧ Resource.downloadCount r' = (Resource.downloadCount r + 1)%Z
      ∧ resources (db w') = <[Resource._id r := r']> (resources (db w))
      ∧ schools (db w')
        = alter (inc_totalDownloads 1) (Resource.school r) (schools (db w))
      ∧ downloads (db w') = downloads (db w)
      ∧ moderationlogs (db w') = moderationlogs (db w)
  | (Throw e, w') => True
  end.
Proof.
  unfold Resource_incrementDownload. rewrite bind_eq.
  match goal with
  | |- context [Resource_save ?x ?y] =>
      pose proof (Resource_save_cases x y) as Hs;
      destruct (Resource_save x y) as [[r1|e] w1]
  end; [|done].
  destruct Hs as (_ & _ & -> & ->).
  rewrite bind_eq, School_findByIdAndUpdate_eq.
  destruct (up _); [|done]. simpl. rewrite ?pop_db. by split_and!.
Qed.

(** The permission check of the download. *)
Lemma download_denied_cases req r w :
  match (if negb (bool_decide (Resource.status r = approved))
         then u <- req_user req;;
              ret (negb (bool_decide (Req.role u = admin))
                   && negb (bool_decide (Resource.uploader r = Req.id u)))
         else ret false) w with
  | (Ok denied, w') =>
      w' = w
      ∧ if denied : bool then Resource.status r ≠ approved
        else Resource.status r = approved
             ∨ ∃ u, Req.user req = Some u
                    ∧ (Req.role u = admin ∨ Resource.uploader r = Req.id u)
  | (Throw e, w') => True
  end.
Proof.
  case_bool_decide as Hst; simpl; [by auto|].
  rewrite bind_eq. unfold req_user.
  destruct (Req.user req) as [u|]; [|done]. unfold ret.
  do 2 case_bool_decide; simpl; split; try done; right; exists u; auto.
Qed.

(** What a download that answers 200 has done. *)
Lemma downloadResource_ok req w w' url id title file :
  downloadResource req w = (Json 200 (DownloadData url id title file), w') →
  ∃ r r' u d k,
    resources (db w) !! Req.params_id req = Some r
    ∧ Req.user req = Some u
    ∧ (Resource.status r = approved ∨ Req.role u = admin
       ∨ Resource.uploader r = Req.id u)
    ∧ id = Resource._id r ∧ title = Resource.title r
    ∧ file = Resource.file r
    ∧ match driver w with
      | LocalDriver => url = LocalUrl (File.key file) (File.originalName file)
      | S3Driver =>
          url = SignedUrl (File.key file)
                  (S3StorageService.contentDisposition
                     (File.originalName file)) 3600
      end
    ∧ Resource.status r' = Resource.status r
    ∧ Resource.downloadCount r' = (Resource.downloadCount r + 1)%Z
    ∧ resources (db w') = <[Resource._id r := r']> (resources (db w))
    ∧ schools (db w')
      = alter (inc_totalDownloads 1) (Resource.school r) (schools (db w))
    ∧ ¬ downloaded (downloads (db w)) (Req.id u) (Resource._id r)
    ∧ downloads (db w) !! k = None
    ∧ downloads (db w') = <[k := d]> (downloads (db w))
    ∧ Download.user d = Req.id u
    ∧ Download.resource d = Resource._id r
    ∧ moderationlogs (db w') = moderationlogs (db w).
Proof.
  unfold downloadResource, asyncHandler, downloadResource_fn.
  rewrite bind_eq, Resource_findById_eq.
  destruct (up w) eqn:Hup; [|done].
  destruct (resources (db w) !! Req.params_id req) as [r|] eqn:Hr; [|done].
  rewrite bind_eq.
  pose proof (download_denied_cases req r (pop w)) as Hden.
  match type of Hden with
  | match ?c with _ => _ end => destruct c as [[[]|e] w2]
  end; [by destruct Hden as [-> _]| |done].
  destruct Hden as [-> Hallowed].
  unfold try_catch. rewrite bind_eq.
  pose proof (getDownloadUrl_cases (File.key (Resource.file r))
                (File.originalName (Resource.file r)) (pop w)) as Hurl.
  destruct (storageService.getDownloadUrl _ _ (pop w)) as [[url'|e] w1];
    [|by unfold_async].
  destruct Hurl as [Hdb1 Hurl]. rewrite bind_eq.
  pose proof (Resource_incrementDownload_cases r w1) as Hinc.
  destruct (Resource_incrementDownload r w1) as [[r'|e] w3];
    [|by unfold_async].
  destruct Hinc as (Hid & Htitle & Hfile & Hst & Hcount & Hres & Hsch & Hdl
                    & Hlog).
  rewrite bind_eq. unfold req_user at 1.
  destruct (Req.user req) as [u|] eqn:Hu; [|by unfold_async].
  unfold ret at 1. rewrite bind_eq.
  pose proof (Download_create_cases (Req.id u) (Resource._id r') (Req.ip req)
                (Req.userAgent req) w3) as Hc.
  destruct (Download_create _ _ _ _ w3) as [[d|e] w4]; [|by unfold_async].
  destruct Hc as (_ & Hfree & Hpair & Hdu & Hdr & ->).
  unfold ret. intros [= <- <- <- <- <-].
  exists r, r', u, d, (oidgen w3).
  rewrite Hdl in Hfree, Hpair. rewrite Hid in Hpair, Hdr.
  rewrite Hdb1, pop_db in Hres, Hsch, Hfree, Hpair, Hlog.
  simpl. rewrite Hdl, Hdb1, pop_db.
  split_and!; try done.
  - destruct Hallowed as [?|(u' & [= <-] & [?|?])]; auto.
  - rewrite Hfile. rewrite pop_driver in Hurl. by destruct (driver w).
Qed.

Lemma pop_console w : console (pop w) = console w.
Proof. unfold pop. by destruct (faults w). Qed.

(** X7: a download is answered with 200 only for a user who is logged in
    and may see the resource: the resource is approved, or the user is
    its uploader or an administrator.  The URL is one of the storage
    service in use, for the key of the stored file of that resource; on
    S3 it is signed for one hour. *)
Theorem download_is_for_those_who_may_see (req : Req.t) (w w' : World)
    (url : Url) (id : ObjectId) (title : string) (file : File.t) :
  downloadResource req w = (Json 200 (DownloadData url id title file), w') →
  ∃ r u,
    resources (db w) !! Req.params_id req = Some r
    ∧ Req.user req = Some u
    ∧ (Resource.status r = approved ∨ Req.role u = admin
       ∨ Resource.uploader r = Req.id u)
    ∧ id = Resource._id r
    ∧ title = Resource.title r
    ∧ file = Resource.file r
    ∧ match url with
      | LocalUrl key name =>
          driver w = LocalDriver
          ∧ key = File.key (Resource.file r)
          ∧ name = File.originalName (Resource.file r)
      | SignedUrl key _ expiresIn =>
          driver w = S3Driver
          ∧ key = File.key (Resource.file r)
          ∧ expiresIn = 3600%Z
      end.
Proof.
  intros H. apply downloadResource_ok in H
    as (r & r' & u & d & k & Hr & Hu & Hauth & -> & -> & -> & Hurl & _).
  exists r, u. split_and!; try done.
  by destruct (driver w); subst url.
Qed.

Lemma download_is_for_those_who_may_see_witness :
  ∃ r u,
    resources (db Scenario.approved_catalog)
      !! Req.params_id Scenario.download_it = Some r
    ∧ Req.user Scenario.download_it = Some u
    ∧ (Resource.status r = approved ∨ Req.role u = admin
       ∨ Resource.uploader r = Req.id u)
    ∧ 1 = Resource._id r
    ∧ "Algebra Basics Worksheet" = Resource.title r
    ∧ Sample.worksheet_file = Resource.file r
    ∧ (driver Scenario.approved_catalog = LocalDriver
       ∧ "file-1700000000000-1.pdf" = File.key (Resource.file r)
       ∧ "algebra-worksheet.pdf" = File.originalName (Resource.file r)).
Proof.
  apply (download_is_for_those_who_may_see Scenario.download_it
           Scenario.approved_catalog Scenario.once
           (LocalUrl "file-1700000000000-1.pdf" "algebra-worksheet.pdf")).
  vm_compute. reflexivity.
Defined.

(** X8: a download that is answered with 200 is counted once: the download
    counter of the resource and the one of its school go up by one, one
    download record is added for the user and the resource, for which
    there was none, and nothing else changes in the collections. *)
Theorem download_is_counted_once (req : Req.t) (w w' : World)
    (url : Url) (id : ObjectId) (title : string) (file : File.t) :
  downloadResource req w = (Json 200 (DownloadData url id title file), w') →
  ∃ r r' u d k,
    resources (db w) !! Req.params_id req = Some r
    ∧ Req.user req = Some u
    ∧ Resource.downloadCount r' = (Resource.downloadCount r + 1)%Z
    ∧ Resource.status r' = Resource.status r
    ∧ resources (db w') = <[Resource._id r := r']> (resources (db w))
    ∧ schools (db w')
      = alter (inc_totalDownloads 1) (Resource.school r) (schools (db w))
    ∧ ¬ downloaded (downloads (db w)) (Req.id u) (Resource._id r)
    ∧ downloads (db w) !! k = None
    ∧ downloads (db w') = <[k := d]> (downloads (db w))
    ∧ Download.user d = Req.id u
    ∧ Download.resource d = Resource._id r
    ∧ moderationlogs (db w') = moderationlogs (db w).
Proof.
  intros H. apply downloadResource_ok in H
    as (r & r' & u & d & k & Hr & Hu & _ & _ & _ & _ & _ & H).
  exists r, r', u, d, k. by destruct H as (? & ? & ? & ? & ? & ? & ? & ? & ? & ?).
Qed.

Lemma download_is_counted_once_witness :
  ∃ r r' u d k,
    resources (db Scenario.approved_catalog)
      !! Req.params_id Scenario.download_it = Some r
    ∧ Req.user Scenario.download_it = Some u
    ∧ Resource.downloadCount r' = (Resource.downloadCount r + 1)%Z
    ∧ Resource.status r' = Resource.status r
    ∧ resources (db Scenario.once)
      = <[Resource._id r := r']> (resources (db Scenario.approved_catalog))
    ∧ schools (db Scenario.once)
      = alter (inc_totalDownloads 1) (Resource.school r)
          (schools (db Scenario.approved_catalog))
    ∧ ¬ downloaded (downloads (db Scenario.approved_catalog)) (Req.id u)
          (Resource._id r)
    ∧ downloads (db Scenario.approved_catalog) !! k = None
    ∧ downloads (db Scenario.once)
      = <[k := d]> (downloads (db Scenario.approved_catalog))
    ∧ Download.user d = Req.id u
    ∧ Download.resource d = Resource._id r
    ∧ moderationlogs (db Scenario.once)
      = moderationlogs (db Scenario.approved_catalog).
Proof.
  apply (download_is_counted_once Scenario.download_it
           Scenario.approved_catalog Scenario.once
           (LocalUrl "file-1700000000000-1.pdf" "algebra-worksheet.pdf") 1
           "Algebra Basics Worksheet" Sample.worksheet_file).
  vm_compute. reflexivity.
Defined.

(** X9: when the signature of the URL fails on S3, the download of an
    approved resource is answered with 500 and counts nothing: the
    collections are as before. *)
Theorem download_without_url_counts_nothing (req : Req.t) (w : World)
    (r : Resource.t) :
  driver w = S3Driver →
  resources (db w) !! Req.params_id req = Some r →
  Resource.status r = approved →
  through 1 w → fails_at 1 w →
  (downloadResource req w).1
  = Json 500 (Failure "Error generating download URL")
  ∧ db (downloadResource req w).2 = db w
  ∧ console (downloadResource req w).2
    = console w ++ ["Error generating S3 signed URL:"; "Download error:"].
Proof.
  intros Hd Hr Hst Ht Hf.
  assert (Hup : up w = true) by (apply up_head, Ht; lia).
  apply fails_at_up in Hf. simpl in Hf.
  destruct (downloadResource req w) as [res w'] eqn:E. simpl.
  unfold downloadResource, asyncHandler, downloadResource_fn in E.
  rewrite bind_eq, Resource_findById_eq, Hup, Hr in E.
  rewrite bind_eq, (bool_decide_eq_true_2 _ Hst) in E. simpl in E.
  unfold ret at 1 in E. unfold try_catch in E. rewrite bind_eq in E.
  unfold storageService.getDownloadUrl in E.
  rewrite bind_eq in E. unfold get_world in E.
  rewrite pop_driver, Hd in E.
  unfold S3StorageService.getDownloadUrl, try_catch, getSignedUrl in E.
  rewrite bind_eq, remote_call_eq, Hf in E.
  unfold_async. injection E as <- <-. simpl.
  rewrite !pop_db, !pop_console. split_and!; [done..|].
  by rewrite <-app_assoc.
Qed.

Lemma download_without_url_counts_nothing_witness :
  (downloadResource Scenario.download_it Cases.signature_fails).1
  = Json 500 (Failure "Error generating download URL")
  ∧ db (downloadResource Scenario.download_it Cases.signature_fails).2
    = db Cases.signature_fails
  ∧ console (downloadResource Scenario.download_it Cases.signature_fails).2
    = console Cases.signature_fails
      ++ ["Error generating S3 signed URL:"; "Download error:"].
Proof.
  apply (download_without_url_counts_nothing Scenario.download_it
           Cases.signature_fails (Sample.worksheet 1 approved));
    try reflexivity.
  intros i Hi. assert (i = 0) as -> by lia. discriminate.
Defined.

(** ** The delete, call by call *)

Lemma deleteFile_cases key w :
  match storageService.deleteFile key w with
  | (Ok _, w') =>
      db w' = db w
      ∧ match driver w with
        | LocalDriver =>
            key ∈ disk w ∧ disk w' = disk w ∖ {[key]} ∧ bucket w' = bucket w
        | S3Driver =>
            disk w' = disk w ∧ bucket w' = bucket w ∖ {[key]}
        end
  | (Throw e, w') => db w' = db w ∧ disk w' = disk w ∧ bucket w' = bucket w
  end.
Proof.
  unfold storageService.deleteFile. rewrite bind_eq. simpl.
  destruct (driver w).
  - unfold LocalStorageService.deleteFile, try_catch, fs_unlink.
    by case_bool_decide.
  - unfold S3StorageService.deleteFile, try_catch, s3_send_DeleteObject.
    unfold_async. rewrite remote_call_eq.
    destruct (up w); simpl; rewrite pop_db, pop_disk; split_and!; try done;
      unfold pop; by destruct (faults w).
Qed.

Lemma Resource_findByIdAndDelete_eq id w :
  Resource_findByIdAndDelete id w
  = if up w
    then (Ok tt,
          set_db (pop w) (set_resources (db w) (delete id (resources (db w)))))
    else (Throw NetworkError, pop w).
Proof.
  unfold Resource_findByIdAndDelete. unfold_async. rewrite remote_call_eq.
  destruct (up w); [|done]. by rewrite pop_db.
Qed.

Lemma pop_set_disk w d : pop (set_disk w d) = set_disk (pop w) d.
Proof. unfold pop. simpl. by destruct (faults w). Qed.

Lemma pop_bucket w : bucket (pop w) = bucket w.
Proof. unfold pop. by destruct (faults w). Qed.

(** X10: a delete that answers 200 was asked by the uploader or by an
    administrator; it has removed the stored file and the document, and
    decremented the counter of the school of the resource.  The
    moderation log entries and the download records of the resource stay
    in their collections. *)
Theorem delete_removes_file_and_document (req : Req.t) (w w' : World)
    (m : string) :
  deleteResource req w = (Json 200 (Success m), w') →
  ∃ r u,
    resources (db w) !! Req.params_id req = Some r
    ∧ Req.user req = Some u
    ∧ (Resource.uploader r = Req.id u ∨ Req.role u = admin)
    ∧ resources (db w') = delete (Req.params_id req) (resources (db w))
    ∧ schools (db w')
      = alter (inc_totalResources (-1)) (Resource.school r) (schools (db w))
    ∧ moderationlogs (db w') = moderationlogs (db w)
    ∧ downloads (db w') = downloads (db w)
    ∧ match driver w with
      | LocalDriver =>
          File.key (Resource.file r) ∈ disk w
          ∧ disk w' = disk w ∖ {[File.key (Resource.file r)]}
      | S3Driver => bucket w' = bucket w ∖ {[File.key (Resource.file r)]}
      end.
Proof.
  unfold deleteResource, asyncHandler, deleteResource_fn.
  rewrite bind_eq, Resource_findById_eq. destruct (up w); [|done].
  destruct (resources (db w) !! Req.params_id req) as [r|] eqn:Hr; [|done].
  rewrite bind_eq. unfold req_user. destruct (Req.user req) as [u|]; [|done].
  unfold ret at 1.
  destruct (negb (bool_decide (Resource.uploader r = Req.id u))
            && negb (bool_decide (Req.role u = admin))) eqn:Hperm; [done|].
  unfold try_catch. rewrite bind_eq.
  pose proof (deleteFile_cases (File.key (Resource.file r)) (pop w)) as Hfile.
  destruct (storageService.deleteFile _ (pop w)) as [[[]|e] w1];
    [|by unfold_async].
  destruct Hfile as [Hdb Hfile]. rewrite pop_driver in Hfile.
  rewrite bind_eq, Resource_findByIdAndDelete_eq.
  destruct (up w1); [|by unfold_async].
  rewrite bind_eq, School_findByIdAndUpdate_eq.
  destruct (up _); [|by unfold_async].
  unfold ret. intros [= <- <-]. exists r, u. simpl.
  rewrite ?pop_disk, ?pop_bucket. simpl.
  rewrite ?pop_disk, ?pop_bucket, Hdb, !pop_db.
  rewrite ?pop_disk, ?pop_bucket in Hfile.
  split_and!; try done.
  - apply andb_false_iff in Hperm as [H|H]; apply negb_false_iff in H;
      apply bool_decide_eq_true in H; auto.
  - destruct (driver w); [|by destruct Hfile as [_ ->]].
    by destruct Hfile as (? & -> & _).
Qed.

Lemma delete_removes_file_and_document_witness :
  ∃ r u,
    resources (db Cases.stored_catalog)
      !! Req.params_id (Sample.request (Some Sample.teacher) 1 None) = Some r
    ∧ Req.user (Sample.request (Some Sample.teacher) 1 None) = Some u
    ∧ (Resource.uploader r = Req.id u ∨ Req.role u = admin)
    ∧ resources (db (deleteResource
                       (Sample.request (Some Sample.teacher) 1 None)
                       Cases.stored_catalog).2)
      = delete 1 (resources (db Cases.stored_catalog))
    ∧ schools (db (deleteResource
                     (Sample.request (Some Sample.teacher) 1 None)
                     Cases.stored_catalog).2)
      = alter (inc_totalResources (-1)) (Resource.school r)
          (schools (db Cases.stored_catalog))
    ∧ moderationlogs (db (deleteResource
                            (Sample.request (Some Sample.teacher) 1 None)
                            Cases.stored_catalog).2)
      = moderationlogs (db Cases.stored_catalog)
    ∧ downloads (db (deleteResource
                       (Sample.request (Some Sample.teacher) 1 None)
                       Cases.stored_catalog).2)
      = downloads (db Cases.stored_catalog)
    ∧ match driver Cases.stored_catalog with
      | LocalDriver =>
          File.key (Resource.file r) ∈ disk Cases.stored_catalog
          ∧ disk (deleteResource
                    (Sample.request (Some Sample.teacher) 1 None)
                    Cases.stored_catalog).2
            = disk Cases.stored_catalog ∖ {[File.key (Resource.file r)]}
      | S3Driver =>
          bucket (deleteResource
                    (Sample.request (Some Sample.teacher) 1 None)
                    Cases.stored_catalog).2
          = bucket Cases.stored_catalog ∖ {[File.key (Resource.file r)]}
      end.
Proof.
  apply (delete_removes_file_and_document
           (Sample.request (Some Sample.teacher) 1 None)
           Cases.stored_catalog
           (deleteResource (Sample.request (Some Sample.teacher) 1 None)
              Cases.stored_catalog).2
           "Resource deleted successfully").
  vm_compute. reflexivity.
Defined.

(** X11: when the removal of the document fails after the stored file is
    gone, the delete is answered with 500 and the document stays in the
    catalog, as it was, with its counter: a resource without file. *)
Theorem delete_leaves_document_without_file (req : Req.t) (w : World)
    (r : Resource.t) (u : Req.AuthUser) :
  driver w = LocalDriver →
  resources (db w) !! Req.params_id req = Some r →
  Req.user req = Some u →
  Resource.uploader r = Req.id u ∨ Req.role u = admin →
  File.key (Resource.file r) ∈ disk w →
  through 1 w → fails_at 1 w →
  (deleteResource req w).1 = Json 500 (Failure "Error deleting resource")
  ∧ db (deleteResource req w).2 = db w
  ∧ disk (deleteResource req w).2 = disk w ∖ {[File.key (Resource.file r)]}.
Proof.
  intros Hd Hr Hu Hperm Hfile Ht Hf.
  assert (Hup : up w = true) by (apply up_head, Ht; lia).
  apply fails_at_up in Hf. simpl in Hf.
  assert (Hallowed :
    negb (bool_decide (Resource.uploader r = Req.id u))
    && negb (bool_decide (Req.role u = admin)) = false).
  { destruct Hperm as [H|H]; rewrite (bool_decide_eq_true_2 _ H); simpl;
      [done|by rewrite andb_false_r]. }
  destruct (deleteResource req w) as [res w'] eqn:E. simpl.
  unfold deleteResource, asyncHandler, deleteResource_fn in E.
  rewrite bind_eq, Resource_findById_eq, Hup, Hr in E.
  rewrite bind_eq in E. unfold req_user in E. rewrite Hu in E.
  unfold ret at 1 in E. rewrite Hallowed in E.
  unfold try_catch in E. rewrite bind_eq in E.
  unfold storageService.deleteFile in E. rewrite bind_eq in E.
  unfold get_world in E. rewrite pop_driver, Hd in E.
  rewrite local_deleteFile_present in E by by rewrite pop_disk.
  rewrite bind_eq, Resource_findByIdAndDelete_eq in E.
  change (up (set_disk (pop w) _)) with (up (pop w)) in E.
  rewrite Hf in E. unfold_async. injection E as <- <-.
  split; [done|]. simpl.
  rewrite pop_set_disk. simpl. by rewrite !pop_db, !pop_disk.
Qed.

Lemma delete_leaves_document_without_file_witness :
  (deleteResource (Sample.request (Some Sample.teacher) 1 None)
     Cases.removal_lost).1
  = Json 500 (Failure "Error deleting resource")
  ∧ db (deleteResource (Sample.request (Some Sample.teacher) 1 None)
          Cases.removal_lost).2
    = db Cases.removal_lost
  ∧ disk (deleteResource (Sample.request (Some Sample.teacher) 1 None)
            Cases.removal_lost).2
    = disk Cases.removal_lost
      ∖ {[File.key (Resource.file (Sample.worksheet 1 approved))]}.
Proof.
  apply (delete_leaves_document_without_file
           (Sample.request (Some Sample.teacher) 1 None) Cases.removal_lost
           (Sample.worksheet 1 approved) Sample.teacher);
    try reflexivity.
  - by left.
  - intros i Hi. assert (i = 0) as -> by lia. discriminate.
Defined.

(** ** The pages of the moderation queue *)

Lemma ceil_div_covers total limit :
  (0 < limit)%Z → (total ≤ limit * ceil_div total limit)%Z.
Proof.
  intros Hl. unfold ceil_div.
  pose proof (Z.mul_div_le (- total) limit Hl). lia.
Qed.

Lemma ceil_div_nonneg total limit :
  (0 < limit)%Z → (0 ≤ total)%Z → (0 ≤ ceil_div total limit)%Z.
Proof.
  intros Hl Ht. unfold ceil_div.
  assert (- total / limit ≤ 0)%Z; [|lia].
  apply Z.div_le_upper_bound; lia.
Qed.

(** The chunks of a list, put together again. *)
Lemma chunks_concat {A} (l : list A) (size n : nat) :
  concat ((λ i, take size (drop (i * size) l)) <$> seq 0 n)
  = take (n * size) l.
Proof.
  induction n as [|n IH]; [by rewrite take_0|].
  rewrite seq_S, fmap_app, concat_app, IH. simpl. rewrite app_nil_r.
  rewrite take_take_drop. f_equal. lia.
Qed.

Lemma getPendingResources_page w page limit :
  faults w = [] → (1 ≤ page)%Z → (0 < limit)%Z →
  getPendingResources (page_request page limit) w
  = (Json 200
       (PendingData
          (take (Z.to_nat limit)
             (drop (Z.to_nat (page - 1) * Z.to_nat limit) (pending_queue w)))
          (mkPagination page limit (Z.of_nat (length (pending_queue w)))
             (ceil_div (Z.of_nat (length (pending_queue w))) limit))),
     w).
Proof.
  intros Hf Hp Hl. unfold getPendingResources, asyncHandler,
    getPendingResources_fn, page_request, or_default. simpl.
  destruct (Z.eqb_spec page 0); [lia|].
  destruct (Z.eqb_spec limit 0); [lia|].
  rewrite bind_eq, Resource_find_eq, (up_available w Hf),
    (pop_available w Hf).
  destruct (Z.ltb_spec ((page - 1) * limit) 0); [nia|].
  rewrite bind_eq, Resource_countDocuments_eq, (up_available w Hf),
    (pop_available w Hf).
  unfold ret, apply_limit, pending_queue.
  destruct (Z.eqb_spec limit 0); [lia|].
  rewrite (Permutation_length
             (merge_sort_Permutation createdAt_asc (select w status_pending))).
  rewrite Z2Nat.inj_mul by lia.
  by replace (Z.to_nat (Z.abs limit)) with (Z.to_nat limit) by lia.
Qed.

Lemma pending_queue_waiting w : pending_queue w ≡ₚ waiting (db w).
Proof.
  unfold pending_queue. by rewrite merge_sort_Permutation, select_status_pending.
Qed.

(** With no two creation times alike, oldest first is older first. *)
Lemma sorted_older (l : list Resource.t) :
  StronglySorted createdAt_asc l → NoDup (Resource.createdAt <$> l) →
  StronglySorted older l.
Proof.
  intros Hs. induction Hs as [|a l Hs IH Ha]; intros Hn; [constructor|].
  rewrite fmap_cons in Hn. apply NoDup_cons in Hn as [Hin Hn].
  constructor; [by apply IH|].
  apply Forall_forall. intros b Hb.
  assert (createdAt_asc a b) by (eapply Forall_forall; [exact Ha|done]).
  assert (Resource.createdAt a ≠ Resource.createdAt b).
  { intros Heq. apply Hin. rewrite Heq. by apply list_elem_of_fmap_2. }
  unfold older, createdAt_asc in *. lia.
Qed.

(** X12: the pages of the moderation queue.  When the database is
    available, the limit is positive and no two pending resources were
    created at the same time, every page is answered with the same total
    and page count, and the pages from the first to the last, put one
    after the other, hold the pending resources of the catalog, each
    once, the older before the newer: no pending resource is skipped,
    none comes twice. *)
Theorem pending_pages_cover_queue (w : World) (limit : Z) :
  faults w = [] → (0 < limit)%Z →
  NoDup (Resource.createdAt <$> waiting (db w)) →
  let total := Z.of_nat (length (waiting (db w))) in
  let pages := ceil_div total limit in
  let queue :=
    concat ((λ p, pending_page w (Z.of_nat p) limit)
              <$> seq 1 (Z.to_nat pages)) in
  (∀ page, (1 ≤ page)%Z →
     (getPendingResources (page_request page limit) w).1
     = Json 200 (PendingData (pending_page w page limit)
                   (mkPagination page limit total pages)))
  ∧ queue ≡ₚ waiting (db w)
  ∧ StronglySorted older queue.
Proof.
  intros Hf Hl Hdistinct total pages queue.
  assert (Htotal : Z.of_nat (length (pending_queue w)) = total).
  { subst total. by rewrite pending_queue_waiting. }
  assert (Hpage : ∀ page, (1 ≤ page)%Z →
    pending_page w page limit
    = take (Z.to_nat limit)
        (drop (Z.to_nat (page - 1) * Z.to_nat limit) (pending_queue w))).
  { intros page Hp. unfold pending_page.
    by rewrite getPendingResources_page. }
  assert (Hqueue : queue = pending_queue w).
  { subst queue. rewrite <-fmap_S_seq, <-list_fmap_compose.
    transitivity
      (concat ((λ i, take (Z.to_nat limit)
                       (drop (i * Z.to_nat limit) (pending_queue w)))
                 <$> seq 0 (Z.to_nat pages))).
    { f_equal. apply list_fmap_ext. intros i p _. simpl.
      rewrite Hpage by lia. do 2 f_equal. lia. }
    rewrite chunks_concat. apply take_ge.
    pose proof (ceil_div_covers total limit Hl).
    pose proof (ceil_div_nonneg total limit Hl).
    subst pages. rewrite <-Htotal in *. nia. }
  split_and!.
  - intros page Hp. rewrite Hpage by done.
    by rewrite getPendingResources_page, Htotal.
  - rewrite Hqueue. apply pending_queue_waiting.
  - rewrite Hqueue. apply sorted_older.
    + apply (@StronglySorted_merge_sort _ _ _ createdAt_asc_trans
               createdAt_asc_total).
    + by rewrite pending_queue_waiting.
Qed.

Lemma pending_pages_cover_queue_witness :
  concat ((λ p, pending_page Scenario.queue (Z.of_nat p) 1) <$> seq 1 2)
  ≡ₚ waiting (db Scenario.queue)
  ∧ StronglySorted older
      (concat ((λ p, pending_page Scenario.queue (Z.of_nat p) 1)
                 <$> seq 1 2)).
Proof.
  assert (Hd : NoDup (Resource.createdAt <$> waiting (db Scenario.queue))).
  { apply (bool_decide_unpack _). by vm_compute. }
  destruct (pending_pages_cover_queue Scenario.queue 1 eq_refl eq_refl Hd)
    as (_ & H1 & H2).
  split; [exact H1|exact H2].
Defined.

(** ** Related resources *)

Lemma downloads_then_createdAt_desc_trans :
  Transitive downloads_then_createdAt_desc.
Proof. unfold downloads_then_createdAt_desc. intros a b c. lia. Qed.

Lemma downloads_then_createdAt_desc_total :
  Total downloads_then_createdAt_desc.
Proof. unfold downloads_then_createdAt_desc. intros a b. lia. Qed.

Lemma apply_limit_length {A} n (l : list A) :
  n ≠ 0%Z → length (apply_limit n l) ≤ Z.to_nat (Z.abs n).
Proof.
  intros Hn. unfold apply_limit. destruct (Z.eqb_spec n 0); [done|].
  rewrite length_take. lia.
Qed.

Lemma tags_in_spec l r :
  tags_in l r = true ↔ ∃ t, t ∈ Resource.tags r ∧ t ∈ l.
Proof.
  unfold tags_in. rewrite existsb_exists. split.
  - intros (t & Ht & Hl). exists t. split; [by apply list_elem_of_In|].
    by apply bool_decide_eq_true in Hl.
  - intros (t & Ht & Hl). exists t. split; [by apply list_elem_of_In|].
    by apply bool_decide_eq_true.
Qed.

(** X13: the resources related to a resource are at most six approved
    resources other than the resource itself, each of which has its
    subject, its grade, one of its tags or its school; they come by
    decreasing number of downloads, the newer first among equals. *)
Theorem related_resources_share_something (req : Req.t) (w w' : World)
    (l : list Resource.t) :
  getRelatedResources req w = (Json 200 (RelatedData l), w') →
  ∃ r,
    resources (db w) !! Req.params_id req = Some r
    ∧ length l ≤ 6
    ∧ StronglySorted downloads_then_createdAt_desc l
    ∧ Forall (λ x,
        Resource.status x = approved
        ∧ Resource._id x ≠ Resource._id r
        ∧ (Resource.subject x = Resource.subject r
           ∨ Resource.grade x = Resource.grade r
           ∨ (∃ t, t ∈ Resource.tags x ∧ t ∈ Resource.tags r)
           ∨ Resource.school x = Resource.school r)) l.
Proof.
  unfold getRelatedResources, asyncHandler, getRelatedResources_fn.
  rewrite bind_eq, Resource_findById_eq. destruct (up w); [|done].
  destruct (resources (db w) !! Req.params_id req) as [r|]; [|done].
  rewrite bind_eq, Resource_find_eq. destruct (up (pop w)); [|done].
  simpl. unfold ret. intros [= <- _]. exists r. split_and!; [done|..].
  - by apply (apply_limit_length 6).
  - apply apply_limit_sorted, drop_sorted.
    apply (@StronglySorted_merge_sort _ _ _
             downloads_then_createdAt_desc_trans
             downloads_then_createdAt_desc_total).
  - apply Forall_forall. intros x Hx. apply page_subseteq in Hx.
    apply select_matches in Hx. split.
    + by apply (matches_status _ _ _ approved) in Hx.
    + revert Hx. unfold matches. simpl. rewrite !andb_true_iff.
      intros [[[[[[[[[Hid _] _] _] _] _] _] _] _] Hor].
      split.
      * apply negb_true_iff in Hid. by apply bool_decide_eq_false in Hid.
      * rewrite !orb_true_iff in Hor.
        destruct Hor as [H|[H|[H|[H|?]]]]; [| | | |done].
        -- left. by apply String.eqb_eq.
        -- right; left. by apply String.eqb_eq.
        -- right; right; left. by apply tags_in_spec.
        -- right; right; right. by apply bool_decide_eq_true in H.
Qed.

Lemma related_resources_share_something_witness :
  ∃ r,
    resources (db Cases.two_worksheets)
      !! Req.params_id (Sample.request None 1 None) = Some r
    ∧ length [Sample.worksheet 2 approved] ≤ 6
    ∧ StronglySorted downloads_then_createdAt_desc
        [Sample.worksheet 2 approved]
    ∧ Forall (λ x,
        Resource.status x = approved
        ∧ Resource._id x ≠ Resource._id r
        ∧ (Resource.subject x = Resource.subject r
           ∨ Resource.grade x = Resource.grade r
           ∨ (∃ t, t ∈ Resource.tags x ∧ t ∈ Resource.tags r)
           ∨ Resource.school x = Resource.school r))
        [Sample.worksheet 2 approved].
Proof.
  apply (related_resources_share_something (Sample.request None 1 None)
           Cases.two_worksheets Cases.two_worksheets).
  vm_compute. reflexivity.
Defined.

(** ** The statistics of a school *)

Lemma count_desc_trans : Transitive count_desc.
Proof. unfold count_desc. intros a b c. lia. Qed.

Lemma count_desc_total : Total count_desc.
Proof. unfold count_desc. intros a b. lia. Qed.

Lemma createdAt_desc_trans : Transitive createdAt_desc.
Proof. unfold createdAt_desc. intros a b c. lia. Qed.

Lemma createdAt_desc_total : Total createdAt_desc.
Proof. unfold createdAt_desc. intros a b. lia. Qed.

Lemma group_count_keys l : (group_count l).*1 = remove_dups l.
Proof.
  unfold group_count. rewrite <-list_fmap_compose.
  induction (remove_dups l) as [|x xs IH]; [done|].
  rewrite fmap_cons. simpl. by f_equal.
Qed.

Lemma group_count_elem l s c :
  (s, c) ∈ group_count l →
  s ∈ l ∧ c = Z.of_nat (length (filter (λ x, x = s) l)).
Proof.
  unfold group_count. rewrite list_elem_of_fmap.
  intros (x & [= -> ->] & Hx). rewrite elem_of_remove_dups in Hx. by split.
Qed.

Lemma filter_eq_length_pos (l : list string) s :
  s ∈ l → 0 < length (filter (λ x, x = s) l).
Proof.
  induction l as [|y l IH]; [by intros H; apply not_elem_of_nil in H|].
  rewrite filter_cons. intros H. apply elem_of_cons in H as [->|H].
  - rewrite decide_True by done. simpl. lia.
  - specialize (IH H). destruct (decide (y = s)); simpl; lia.
Qed.

Lemma filter_fmap_length {A B} (f : A → B) (P : B → Prop)
    `{!∀ x, Decision (P x)} (l : list A) :
  length (filter P (f <$> l)) = length (filter (λ x, P (f x)) l).
Proof.
  induction l as [|x l IH]; [done|]. rewrite fmap_cons, !filter_cons.
  destruct (decide (P (f x))); simpl; by rewrite IH.
Qed.

(** The five most frequent subjects of a list of resources. *)
Lemma popular_subjects_spec (rs : list Resource.t) :
  let ps := take 5 (merge_sort count_desc
                      (group_count (Resource.subject <$> rs))) in
  length ps ≤ 5
  ∧ NoDup ps.*1
  ∧ StronglySorted count_desc ps
  ∧ ∀ s c, (s, c) ∈ ps →
      (1 ≤ c ≤ Z.of_nat (length rs))%Z
      ∧ c = Z.of_nat (length (filter (λ r, Resource.subject r = s) rs)).
Proof.
  intros ps. subst ps. split_and!.
  - rewrite length_take. lia.
  - rewrite fmap_take. eapply sublist_NoDup; [|apply sublist_take].
    rewrite merge_sort_Permutation, group_count_keys.
    apply NoDup_remove_dups.
  - set (l := merge_sort count_desc _).
    assert (Hs : StronglySorted count_desc l)
      by apply (@StronglySorted_merge_sort _ _ _ count_desc_trans
                  count_desc_total).
    rewrite <-(take_drop 5 l) in Hs. by apply StronglySorted_app_1_l in Hs.
  - intros s c Hin.
    apply (subseteq_take 5) in Hin. rewrite merge_sort_Permutation in Hin.
    apply group_count_elem in Hin as [Hs ->].
    rewrite filter_fmap_length. split; [|done].
    pose proof (filter_eq_length_pos _ _ Hs) as Hpos.
    rewrite filter_fmap_length in Hpos.
    pose proof (length_filter (λ x, Resource.subject x = s) rs). lia.
Qed.

Lemma School_findById_eq id w :
  School_findById id w
  = (if up w then Ok (schools (db w) !! id) else Throw NetworkError, pop w).
Proof.
  unfold School_findById. unfold_async. rewrite remote_call_eq.
  destruct (up w); [|done]. by rewrite pop_db.
Qed.

Lemma User_countDocuments_active_eq schoolId w :
  User_countDocuments_active schoolId w
  = (if up w
     then Ok (Z.of_nat (length (filter
                (λ u, User.school u = schoolId ∧ User.isActive u = true)
                (map_to_list (users (db w))).*2)))
     else Throw NetworkError, pop w).
Proof.
  unfold User_countDocuments_active. unfold_async. rewrite remote_call_eq.
  destruct (up w); [|done]. by rewrite pop_db.
Qed.

Lemma Resource_aggregate_popularSubjects_eq schoolId w :
  Resource_aggregate_popularSubjects schoolId w
  = (if up w
     then Ok (take 5 (merge_sort count_desc
                (group_count
                   (Resource.subject <$> select w (school_approved schoolId)))))
     else Throw NetworkError, pop w).
Proof.
  unfold Resource_aggregate_popularSubjects. unfold_async.
  rewrite remote_call_eq. destruct (up w); [|done]. by rewrite select_pop.
Qed.

(** X14: the statistics of a school.  The popular subjects are at most
    five distinct subjects, by decreasing count; the count of a subject is
    the number of the approved resources of the school with that subject,
    at least one and at most the total of the answer.  The recent
    resources are at most five approved resources of the school, newest
    first.  The total of the downloads is the cached counter of the
    school. *)
Theorem school_statistics_are_of_approved (req : Req.t) (w w' : World)
    (totalResources totalUsers totalDownloads : Z)
    (popularSubjects : list (string * Z)) (recentResources : list Resource.t) :
  getSchoolStatistics req w
  = (Json 200 (StatisticsData totalResources totalUsers totalDownloads
                 popularSubjects recentResources), w') →
  ∃ s,
    schools (db w) !! Req.params_id req = Some s
    ∧ totalDownloads = School.totalDownloads (School.statistics s)
    ∧ totalResources
      = Z.of_nat (length (select w (school_approved (Req.params_id req))))
    ∧ length popularSubjects ≤ 5
    ∧ NoDup popularSubjects.*1
    ∧ StronglySorted count_desc popularSubjects
    ∧ (∀ subject count, (subject, count) ∈ popularSubjects →
         (1 ≤ count)%Z
         ∧ count
           = Z.of_nat (length (filter (λ r, Resource.subject r = subject)
                                 (select w (school_approved (School._id s))))))
    ∧ length recentResources ≤ 5
    ∧ StronglySorted createdAt_desc recentResources
    ∧ Forall (λ r, Resource.status r = approved
                   ∧ Resource.school r = Req.params_id req) recentResources.
Proof.
  unfold getSchoolStatistics, asyncHandler, getSchoolStatistics_fn.
  rewrite bind_eq, School_findById_eq. destruct (up w); [|done].
  rewrite bind_eq, Resource_countDocuments_eq. destruct (up _); [|done].
  rewrite bind_eq, User_countDocuments_active_eq. destruct (up _); [|done].
  rewrite bind_eq, Resource_find_eq. destruct (up _); [|done].
  simpl.
  destruct (schools (db w) !! Req.params_id req) as [s|] eqn:Hs; [|done].
  rewrite bind_eq, Resource_aggregate_popularSubjects_eq.
  destruct (up _); [|done].
  unfold ret. intros [= <- _ <- <- <- _].
  rewrite !select_pop.
  destruct (popular_subjects_spec (select w (school_approved (School._id s))))
    as (Hlen & Hnodup & Hsorted & Hcount).
  exists s. split_and!; try done.
  - intros subject count Hin. by destruct (Hcount _ _ Hin) as [[? _] ?].
  - by apply (apply_limit_length 5).
  - apply apply_limit_sorted, drop_sorted.
    apply (@StronglySorted_merge_sort _ _ _ createdAt_desc_trans
             createdAt_desc_total).
  - apply Forall_forall. intros r Hr. apply page_subseteq in Hr.
    apply select_matches in Hr. by apply matches_school_approved in Hr.
Qed.

Lemma school_statistics_are_of_approved_witness :
  ∃ s,
    schools (db Cases.two_worksheets)
      !! Req.params_id (Sample.request None 1 None) = Some s
    ∧ 0%Z = School.totalDownloads (School.statistics s)
    ∧ 2%Z
      = Z.of_nat (length (select Cases.two_worksheets
                            (school_approved
                               (Req.params_id (Sample.request None 1 None)))))
    ∧ length [("Mathematics", 2%Z)] ≤ 5
    ∧ NoDup [("Mathematics", 2%Z)].*1
    ∧ StronglySorted count_desc [("Mathematics", 2%Z)]
    ∧ (∀ subject count, (subject, count) ∈ [("Mathematics", 2%Z)] →
         (1 ≤ count)%Z
         ∧ count
           = Z.of_nat (length (filter (λ r, Resource.subject r = subject)
                                 (select Cases.two_worksheets
                                    (school_approved (School._id s))))))
    ∧ length [Sample.worksheet 2 approved; Sample.worksheet 1 approved] ≤ 5
    ∧ StronglySorted createdAt_desc
        [Sample.worksheet 2 approved; Sample.worksheet 1 approved]
    ∧ Forall (λ r, Resource.status r = approved
                   ∧ Resource.school r
                     = Req.params_id (Sample.request None 1 None))
        [Sample.worksheet 2 approved; Sample.worksheet 1 approved].
Proof.
  apply (school_statistics_are_of_approved (Sample.request None 1 None)
           Cases.two_worksheets Cases.two_worksheets 2 0).
  vm_compute. reflexivity.
Defined.

(** ** The statistics of a school, recomputed *)

Lemma Resource_aggregate_downloads_eq schoolId w :
  Resource_aggregate_downloads schoolId w
  = (if up w
     then Ok (match select w (school_approved schoolId) with
              | [] => None
              | l => Some (foldr Z.add 0%Z (Resource.downloadCount <$> l))
              end)
     else Throw NetworkError, pop w).
Proof.
  unfold Resource_aggregate_downloads. unfold_async.
  rewrite remote_call_eq. destruct (up w); [|done]. rewrite select_pop.
  by destruct (select w (school_approved schoolId)).
Qed.

Lemma School_save_cases s w :
  match School_save s w with
  | (Ok s', w') =>
      s' = s
      ∧ db w' = set_schools (db w) (<[School._id s := s]> (schools (db w)))
      ∧ faults w' = tail (faults w)
  | (Throw e, w') => db w' = db w
  end.
Proof.
  unfold School_save. destruct (School_validate s); [done|].
  unfold_async. rewrite remote_call_eq.
  destruct (up w); simpl; rewrite ?pop_db, ?pop_faults; done.
Qed.

(** X15: [updateStatistics] recomputes the statistics of a school from the
    collections.  When it succeeds on a school as it is stored, the school
    is stored again with, as total of its resources, the number of its
    approved resources, as total of its downloads, the sum of their
    download counters, and as active users, the number of its active
    users; nothing else of the school changes, and the resources are as
    before. *)
Theorem updateStatistics_recounts_approved (this s' : School.t)
    (w w' : World) :
  schools (db w) !! School._id this = Some this →
  School_updateStatistics this w = (Ok s', w') →
  let mine := select w (school_approved (School._id this)) in
  School.totalResources (School.statistics s') = Z.of_nat (length mine)
  ∧ School.totalDownloads (School.statistics s')
    = foldr Z.add 0%Z (Resource.downloadCount <$> mine)
  ∧ School.activeUsers (School.statistics s')
    = Z.of_nat (length (filter
        (λ u, User.school u = School._id this ∧ User.isActive u = true)
        (map_to_list (users (db w))).*2))
  ∧ s' = School.set_statistics this (School.statistics s')
  ∧ schools (db w') = <[School._id this := s']> (schools (db w))
  ∧ resources (db w') = resources (db w).
Proof.
  intros _. unfold School_updateStatistics.
  rewrite bind_eq, Resource_countDocuments_eq. destruct (up w); [|done].
  rewrite bind_eq, Resource_aggregate_downloads_eq. destruct (up _); [|done].
  rewrite bind_eq, User_countDocuments_active_eq. destruct (up _); [|done].
  match goal with
  | |- context [School_save ?x ?y] =>
      pose proof (School_save_cases x y) as Hs;
      destruct (School_save x y) as [[s1|e] w1]
  end; [|done].
  destruct Hs as (-> & Hdb & _). intros [= <- <-].
  rewrite Hdb, !pop_db, !select_pop. simpl.
  split_and!; try done.
  by destruct (select w (school_approved (School._id this))).
Qed.

Lemma updateStatistics_recounts_approved_witness :
  School.totalResources
    (School.statistics (Sample.central_high)) = 0%Z
  ∧ ∃ s', (School_updateStatistics Sample.central_high Cases.two_worksheets).1
          = Ok s'
          ∧ School.totalResources (School.statistics s') = 2%Z.
Proof.
  split; [reflexivity|].
  eexists. split; [vm_compute; reflexivity|].
  pose proof (updateStatistics_recounts_approved Sample.central_high _
                Cases.two_worksheets
                (School_updateStatistics Sample.central_high
                   Cases.two_worksheets).2
                eq_refl ltac:(vm_compute; reflexivity)) as (H & _).
  rewrite H. reflexivity.
Defined.

(** ** The history of the moderation of a resource *)

Lemma log_createdAt_desc_trans : Transitive log_createdAt_desc.
Proof. unfold log_createdAt_desc. intros a b c. lia. Qed.

Lemma log_createdAt_desc_total : Total log_createdAt_desc.
Proof. unfold log_createdAt_desc. intros a b. lia. Qed.

Lemma ModerationLog_getResourceHistory_eq id w :
  ModerationLog_getResourceHistory id w
  = (if up w
     then Ok (merge_sort log_createdAt_desc
                (filter (λ l, ModerationLog.resource l = id)
                   (map_to_list (moderationlogs (db w))).*2))
     else Throw NetworkError, pop w).
Proof.
  unfold ModerationLog_getResourceHistory. unfold_async.
  rewrite remote_call_eq. destruct (up w); [|done]. by rewrite pop_db.
Qed.

Lemma elem_of_collection `{Countable K} {A} (m : gmap K A) x :
  x ∈ (map_to_list m).*2 ↔ ∃ k, m !! k = Some x.
Proof.
  rewrite list_elem_of_fmap. split.
  - intros ([k y] & -> & Hk). exists k. by apply elem_of_map_to_list.
  - intros [k Hk]. exists (k, x). split; [done|].
    by apply elem_of_map_to_list.
Qed.

(** The answer to the request for the history of a resource. *)
Lemma history_is_the_log_of_the_resource_aux (req : Req.t) (w : World) :
  up w = true →
  ∃ history,
    getResourceModerationHistory req w = (Sent history, pop w)
    ∧ StronglySorted log_createdAt_desc history
    ∧ ∀ l, l ∈ history
           ↔ ModerationLog.resource l = Req.params_id req
             ∧ ∃ k, moderationlogs (db w) !! k = Some l.
Proof.
  intros Hup.
  unfold getResourceModerationHistory, asyncHandler_of,
    getResourceModerationHistory_fn.
  rewrite bind_eq, ModerationLog_getResourceHistory_eq, Hup.
  eexists. split; [done|]. split.
  - apply (@StronglySorted_merge_sort _ _ _ log_createdAt_desc_trans
             log_createdAt_desc_total).
  - intros l. rewrite merge_sort_Permutation, list_elem_of_filter.
    by rewrite elem_of_collection.
Qed.

(** X16: the history of a resource is made of the log entries of that
    resource, all of them, the newest first; it is answered whenever the
    database is reached, whether or not the resource exists, and reading
    it changes nothing. *)
Theorem history_is_the_log_of_the_resource (req : Req.t) (w : World) :
  through 1 w →
  ∃ history,
    getResourceModerationHistory req w = (Sent history, pop w)
    ∧ StronglySorted log_createdAt_desc history
    ∧ ∀ l, l ∈ history
           ↔ ModerationLog.resource l = Req.params_id req
             ∧ ∃ k, moderationlogs (db w) !! k = Some l.
Proof.
  intros Ht. apply history_is_the_log_of_the_resource_aux.
  apply up_head, Ht. lia.
Qed.

Lemma history_is_the_log_of_the_resource_witness :
  ∃ history,
    getResourceModerationHistory (Sample.request None 1 None)
      Cases.approved_once
    = (Sent history, pop Cases.approved_once)
    ∧ StronglySorted log_createdAt_desc history
    ∧ ∀ l, l ∈ history
           ↔ ModerationLog.resource l
             = Req.params_id (Sample.request None 1 None)
             ∧ ∃ k, moderationlogs (db Cases.approved_once) !! k = Some l.
Proof.
  apply (history_is_the_log_of_the_resource (Sample.request None 1 None)
           Cases.approved_once).
  by intros i _.
Defined.

(** The handlers of the moderation leave the services available. *)
Lemma moderate_available v req w :
  faults w = [] → faults (moderate v req w).2 = [].
Proof.
  intros Hf.
  assert (Haside : ∀ A (c : M A) w1,
            aside c → faults w1 = [] → faults (c w1).2 = []).
  { intros A c w1 Hc Hw1. by destruct (Hc w1 Hw1). }
  destruct v; simpl.
  - unfold approveResource. rewrite asyncHandler_world.
    unfold approveResource_fn. destruct (negb _); [done|].
    rewrite bind_eq, (Resource_findById_available _ w Hf).
    destruct (resources (db w) !! Req.params_id req) as [r|]; [|done].
    destruct (negb _); [done|].
    rewrite bind_eq. unfold req_user.
    destruct (Req.user req) as [u|]; [|done].
    unfold ret at 1. rewrite bind_eq. unfold new_Date at 1.
    rewrite bind_eq, (Resource_save_available _ w Hf).
    destruct (Resource_validate _); [done|].
    apply Haside; [solve_aside|done].
  - unfold rejectResource. rewrite asyncHandler_world.
    unfold rejectResource_fn. destruct (negb _); [done|].
    destruct (notes_missing _); [done|].
    rewrite bind_eq, (Resource_findById_available _ w Hf).
    destruct (resources (db w) !! Req.params_id req) as [r|]; [|done].
    destruct (negb _); [done|].
    rewrite bind_eq. unfold req_user.
    destruct (Req.user req) as [u|]; [|done].
    unfold ret at 1. rewrite bind_eq. unfold new_Date at 1.
    rewrite bind_eq, (Resource_save_available _ w Hf).
    destruct (Resource_validate _); [done|].
    apply Haside; [solve_aside|done].
Qed.

(** X17: a decision shows in the history.  After the approval or the
    rejection of a pending resource, the services being available, the
    history of the resource holds the log entry of the decision: from
    pending to the new status, by the moderator, with the notes. *)
Theorem decision_shows_in_history (v : Verdict) (req : Req.t) (w : World)
    (r : Resource.t) (u : Req.AuthUser) :
  well_formed v req →
  Req.user req = Some u →
  resources (db w) !! Req.params_id req = Some r →
  Resource._id r = Req.params_id req →
  Resource.status r = pending →
  Resource_validate r = None →
  moderationlogs (db w) !! oidgen w = None →
  faults w = [] →
  ∃ history,
    (getResourceModerationHistory req (moderate v req w).2).1 = Sent history
    ∧ decision_log v r u (Req.notes (Req.body req)) w ∈ history
    ∧ ModerationLog.previousStatus
        (decision_log v r u (Req.notes (Req.body req)) w) = pending
    ∧ ModerationLog.newStatus
        (decision_log v r u (Req.notes (Req.body req)) w) = verdict_status v
    ∧ ModerationLog.moderator
        (decision_log v r u (Req.notes (Req.body req)) w) = Req.id u.
Proof.
  intros Hwf Hu Hr Hid Hst Hvalid Hfresh Hf.
  pose proof (moderate_available v req w Hf) as Hf'.
  destruct (history_is_the_log_of_the_resource_aux req (moderate v req w).2)
    as (history & Heq & _ & Hin).
  { apply up_available, Hf'. }
  exists history. rewrite Heq. split; [done|]. split; [|by rewrite <-Hst].
  apply Hin. split; [by simpl|].
  exists (oidgen w).
  rewrite (moderate_pending_db v req w r u) by done.
  rewrite !(pop_available w Hf), (up_available w Hf).
  simpl. by rewrite lookup_insert_eq.
Qed.

Lemma decision_shows_in_history_witness :
  ∃ history,
    (getResourceModerationHistory Scenario.approve_it
       (approveResource Scenario.approve_it Scenario.pending_catalog).2).1
    = Sent history
    ∧ decision_log Approve (Sample.worksheet 1 pending) Sample.moderator
        (Some "ok") Scenario.pending_catalog ∈ history
    ∧ ModerationLog.previousStatus
        (decision_log Approve (Sample.worksheet 1 pending) Sample.moderator
           (Some "ok") Scenario.pending_catalog) = pending
    ∧ ModerationLog.newStatus
        (decision_log Approve (Sample.worksheet 1 pending) Sample.moderator
           (Some "ok") Scenario.pending_catalog) = approved
    ∧ ModerationLog.moderator
        (decision_log Approve (Sample.worksheet 1 pending) Sample.moderator
           (Some "ok") Scenario.pending_catalog) = 20.
Proof.
  apply (decision_shows_in_history Approve Scenario.approve_it
           Scenario.pending_catalog (Sample.worksheet 1 pending)
           Sample.moderator); try reflexivity.
  split_and!; [reflexivity| |discriminate].
  intros s [= <-]. vm_compute. lia.
Defined.

(** ** The activity of the moderators *)

Lemma stat_total_desc_trans : Transitive stat_total_desc.
Proof. unfold stat_total_desc. intros a b c. lia. Qed.

Lemma stat_total_desc_total : Total stat_total_desc.
Proof. unfold stat_total_desc. intros a b. lia. Qed.

Lemma sum_action_split logs :
  (sum_action action_approved logs + sum_action action_rejected logs
   = Z.of_nat (length logs))%Z.
Proof.
  induction logs as [|l logs IH]; [done|]. simpl.
  unfold is_action. destruct (ModerationLog.action l); lia.
Qed.

Lemma max_createdAt_bound logs l :
  l ∈ logs → (ModerationLog.createdAt l ≤ max_createdAt logs)%Z.
Proof.
  destruct logs as [|x logs]; [by intros H; apply not_elem_of_nil in H|].
  simpl. intros H. apply elem_of_cons in H as [->|H].
  - induction logs as [|y logs IH]; simpl; lia.
  - induction logs as [|y logs IH]; [by apply not_elem_of_nil in H|].
    simpl. apply elem_of_cons in H as [->|H]; [lia|].
    specialize (IH H). lia.
Qed.

Lemma ModerationLog_aggregate_moderatorStats_eq w :
  ModerationLog_aggregate_moderatorStats w
  = (if up w
     then
       let logs := (map_to_list (moderationlogs (db w))).*2 in
       let group m := filter (λ l, ModerationLog.moderator l = m) logs in
       Ok (merge_sort stat_total_desc
             (omap (λ m, user ← users (db w) !! m;
                         Some (mkModeratorStat m
                                 (sum_action action_approved (group m))
                                 (sum_action action_rejected (group m))
                                 (Z.of_nat (length (group m)))
                                 (max_createdAt (group m))
                                 user))
                (remove_dups (ModerationLog.moderator <$> logs))))
     else Throw NetworkError, pop w).
Proof.
  unfold ModerationLog_aggregate_moderatorStats. unfold_async.
  rewrite remote_call_eq. destruct (up w); [|done]. by rewrite pop_db.
Qed.

Lemma ModerationLog_countDocuments_since_eq a since w :
  ModerationLog_countDocuments_since a since w
  = (if up w
     then Ok (Z.of_nat (length (filter
                (λ l, is_action a l = true
                      ∧ (since ≤ ModerationLog.createdAt l)%Z)
                (map_to_list (moderationlogs (db w))).*2)))
     else Throw NetworkError, pop w).
Proof.
  unfold ModerationLog_countDocuments_since. unfold_async.
  rewrite remote_call_eq. destruct (up w); [|done]. by rewrite pop_db.
Qed.

(** X18: the statistics of the moderation.  The rows of the moderators
    come by decreasing total, one row for a moderator, who is a user; in a
    row the approvals and the rejections add up to the total, which is the
    number of the log entries of the moderator and at least one, and the
    last activity is not before any of these entries.  The total of today
    is the sum of the approvals and the rejections of today. *)
Theorem moderation_statistics_add_up (midnight : Z → Z) (req : Req.t)
    (w w' : World) (st : ModerationStatistics) :
  getModerationStatistics midnight req w = (Sent st, w') →
  today_total st = (today_approved st + today_rejected st)%Z
  ∧ totalPending st = Z.of_nat (length (select w status_pending))
  ∧ StronglySorted stat_total_desc (moderatorStats st)
  ∧ NoDup (stat_id <$> moderatorStats st)
  ∧ Forall (λ row,
      (stat_approved row + stat_rejected row = stat_total row)%Z
      ∧ (1 ≤ stat_total row)%Z
      ∧ users (db w) !! stat_id row = Some (stat_moderator row)
      ∧ stat_total row
        = Z.of_nat (length (filter
            (λ l, ModerationLog.moderator l = stat_id row)
            (map_to_list (moderationlogs (db w))).*2))
      ∧ ∀ k l, moderationlogs (db w) !! k = Some l →
               ModerationLog.moderator l = stat_id row →
               (ModerationLog.createdAt l ≤ stat_lastActivity row)%Z)
      (moderatorStats st).
Proof.
  unfold getModerationStatistics, asyncHandler_of, getModerationStatistics_fn.
  unfold new_Date at 1. rewrite bind_eq. unfold new_Date at 1.
  rewrite bind_eq, bind_eq, Resource_countDocuments_eq.
  destruct (up w); [|done].
  rewrite bind_eq, ModerationLog_countDocuments_since_eq.
  destruct (up _); [|done].
  rewrite bind_eq, ModerationLog_countDocuments_since_eq.
  destruct (up _); [|done].
  rewrite bind_eq, ModerationLog_aggregate_moderatorStats_eq.
  destruct (up _); [|done].
  unfold ret. intros [= <- _].
  cbn [today_total today_approved today_rejected totalPending moderatorStats].
  rewrite !pop_db, ?select_pop.
  set (logs := (map_to_list (moderationlogs (db w))).*2).
  match goal with |- context [omap ?f _] => set (row := f) end.
  split_and!; try done.
  - apply (@StronglySorted_merge_sort _ _ _ stat_total_desc_trans
             stat_total_desc_total).
  - rewrite merge_sort_Permutation.
    assert (Hsub : stat_id <$> omap row
                     (remove_dups (ModerationLog.moderator <$> logs))
                   `sublist_of`
                   remove_dups (ModerationLog.moderator <$> logs)).
    { induction (remove_dups (ModerationLog.moderator <$> logs))
        as [|m ms IH]; [done|].
      simpl. unfold row at 1. destruct (users (db w) !! m); simpl.
      - by apply sublist_skip.
      - by apply sublist_cons. }
    eapply sublist_NoDup; [|exact Hsub]. apply NoDup_remove_dups.
  - apply Forall_forall. intros x Hx.
    rewrite merge_sort_Permutation in Hx.
    apply list_elem_of_omap in Hx as (m & Hm & Hrow).
    unfold row in Hrow. destruct (users (db w) !! m) as [user|] eqn:Hu;
      [|done].
    injection Hrow as <-. simpl.
    rewrite elem_of_remove_dups, list_elem_of_fmap in Hm.
    destruct Hm as (l0 & -> & Hl0).
    split_and!; try done.
    + apply sum_action_split.
    + assert (l0 ∈ filter (λ l, ModerationLog.moderator l
                                = ModerationLog.moderator l0) logs)
        by by apply list_elem_of_filter.
      destruct (filter _ logs); [by apply not_elem_of_nil in H|].
      simpl. lia.
    + intros k l Hl Hmod. apply max_createdAt_bound.
      apply list_elem_of_filter. split; [done|].
      apply elem_of_collection. by exists k.
Qed.

Lemma moderation_statistics_add_up_witness :
  today_total Cases.statistics_of_two_decisions
  = (today_approved Cases.statistics_of_two_decisions
     + today_rejected Cases.statistics_of_two_decisions)%Z
  ∧ totalPending Cases.statistics_of_two_decisions
    = Z.of_nat (length (select Cases.two_decisions status_pending))
  ∧ StronglySorted stat_total_desc
      (moderatorStats Cases.statistics_of_two_decisions)
  ∧ NoDup (stat_id <$> moderatorStats Cases.statistics_of_two_decisions)
  ∧ Forall (λ row,
      (stat_approved row + stat_rejected row = stat_total row)%Z
      ∧ (1 ≤ stat_total row)%Z
      ∧ users (db Cases.two_decisions) !! stat_id row
        = Some (stat_moderator row)
      ∧ stat_total row
        = Z.of_nat (length (filter
            (λ l, ModerationLog.moderator l = stat_id row)
            (map_to_list (moderationlogs (db Cases.two_decisions))).*2))
      ∧ ∀ k l, moderationlogs (db Cases.two_decisions) !! k = Some l →
               ModerationLog.moderator l = stat_id row →
               (ModerationLog.createdAt l ≤ stat_lastActivity row)%Z)
      (moderatorStats Cases.statistics_of_two_decisions).
Proof.
  apply (moderation_statistics_add_up Cases.midnight_utc
           (Sample.request (Some Sample.moderator) 0 None)
           Cases.two_decisions Cases.two_decisions).
  vm_compute. reflexivity.
Defined.

(** ** The resources and the downloads of a user *)

Lemma matches_by_uploader text id r :
  matches text (by_uploader id) r = true ↔ Resource.uploader r = id.
Proof.
  unfold matches, by_uploader. simpl. rewrite andb_true_r.
  apply bool_decide_eq_true.
Qed.

Lemma select_by_uploader w id :
  select w (by_uploader id)
  = filter (λ r, Resource.uploader r = id)
      (map_to_list (resources (db w))).*2.
Proof.
  unfold select. apply list_filter_iff. intros r.
  rewrite Is_true_true. apply matches_by_uploader.
Qed.

(** X19: the resources of a user are for the user and for the
    administrators: anyone else is refused with 403 before any read.  The
    answer lists resources that the user uploaded, the newest first, and
    its total counts the resources of the user of every status. *)
Theorem own_resources_of_every_status (req : Req.t) (w : World)
    (u : Req.AuthUser) :
  Req.user req = Some u →
  (Req.role u ≠ admin → Req.id u ≠ Req.params_id req →
   getUserResources req w = (Json 403 (Failure "Access denied"), w))
  ∧ (∀ l pg w',
       getUserResources req w = (Json 200 (PendingData l pg), w') →
       (Req.role u = admin ∨ Req.id u = Req.params_id req)
       ∧ Forall (λ r, Resource.uploader r = Req.params_id req) l
       ∧ StronglySorted createdAt_desc l
       ∧ total pg
         = Z.of_nat (length (filter
             (λ r, Resource.uploader r = Req.params_id req)
             (map_to_list (resources (db w))).*2))).
Proof.
  intros Hu. unfold getUserResources, asyncHandler, getUserResources_fn.
  rewrite bind_eq. unfold req_user. rewrite Hu.
  split.
  - intros Hrole Hid. unfold ret at 1.
    by rewrite (bool_decide_eq_false_2 _ Hrole),
      (bool_decide_eq_false_2 _ Hid).
  - intros l pg w'. unfold ret at 1.
    destruct (negb (bool_decide (Req.role u = admin))
              && negb (bool_decide (Req.id u = Req.params_id req)))
      eqn:Hperm; [by unfold ret|].
    rewrite bind_eq, Resource_find_eq. destruct (up w); [|done].
    destruct (_ <? 0)%Z; [done|].
    rewrite bind_eq, Resource_countDocuments_eq. destruct (up _); [|done].
    unfold ret. intros [= <- <- _]. simpl. split_and!.
    + apply andb_false_iff in Hperm as [H|H]; apply negb_false_iff in H;
        apply bool_decide_eq_true in H; auto.
    + apply Forall_forall. intros r Hr. apply page_subseteq in Hr.
      apply select_matches in Hr. by apply matches_by_uploader in Hr.
    + apply apply_limit_sorted, drop_sorted.
      apply (@StronglySorted_merge_sort _ _ _ createdAt_desc_trans
               createdAt_desc_total).
    + by rewrite select_pop, select_by_uploader.
Qed.

Lemma own_resources_of_every_status_witness :
  (Req.role Sample.teacher ≠ admin →
   Req.id Sample.teacher
   ≠ Req.params_id (Sample.request (Some Sample.teacher) 10 None) →
   getUserResources (Sample.request (Some Sample.teacher) 10 None)
     Scenario.queue
   = (Json 403 (Failure "Access denied"), Scenario.queue))
  ∧ (∀ l pg w',
       getUserResources (Sample.request (Some Sample.teacher) 10 None)
         Scenario.queue
       = (Json 200 (PendingData l pg), w') →
       (Req.role Sample.teacher = admin
        ∨ Req.id Sample.teacher
          = Req.params_id (Sample.request (Some Sample.teacher) 10 None))
       ∧ Forall (λ r, Resource.uploader r
                      = Req.params_id
                          (Sample.request (Some Sample.teacher) 10 None)) l
       ∧ StronglySorted createdAt_desc l
       ∧ total pg
         = Z.of_nat (length (filter
             (λ r, Resource.uploader r
                   = Req.params_id
                       (Sample.request (Some Sample.teacher) 10 None))
             (map_to_list (resources (db Scenario.queue))).*2))).
Proof.
  apply (own_resources_of_every_status
           (Sample.request (Some Sample.teacher) 10 None) Scenario.queue
           Sample.teacher).
  reflexivity.
Defined.

(** The download records, one for a key. *)
Lemma downloads_values_NoDup d :
  one_record_per_pair d → NoDup (map_to_list (downloads d)).*2.
Proof.
  intros H. apply NoDup_fmap_2_strong; [|apply NoDup_map_to_list].
  intros [i d1] [j d2] Hi Hj Heq. simpl in Heq. subst d2.
  apply elem_of_map_to_list in Hi, Hj.
  by rewrite (H i j d1 d1 Hi Hj).
Qed.

Lemma downloads_of_resources_NoDup d userId :
  one_record_per_pair d → NoDup (Download.resource <$> downloads_of d userId).
Proof.
  intros H. unfold downloads_of.
  apply NoDup_fmap_2_strong;
    [|by apply NoDup_filter, downloads_values_NoDup].
  intros d1 d2 H1 H2 Heq.
  apply list_elem_of_filter in H1 as [Hu1 H1], H2 as [Hu2 H2].
  apply elem_of_collection in H1 as [i Hi], H2 as [j Hj].
  assert (i = j) by (apply (H i j d1 d2); congruence).
  congruence.
Qed.

Lemma Download_find_user_eq userId skip limit w :
  Download_find_user userId skip limit w
  = (if up w
     then if (skip <? 0)%Z
          then Throw (MongoError "skip must be non-negative")
          else Ok (apply_limit limit
                     (drop (Z.to_nat skip)
                        (merge_sort downloadedAt_desc
                           (downloads_of (db w) userId))))
     else Throw NetworkError, pop w).
Proof.
  unfold Download_find_user. unfold_async. rewrite remote_call_eq.
  destruct (up w); [|done]. destruct (skip <? 0)%Z; [done|].
  by rewrite pop_db.
Qed.

Lemma Download_countDocuments_user_eq userId w :
  Download_countDocuments_user userId w
  = (if up w then Ok (Z.of_nat (length (downloads_of (db w) userId)))
     else Throw NetworkError, pop w).
Proof.
  unfold Download_countDocuments_user. unfold_async. rewrite remote_call_eq.
  destruct (up w); [|done]. by rewrite pop_db.
Qed.

Lemma downloadedAt_desc_trans : Transitive downloadedAt_desc.
Proof. unfold downloadedAt_desc. intros a b c. lia. Qed.

Lemma downloadedAt_desc_total : Total downloadedAt_desc.
Proof. unfold downloadedAt_desc. intros a b. lia. Qed.

Lemma apply_limit_sublist {A} n (l : list A) : apply_limit n l `sublist_of` l.
Proof.
  unfold apply_limit. destruct (n =? 0)%Z; [done|]. apply sublist_take.
Qed.

(** X20: the download history of a user.  Whatever requests were served
    before, from a state in which no two download records have the same
    user and resource, the history lists download records of the user, the
    newest first, and no resource twice, however often the user has asked
    for it. *)
Theorem download_history_lists_a_resource_once (w0 w w' : World)
    (req : Req.t) (l : list Download.t) (pg : Pagination) :
  one_record_per_pair (db w0) →
  reaches w0 w →
  getUserDownloads req w = (Sent (l, pg), w') →
  Forall (λ d, Download.user d = Req.params_id req) l
  ∧ NoDup (Download.resource <$> l)
  ∧ StronglySorted downloadedAt_desc l
  ∧ total pg = Z.of_nat (length (downloads_of (db w) (Req.params_id req))).
Proof.
  intros H0 Hreach.
  pose proof (reaches_one_record_per_pair w0 w H0 Hreach) as Hone.
  unfold getUserDownloads, asyncHandler_of, getUserDownloads_fn.
  rewrite bind_eq. unfold req_user. destruct (Req.user req) as [u|]; [|done].
  unfold ret at 1. destruct (negb _ && negb _); [by unfold ret|].
  rewrite bind_eq, Download_find_user_eq. destruct (up w); [|done].
  destruct (_ <? 0)%Z; [done|].
  rewrite bind_eq, Download_countDocuments_user_eq. destruct (up _); [|done].
  unfold ret. intros [= <- <- _]. simpl. rewrite pop_db.
  set (sorted := merge_sort downloadedAt_desc _).
  assert (Hsub : apply_limit (or_default (Req.q_limit (Req.query req)) 20)
                   (drop (Z.to_nat ((or_default (Req.q_page (Req.query req)) 1
                                     - 1)
                                    * or_default (Req.q_limit (Req.query req))
                                        20))
                      sorted)
                 `sublist_of` sorted).
  { etrans; [apply apply_limit_sublist|apply sublist_drop]. }
  split_and!; [| | |done].
  - apply Forall_forall. intros d Hd.
    apply (sublist_subseteq _ _ Hsub) in Hd. subst sorted.
    rewrite merge_sort_Permutation in Hd.
    by apply list_elem_of_filter in Hd as [? _].
  - eapply sublist_NoDup; [|by apply fmap_sublist].
    subst sorted. rewrite merge_sort_Permutation.
    by apply downloads_of_resources_NoDup.
  - apply apply_limit_sorted, drop_sorted.
    apply (@StronglySorted_merge_sort _ _ _ downloadedAt_desc_trans
             downloadedAt_desc_total).
Qed.

Lemma download_history_lists_a_resource_once_witness :
  Forall (λ d, Download.user d
               = Req.params_id (Sample.request (Some Sample.pupil) 30 None))
    [Cases.record_of_pupil]
  ∧ NoDup (Download.resource <$> [Cases.record_of_pupil])
  ∧ StronglySorted downloadedAt_desc [Cases.record_of_pupil]
  ∧ total Cases.page_of_pupil
    = Z.of_nat (length (downloads_of (db Scenario.twice)
                          (Req.params_id
                             (Sample.request (Some Sample.pupil) 30 None)))).
Proof.
  apply (download_history_lists_a_resource_once Scenario.approved_catalog
           Scenario.twice Scenario.twice
           (Sample.request (Some Sample.pupil) 30 None)).
  - intros i j d1 d2 Hi. by vm_compute in Hi.
  - apply (reaches_step _ _ GET_resource_download Scenario.download_it).
    apply (reaches_step _ _ GET_resource_download Scenario.download_it).
    apply reaches_refl.
  - vm_compute. reflexivity.
Defined.

(** ** Trimming *)

Lemma trimStart_blank s : Js.trimStart s = "" ↔ blank s.
Proof.
  unfold blank, chars. induction s as [|c s IH]; simpl.
  - split; [|done]. intros _ c Hc. by apply not_elem_of_nil in Hc.
  - destruct (Ascii.is_space c) eqn:Hc.
    + rewrite IH. split.
      * intros H x Hx. apply elem_of_cons in Hx as [->|Hx]; auto.
      * intros H x Hx. apply H. by apply elem_of_cons; right.
    + split; [done|]. intros H. specialize (H c).
      rewrite Hc in H. discriminate H. by apply elem_of_cons; left.
Qed.

Lemma blank_trimStart s : blank (Js.trimStart s) → blank s.
Proof.
  unfold blank, chars. induction s as [|c s IH]; simpl; [done|].
  destruct (Ascii.is_space c) eqn:Hc; [|done].
  intros H x Hx. apply elem_of_cons in Hx as [->|Hx]; auto.
Qed.

Lemma chars_rev_app a b c :
  c ∈ chars (String.rev_app a b) ↔ c ∈ chars a ∨ c ∈ chars b.
Proof.
  unfold chars. revert b. induction a as [|x a IH]; intros b; simpl.
  - rewrite elem_of_nil. tauto.
  - rewrite IH. simpl. rewrite !elem_of_cons. tauto.
Qed.

Lemma chars_rev s c : c ∈ chars (String.rev s) ↔ c ∈ chars s.
Proof.
  unfold String.rev. rewrite chars_rev_app. unfold chars at 2. simpl.
  rewrite elem_of_nil. tauto.
Qed.

Lemma blank_rev s : blank (String.rev s) ↔ blank s.
Proof. unfold blank. by setoid_rewrite chars_rev. Qed.

Lemma string_rev_empty s : String.rev s = "" → s = "".
Proof.
  intros H. apply (f_equal String.length) in H.
  unfold String.rev in H. rewrite rev_app_length in H.
  destruct s; [done|]. simpl in H. lia.
Qed.

(** Only a string of white space trims to the empty string. *)
Lemma trim_blank s : Js.trim s = "" ↔ blank s.
Proof.
  unfold Js.trim, Js.trimEnd. split.
  - intros H. apply string_rev_empty in H. apply trimStart_blank in H.
    apply (proj1 (blank_rev _)) in H. by apply blank_trimStart.
  - intros H. apply trimStart_blank in H. by rewrite H.
Qed.

Lemma notes_missing_blank notes :
  notes_missing notes = true ↔ notes = None ∨ ∃ s, notes = Some s ∧ blank s.
Proof.
  destruct notes as [s|]; simpl; [|by split; auto].
  rewrite orb_true_iff, Nat.eqb_eq. split.
  - intros [H|H]; right; exists s; (split; [done|]).
    + unfold Js.truthy in H. apply negb_true_iff in H.
      apply negb_false_iff in H. apply String.eqb_eq in H. subst s.
      intros c Hc. by apply not_elem_of_nil in Hc.
    + apply trim_blank. by destruct (Js.trim s).
  - intros [|(s' & [= <-] & H)]; [done|]. right.
    apply trim_blank in H. by rewrite H.
Qed.

(** X21: a rejection needs notes.  A request to reject whose notes are
    absent, empty or made of the white space of ASCII only is answered
    with 400 before any read, whatever the resource; nothing changes.
    Notes that hold a character of ASCII that is no white space are never
    refused so. *)
Theorem rejection_needs_notes (req : Req.t) (w : World) :
  Req.validationErrors req = [] →
  (Req.notes (Req.body req) = None
   ∨ (∃ s, Req.notes (Req.body req) = Some s ∧ blank s) →
   rejectResource req w
   = (Json 400 (Failure "Rejection notes are required"), w))
  ∧ (∀ s c,
       Req.notes (Req.body req) = Some s →
       c ∈ chars s → is_ascii c → Ascii.is_space c = false →
       (rejectResource req w).1
       ≠ Json 400 (Failure "Rejection notes are required")).
Proof.
  intros Herr. split.
  - intros H. apply notes_missing_blank in H.
    unfold rejectResource, asyncHandler, rejectResource_fn.
    by rewrite Herr, H.
  - intros s c Hs Hc _ Hsp H.
    assert (Hn : notes_missing (Req.notes (Req.body req)) = false).
    { destruct (notes_missing (Req.notes (Req.body req))) eqn:Hn; [|done].
      apply notes_missing_blank in Hn as [Hn|(s' & Hn & Hb)];
        [congruence|].
      rewrite Hs in Hn. injection Hn as <-.
      specialize (Hb c Hc). congruence. }
    revert H.
    unfold rejectResource, asyncHandler, rejectResource_fn.
    rewrite Herr, Hn. simpl.
    rewrite bind_eq, Resource_findById_eq. destruct (up w); [|done].
    destruct (resources (db w) !! Req.params_id req) as [r|]; [|done].
    destruct (negb _); [done|].
    rewrite bind_eq. unfold req_user.
    destruct (Req.user req) as [u|]; [|done].
    unfold ret at 1. rewrite bind_eq. unfold new_Date at 1.
    rewrite bind_eq.
    destruct (Resource_save _ _) as [[r1|e] w1]; [|done].
    rewrite bind_eq.
    destruct (ModerationLog_create _ _ _ _ _ _ _) as [[l|e] w2]; [|done].
    unfold populate. rewrite bind_eq, remote_call_eq.
    destruct (up _); [|done].
    rewrite bind_eq, remote_call_eq. destruct (up _); [|done].
    rewrite bind_eq, remote_call_eq. destruct (up _); [|done].
    done.
Qed.

Lemma rejection_needs_notes_witness :
  rejectResource (Sample.request (Some Sample.moderator) 1 (Some "  "))
    Scenario.pending_catalog
  = (Json 400 (Failure "Rejection notes are required"),
     Scenario.pending_catalog)
  ∧ (rejectResource
       (Sample.request (Some Sample.moderator) 1 (Some "off topic"))
       Scenario.pending_catalog).1
    ≠ Json 400 (Failure "Rejection notes are required").
Proof.
  split.
  - apply (rejection_needs_notes
             (Sample.request (Some Sample.moderator) 1 (Some "  "))
             Scenario.pending_catalog eq_refl).
    right. exists "  ". split; [reflexivity|].
    intros c Hc. unfold chars in Hc. simpl in Hc.
    repeat (apply elem_of_cons in Hc as [->|Hc]; [reflexivity|]).
    by apply elem_of_nil in Hc.
  - apply (proj2 (rejection_needs_notes
                    (Sample.request (Some Sample.moderator) 1
                       (Some "off topic"))
                    Scenario.pending_catalog eq_refl)
             "off topic" "o"%char eq_refl).
    + unfold chars. simpl. apply elem_of_cons. by left.
    + unfold is_ascii. vm_compute. lia.
    + reflexivity.
Defined.

(** ** The validators of the resources *)

(** X22: the model refuses a resource whose title is blank.  An upload
    that passed the validation of the request, with a file, and whose
    title is absent or made of white space only, is passed to the error
    handler with the validation error of the title, and nothing is stored:
    the collections are as before. *)
Theorem upload_needs_a_title (req : Req.t) (w : World)
    (file : Req.UploadedFile) (u : Req.AuthUser) :
  Req.validationErrors req = [] →
  Req.file req = Some file →
  Req.user req = Some u →
  (Req.title (Req.body req) = None
   ∨ ∃ s, Req.title (Req.body req) = Some s ∧ blank s) →
  (∃ message,
     (uploadResource req w).1 = Next (ValidationError "title" message))
  ∧ db (uploadResource req w).2 = db w.
Proof.
  intros Herr Hfile Hu Htitle.
  assert (Ht : Js.trim (default "" (Req.title (Req.body req))) = "").
  { destruct Htitle as [->|(s & -> & Hs)]; [done|]. by apply trim_blank. }
  destruct (uploadResource req w) as [res w'] eqn:E. simpl.
  unfold uploadResource, asyncHandler, uploadResource_fn in E.
  rewrite Herr, Hfile in E. simpl in E.
  rewrite bind_eq in E. unfold req_user in E. rewrite Hu in E.
  unfold ret at 1 in E. rewrite bind_eq, Resource_create_eq in E.
  unfold Resource_validate in E. simpl in E. rewrite Ht in E. simpl in E.
  injection E as <- <-. split; [by eexists|done].
Qed.

Lemma upload_needs_a_title_witness :
  (∃ message,
     (uploadResource Cases.untitled Scenario.empty_catalog).1
     = Next (ValidationError "title" message))
  ∧ db (uploadResource Cases.untitled Scenario.empty_catalog).2
    = db Scenario.empty_catalog.
Proof.
  apply (upload_needs_a_title Cases.untitled Scenario.empty_catalog
           (Req.mkFile "algebra-worksheet.pdf"
              (Some "file-1700000000000-1.pdf") "application/pdf" 1024
              (Some "file-1700000000000-1.pdf"))
           Sample.teacher eq_refl eq_refl eq_refl).
  right. exists " ". split; [reflexivity|].
  intros c Hc. unfold chars in Hc. simpl in Hc.
  repeat (apply elem_of_cons in Hc as [->|Hc]; [reflexivity|]).
  by apply elem_of_nil in Hc.
Defined.

(** ** The tags of an upload *)

Lemma rev_app_append a b :
  String.rev_app a b = String.rev_app a "" +:+ b.
Proof.
  revert b. induction a as [|x a IH]; intros b; simpl; [done|].
  rewrite (IH (String x b)), (IH (String x "")).
  by rewrite string_append_assoc.
Qed.

Lemma rev_app_rev_app a b c :
  String.rev_app (String.rev_app a b) c = String.rev_app b (a +:+ c).
Proof.
  revert b c. induction a as [|x a IH]; intros b c; simpl; [done|].
  by rewrite IH.
Qed.

Lemma string_append_empty_r s : s +:+ "" = s.
Proof.
  induction s as [|x s IH]; [done|]. by rewrite string_append_cons, IH.
Qed.

Lemma string_rev_involutive s : String.rev (String.rev s) = s.
Proof.
  unfold String.rev. rewrite rev_app_rev_app. simpl. apply string_append_empty_r.
Qed.

Lemma string_rev_snoc s c : String.rev (s +:+ String c "") = String c (String.rev s).
Proof.
  unfold String.rev. induction s as [|x s IH]; [done|].
  rewrite string_append_cons. simpl.
  rewrite (rev_app_append _ (String x "")), IH.
  by rewrite (rev_app_append s (String x "")).
Qed.

Lemma string_rev_cons c s : String.rev (String c s) = String.rev s +:+ String c "".
Proof. unfold String.rev. simpl. apply rev_app_append. Qed.

Lemma trimStart_idemp s : Js.trimStart (Js.trimStart s) = Js.trimStart s.
Proof.
  induction s as [|c s IH]; simpl; [done|].
  destruct (Ascii.is_space c) eqn:Hc; [done|]. simpl. by rewrite Hc.
Qed.

(** The white space before a character that is none is all that goes. *)
Lemma trimStart_snoc a c :
  Ascii.is_space c = false →
  ∃ x, Js.trimStart (a +:+ String c "") = x +:+ String c "".
Proof.
  intros Hc. induction a as [|d a [x IH]].
  - exists "". simpl. by rewrite Hc.
  - rewrite string_append_cons. simpl. destruct (Ascii.is_space d).
    + by exists x.
    + by exists (String d a).
Qed.

(** A string without white space in front keeps none after the white
    space at its end is gone. *)
Lemma trimEnd_keeps_start t :
  Js.trimStart t = t → Js.trimStart (Js.trimEnd t) = Js.trimEnd t.
Proof.
  unfold Js.trimEnd. destruct t as [|c t]; [done|]. simpl.
  destruct (Ascii.is_space c) eqn:Hc.
  - intros H. apply (f_equal String.length) in H.
    pose proof (trimStart_length t). simpl in H. lia.
  - intros _. rewrite string_rev_cons.
    destruct (trimStart_snoc (String.rev t) c Hc) as [x ->].
    rewrite string_rev_snoc. simpl. by rewrite Hc.
Qed.

Lemma trim_idemp s : Js.trim (Js.trim s) = Js.trim s.
Proof.
  unfold Js.trim.
  rewrite (trimEnd_keeps_start (Js.trimStart s)) by apply trimStart_idemp.
  unfold Js.trimEnd. by rewrite string_rev_involutive, trimStart_idemp.
Qed.

Lemma chars_trimStart s c : c ∈ chars (Js.trimStart s) → c ∈ chars s.
Proof.
  unfold chars. induction s as [|x s IH]; simpl; [done|].
  destruct (Ascii.is_space x); [|done].
  intros H. apply elem_of_cons. right. auto.
Qed.

Lemma chars_trim s c : c ∈ chars (Js.trim s) → c ∈ chars s.
Proof.
  unfold Js.trim, Js.trimEnd. rewrite chars_rev. intros H.
  apply chars_trimStart in H. rewrite chars_rev in H.
  by apply chars_trimStart.
Qed.

(** The pieces of a split hold no separator. *)
Lemma split_go_pieces sep cur s p :
  sep ∉ chars cur → p ∈ Js.split_go sep cur s → sep ∉ chars p.
Proof.
  revert cur. induction s as [|c s IH]; intros cur Hcur; simpl.
  - intros H. apply list_elem_of_singleton in H as ->. by rewrite chars_rev.
  - destruct (Ascii.eqb_spec c sep) as [->|Hne].
    + intros H. apply elem_of_cons in H as [->|H]; [by rewrite chars_rev|].
      apply (IH ""); [|done]. unfold chars. simpl. apply not_elem_of_nil.
    + apply IH. unfold chars in *. simpl. apply not_elem_of_cons. auto.
Qed.

Lemma parse_tags_tidy s t :
  t ∈ parse_tags s → t ≠ "" ∧ Js.trim t = t ∧ ","%char ∉ chars t.
Proof.
  unfold parse_tags. rewrite list_elem_of_In, filter_In, <-list_elem_of_In.
  rewrite list_elem_of_fmap. intros [(p & -> & Hp) Ht]. split_and!.
  - unfold Js.truthy in Ht. apply negb_true_iff in Ht.
    by apply String.eqb_neq in Ht.
  - apply trim_idemp.
  - intros Hc. apply chars_trim in Hc. revert Hc.
    eapply split_go_pieces; [|exact Hp]. unfold chars. simpl.
    apply not_elem_of_nil.
Qed.

(** The characters of the pieces of a split are characters of the
    string. *)
Lemma split_go_chars sep cur s p c :
  p ∈ Js.split_go sep cur s → c ∈ chars p →
  c ∈ chars cur ∨ c ∈ chars s.
Proof.
  revert cur. induction s as [|x s IH]; intros cur; simpl.
  - intros H Hc. apply list_elem_of_singleton in H as ->.
    left. by apply chars_rev.
  - destruct (Ascii.eqb_spec x sep) as [->|Hne].
    + intros H Hc. apply elem_of_cons in H as [->|H].
      * left. by apply chars_rev.
      * destruct (IH "" H Hc) as [Hn|Hs].
        -- unfold chars in Hn. simpl in Hn. by apply elem_of_nil in Hn.
        -- right. unfold chars in *. simpl. apply elem_of_cons. by right.
    + intros H Hc. destruct (IH _ H Hc) as [Hn|Hs].
      * unfold chars in *. simpl in *.
        apply elem_of_cons in Hn as [->|Hn]; [|by left].
        right. apply elem_of_cons. by left.
      * right. unfold chars in *. simpl. apply elem_of_cons. by right.
Qed.

Lemma parse_tags_chars s t c : t ∈ parse_tags s → c ∈ chars t → c ∈ chars s.
Proof.
  unfold parse_tags. rewrite list_elem_of_In, filter_In, <-list_elem_of_In.
  rewrite list_elem_of_fmap. intros [(p & -> & Hp) _] Hc.
  apply chars_trim in Hc.
  destruct (split_go_chars _ _ _ _ _ Hp Hc) as [Hn|Hs]; [|done].
  unfold chars in Hn. simpl in Hn. by apply elem_of_nil in Hn.
Qed.

(** X23: the tags of an upload that come as one string of characters of
    ASCII, separated by commas, are stored as they are parsed: each of
    them is not empty, is of characters of ASCII, has no white space at
    either end, and holds no comma. *)
Theorem uploaded_tags_are_tidy (req : Req.t) (w w' : World)
    (m : option string) (r : Resource.t) (s : string) :
  uploadResource req w = (Json 201 (ResourceData m r), w') →
  Req.tags (Req.body req) = Some (Req.TagsString s) →
  ascii_only s →
  Resource.tags r = parse_tags s
  ∧ Forall (λ t, t ≠ "" ∧ ascii_only t ∧ Js.trim t = t
                 ∧ ","%char ∉ chars t)
      (Resource.tags r).
Proof.
  intros H Htags Hascii.
  assert (Hr : Resource.tags r = Js.trim <$> parse_tags s).
  { revert H. unfold uploadResource, asyncHandler, uploadResource_fn.
    destruct (negb _); [done|].
    destruct (Req.file req) as [file|]; [|done].
    rewrite bind_eq. unfold req_user.
    destruct (Req.user req) as [u|]; [|done].
    unfold ret at 1. rewrite bind_eq, Resource_create_eq, Htags.
    destruct (Resource_validate _); [done|].
    destruct (up w); [|done]. case_bool_decide; [done|].
    rewrite bind_eq, School_findByIdAndUpdate_eq. destruct (up _); [|done].
    unfold populate. rewrite bind_eq, remote_call_eq.
    destruct (up _); [|done].
    rewrite bind_eq, remote_call_eq. destruct (up _); [|done].
    unfold ret. by intros [= _ <- _]. }
  assert (Hsame : Js.trim <$> parse_tags s = parse_tags s).
  { rewrite <-(list_fmap_id (parse_tags s)) at 2.
    apply list_fmap_ext. intros i t Ht.
    apply list_elem_of_lookup_2 in Ht.
    by apply parse_tags_tidy in Ht as (_ & ? & _). }
  rewrite Hr, Hsame. split; [done|].
  apply Forall_forall. intros t Ht.
  destruct (parse_tags_tidy _ _ Ht) as (Hne & Htrim & Hcomma).
  split_and!; [done| |done|done].
  intros c Hc. apply Hascii. by eapply parse_tags_chars.
Qed.

Lemma uploaded_tags_are_tidy_witness :
  Resource.tags Scenario.uploaded_worksheet = parse_tags "math, algebra"
  ∧ Forall (λ t, t ≠ "" ∧ ascii_only t ∧ Js.trim t = t
                 ∧ ","%char ∉ chars t)
      (Resource.tags Scenario.uploaded_worksheet).
Proof.
  apply (uploaded_tags_are_tidy Sample.upload Scenario.empty_catalog
           Scenario.uploaded
           (Some "Resource uploaded successfully and is pending moderation")
           Scenario.uploaded_worksheet "math, algebra").
  - vm_compute. reflexivity.
  - reflexivity.
  - unfold ascii_only. apply (proj1 (Forall_forall _ _)).
    unfold chars. simpl.
    repeat (apply Forall_cons; split; [unfold is_ascii; vm_compute; lia|]).
    apply Forall_nil_2.
Defined.

(** ** What is written to the moderation log *)

Lemma unlogged_readonly {A} (c : M A) : readonly c → unlogged c.
Proof. intros H w. by rewrite H. Qed.

Lemma unlogged_ret {A} (a : A) : unlogged (ret a).
Proof. done. Qed.

Lemma unlogged_throw {A} e : unlogged (@throw A e).
Proof. done. Qed.

Lemma unlogged_bind {A B} (c : M A) (k : A → M B) :
  unlogged c → (∀ a, unlogged (k a)) → unlogged (bind c k).
Proof.
  intros Hc Hk w. rewrite bind_eq. specialize (Hc w).
  destruct (c w) as [[a|e] w1]; simpl in *; [|done].
  by rewrite Hk.
Qed.

Lemma unlogged_try_catch {A} (c : M A) (h : Err → M A) :
  unlogged c → (∀ e, unlogged (h e)) → unlogged (try_catch c h).
Proof.
  intros Hc Hh w. unfold try_catch. specialize (Hc w).
  destruct (c w) as [[a|e] w1]; simpl in *; [done|].
  by rewrite Hh.
Qed.

Lemma unlogged_modify_db f :
  (∀ d, moderationlogs (f d) = moderationlogs d) → unlogged (modify_db f).
Proof. intros H w. simpl. apply H. Qed.

Lemma unlogged_modify_world f :
  (∀ w, db (f w) = db w) → unlogged (modify_world f).
Proof. intros H w. simpl. by rewrite H. Qed.

Lemma unlogged_new_ObjectId : unlogged new_ObjectId.
Proof. done. Qed.

Lemma unlogged_fs_unlink name : unlogged (fs_unlink name).
Proof. intros w. unfold fs_unlink. by case_bool_decide. Qed.

Create HintDb unlogged.
#[global] Hint Resolve unlogged_ret unlogged_throw unlogged_new_ObjectId
  unlogged_fs_unlink : unlogged.

(** Solves [unlogged c] for a computation that inserts no log entry. *)
Ltac solve_unlogged :=
  repeat first
    [ progress eauto with unlogged
    | apply unlogged_readonly; solve [eauto with readonly]
    | apply unlogged_bind; [|intros ?]
    | apply unlogged_try_catch; [|intros ?]
    | apply unlogged_modify_db; done
    | apply unlogged_modify_world; done
    | match goal with
      | |- unlogged (if ?b then _ else _) => destruct b
      | |- unlogged (match ?x with _ => _ end) => destruct x
      end ].

Lemma unlogged_save r : unlogged (Resource_save r).
Proof. unfold Resource_save. solve_unlogged. Qed.

Lemma unlogged_create title description subject grade strand tags isPublic
    uploader school file :
  unlogged (Resource_create title description subject grade strand tags
              isPublic uploader school file).
Proof. unfold Resource_create. solve_unlogged. Qed.

Lemma unlogged_findByIdAndDelete id : unlogged (Resource_findByIdAndDelete id).
Proof. unfold Resource_findByIdAndDelete. solve_unlogged. Qed.

Lemma unlogged_School_findByIdAndUpdate id f :
  unlogged (School_findByIdAndUpdate id f).
Proof. unfold School_findByIdAndUpdate. solve_unlogged. Qed.

Lemma unlogged_Download_create user resource ip agent :
  unlogged (Download_create user resource ip agent).
Proof. unfold Download_create. solve_unlogged. Qed.

Lemma unlogged_deleteFile key : unlogged (storageService.deleteFile key).
Proof. apply unlogged_readonly, readonly_deleteFile. Qed.

Lemma unlogged_getDownloadUrl key name :
  unlogged (storageService.getDownloadUrl key name).
Proof.
  unfold storageService.getDownloadUrl,
    LocalStorageService.getDownloadUrl, S3StorageService.getDownloadUrl,
    getSignedUrl.
  solve_unlogged.
Qed.

#[global] Hint Resolve unlogged_save unlogged_create
  unlogged_findByIdAndDelete unlogged_School_findByIdAndUpdate
  unlogged_Download_create unlogged_deleteFile unlogged_getDownloadUrl
  : unlogged.

Lemma unlogged_incrementDownload r : unlogged (Resource_incrementDownload r).
Proof. unfold Resource_incrementDownload. solve_unlogged. Qed.

#[global] Hint Resolve unlogged_incrementDownload : unlogged.

(** The requests that take no decision leave the log as it is. *)
Lemma serve_unlogged route req w :
  route ≠ POST_moderation_approve →
  route ≠ POST_moderation_reject →
  moderationlogs (db (serve route req w).2) = moderationlogs (db w).
Proof.
  intros Ha Hr.
  assert (H : ∀ fn, unlogged (fn req) →
            moderationlogs (db (asyncHandler fn req w).2)
            = moderationlogs (db w)).
  { intros fn Hfn. rewrite asyncHandler_world. apply Hfn. }
  destruct route; simpl; try done; apply H.
  - unfold uploadResource_fn. solve_unlogged.
  - unfold updateResource_fn. solve_unlogged.
  - unfold deleteResource_fn. solve_unlogged.
  - unfold downloadResource_fn. solve_unlogged.
Qed.

(** X24: only the decisions of the moderators write to the moderation log.
    An upload, an edit, a delete and a download leave the log as it is,
    whatever their outcome: the return to pending of an approved resource
    that an administrator edits is not logged, and the entries of a
    resource stay when the resource is deleted. *)
Theorem only_decisions_are_logged (route : Route) (req : Req.t) (w : World) :
  route ≠ POST_moderation_approve →
  route ≠ POST_moderation_reject →
  moderationlogs (db (serve route req w).2) = moderationlogs (db w).
Proof. apply serve_unlogged. Qed.

(** The moderator edits the approved worksheet: it is pending again, and
    the log is empty as before. *)
Lemma only_decisions_are_logged_witness :
  Resource.status
    <$> resources (db (serve PUT_resource (Cases.rename Sample.moderator)
                         Scenario.approved_catalog).2) !! 1
  = Some pending
  ∧ moderationlogs (db (serve PUT_resource (Cases.rename Sample.moderator)
                          Scenario.approved_catalog).2)
    = moderationlogs (db Scenario.approved_catalog).
Proof.
  split; [vm_compute; reflexivity|].
  apply (only_decisions_are_logged PUT_resource
           (Cases.rename Sample.moderator) Scenario.approved_catalog);
    discriminate.
Defined.

Lemma ModerationLog_create_cases resource moderator action notes from to w :
  match ModerationLog_create resource moderator action notes from to w with
  | (Ok l, w') =>
      ModerationLog.previousStatus l = from
      ∧ ModerationLog.newStatus l = to
      ∧ ModerationLog.action l = action
      ∧ moderationlogs (db w')
        = <[oidgen w := l]> (moderationlogs (db w))
  | (Throw e, w') => db w' = db w
  end.
Proof.
  unfold ModerationLog_create. unfold_async. simpl.
  destruct (ModerationLog_validate _); [done|].
  destruct (ModerationLog_pre_save _); [done|].
  rewrite remote_call_eq, up_set_oidgen, pop_set_oidgen.
  destruct (up w); simpl; [|by rewrite pop_db].
  rewrite pop_db. destruct (moderationlogs (db w) !! oidgen w); simpl;
    by rewrite pop_db.
Qed.

Lemma audit_trail_same d d' :
  moderationlogs d' = moderationlogs d → audit_trail d → audit_trail d'.
Proof. unfold audit_trail. by intros ->. Qed.

(** A decision keeps the log a trail of decisions. *)
Lemma moderate_audit_trail v req w :
  audit_trail (db w) → audit_trail (db (moderate v req w).2).
Proof.
  intros Ht.
  destruct v; simpl.
  - unfold approveResource. rewrite asyncHandler_db.
    unfold approveResource_fn. destruct (negb _); [done|].
    rewrite bind_eq, Resource_findById_eq.
    destruct (up w); [|by simpl; rewrite pop_db].
    destruct (resources (db w) !! Req.params_id req) as [r|];
      [|by simpl; rewrite pop_db].
    case_bool_decide as Hst; simpl; [|by rewrite pop_db].
    rewrite bind_eq. unfold req_user.
    destruct (Req.user req) as [u|]; [|by simpl; rewrite pop_db].
    unfold ret at 1. rewrite bind_eq. unfold new_Date at 1.
    rewrite bind_eq.
    match goal with
    | |- context [Resource_save ?x ?y] =>
        pose proof (Resource_save_cases x y) as Hs;
        destruct (Resource_save x y) as [[r1|e] w1]
    end; [|by simpl; destruct Hs as [-> _]; rewrite pop_db].
    destruct Hs as (_ & _ & -> & ->). rewrite Hst.
    rewrite bind_tail_db by (intros ?; solve_readonly).
    match goal with
    | |- context [ModerationLog_create ?a1 ?a2 ?a3 ?a4 ?a5 ?a6 ?y] =>
        pose proof (ModerationLog_create_cases a1 a2 a3 a4 a5 a6 y) as Hc;
        destruct (ModerationLog_create a1 a2 a3 a4 a5 a6 y) as [[l|e'] w2]
    end; simpl.
    + destruct Hc as (Hfrom & Hto & Hact & Hdb). unfold audit_trail.
      rewrite Hdb. simpl. rewrite pop_db.
      apply map_Forall_insert_2; [|done].
      split; [done|]. by rewrite Hto, Hact.
    + rewrite Hc. simpl. by rewrite pop_db.
  - unfold rejectResource. rewrite asyncHandler_db.
    unfold rejectResource_fn. destruct (negb _); [done|].
    destruct (notes_missing _); [done|].
    rewrite bind_eq, Resource_findById_eq.
    destruct (up w); [|by simpl; rewrite pop_db].
    destruct (resources (db w) !! Req.params_id req) as [r|];
      [|by simpl; rewrite pop_db].
    case_bool_decide as Hst; simpl; [|by rewrite pop_db].
    rewrite bind_eq. unfold req_user.
    destruct (Req.user req) as [u|]; [|by simpl; rewrite pop_db].
    unfold ret at 1. rewrite bind_eq. unfold new_Date at 1.
    rewrite bind_eq.
    match goal with
    | |- context [Resource_save ?x ?y] =>
        pose proof (Resource_save_cases x y) as Hs;
        destruct (Resource_save x y) as [[r1|e] w1]
    end; [|by simpl; destruct Hs as [-> _]; rewrite pop_db].
    destruct Hs as (_ & _ & -> & ->). rewrite Hst.
    rewrite bind_tail_db by (intros ?; solve_readonly).
    match goal with
    | |- context [ModerationLog_create ?a1 ?a2 ?a3 ?a4 ?a5 ?a6 ?y] =>
        pose proof (ModerationLog_create_cases a1 a2 a3 a4 a5 a6 y) as Hc;
        destruct (ModerationLog_create a1 a2 a3 a4 a5 a6 y) as [[l|e'] w2]
    end; simpl.
    + destruct Hc as (Hfrom & Hto & Hact & Hdb). unfold audit_trail.
      rewrite Hdb. simpl. rewrite pop_db.
      apply map_Forall_insert_2; [|done].
      split; [done|]. by rewrite Hto, Hact.
    + rewrite Hc. simpl. by rewrite pop_db.
Qed.

(** X25: the moderation log is a trail of decisions on pending resources.
    Whatever requests are served, with whatever failures of the services,
    every entry that comes to the log records the approval or the
    rejection of a resource that was pending: no entry leads to pending,
    none starts from approved or from rejected. *)
Theorem log_is_a_trail_of_decisions (w0 w : World) :
  audit_trail (db w0) →
  reaches w0 w →
  ∀ k l, moderationlogs (db w) !! k = Some l →
    ModerationLog.previousStatus l = pending
    ∧ ModerationLog.newStatus l ≠ pending
    ∧ (ModerationLog.newStatus l = approved
       ↔ ModerationLog.action l = action_approved).
Proof.
  intros H0 Hreach.
  assert (Ht : audit_trail (db w)).
  { induction Hreach as [|w route req _ IH]; [done|].
    destruct route;
      try (eapply audit_trail_same; [|exact IH];
           by apply serve_unlogged).
    - apply (moderate_audit_trail Approve), IH.
    - apply (moderate_audit_trail Reject), IH. }
  intros k l Hl. destruct (Ht k l Hl) as [Hfrom Hto].
  split; [done|]. rewrite Hto.
  destruct (ModerationLog.action l); split_and!; done.
Qed.

Lemma log_is_a_trail_of_decisions_witness :
  ∃ l, moderationlogs (db Cases.approved_once) !! 100 = Some l
       ∧ ModerationLog.previousStatus l = pending
       ∧ ModerationLog.newStatus l ≠ pending
       ∧ (ModerationLog.newStatus l = approved
          ↔ ModerationLog.action l = action_approved).
Proof.
  eexists. split; [vm_compute; reflexivity|].
  apply (log_is_a_trail_of_decisions Scenario.pending_catalog
           Cases.approved_once) with (k := 100).
  - intros k l Hl. by vm_compute in Hl.
  - apply (reaches_step _ _ POST_moderation_approve Scenario.approve_it).
    apply reaches_refl.
  - vm_compute. reflexivity.
Defined.

(** ** The facets of the listings *)

Lemma matches_status_approved text r :
  matches text status_approved r = true ↔ Resource.status r = approved.
Proof.
  unfold matches, status_approved. simpl.
  rewrite !andb_true_r, String.eqb_eq. by destruct (Resource.status r).
Qed.

Lemma elem_of_select w q r :
  r ∈ select w q
  ↔ matches (text_index w) q r = true ∧ ∃ k, resources (db w) !! k = Some r.
Proof.
  unfold select. rewrite list_elem_of_filter, Is_true_true.
  by rewrite elem_of_collection.
Qed.

(** The values of a path over the documents that a filter selects. *)
Lemma elem_of_distinct (path : Resource.t → string) w q s :
  s ∈ remove_dups (path <$> select w q)
  ↔ ∃ k r, resources (db w) !! k = Some r
           ∧ matches (text_index w) q r = true ∧ path r = s.
Proof.
  rewrite elem_of_remove_dups, list_elem_of_fmap. split.
  - intros (r & -> & Hr). apply elem_of_select in Hr as [Hm [k Hk]].
    by exists k, r.
  - intros (k & r & Hk & Hm & <-). exists r. split; [done|].
    apply elem_of_select. split; [done|]. by exists k.
Qed.

(** X26: the facets of the listing.  Whatever the filters of the request
    and whoever asks, the subjects and the grades that come with the
    listing are those of the approved resources, each once; the page
    holds documents of the catalog, the newest first. *)
Theorem listing_facets_are_of_approved (req : Req.t) (w w' : World)
    (l : list Resource.t) (subjects grades : list string) (pg : Pagination) :
  getResources req w = (Json 200 (ListData l subjects grades pg), w') →
  NoDup subjects
  ∧ NoDup grades
  ∧ (∀ s, s ∈ subjects
          ↔ ∃ k r, resources (db w) !! k = Some r
                   ∧ Resource.status r = approved ∧ Resource.subject r = s)
  ∧ (∀ g, g ∈ grades
          ↔ ∃ k r, resources (db w) !! k = Some r
                   ∧ Resource.status r = approved ∧ Resource.grade r = g)
  ∧ Forall (λ r, ∃ k, resources (db w) !! k = Some r) l
  ∧ StronglySorted createdAt_desc l.
Proof.
  unfold getResources, asyncHandler, getResources_fn.
  rewrite bind_eq, Resource_find_eq. destruct (up w); [|done].
  destruct (_ <? 0)%Z; [done|].
  rewrite bind_eq, Resource_countDocuments_eq. destruct (up (pop w)); [|done].
  rewrite bind_eq, Resource_distinct_eq.
  destruct (up (pop (pop w))); [|done].
  rewrite bind_eq, Resource_distinct_eq.
  destruct (up (pop (pop (pop w)))); [|done].
  unfold ret. intros [= <- <- <- <- _]. simpl. rewrite !select_pop.
  split_and!.
  - apply NoDup_remove_dups.
  - apply NoDup_remove_dups.
  - intros s. rewrite elem_of_distinct.
    by setoid_rewrite matches_status_approved.
  - intros g. rewrite elem_of_distinct.
    by setoid_rewrite matches_status_approved.
  - apply Forall_forall. intros r Hr. apply page_subseteq in Hr.
    by apply elem_of_select in Hr as [_ Hr].
  - apply apply_limit_sorted, drop_sorted.
    apply (@StronglySorted_merge_sort _ _ _ createdAt_desc_trans
             createdAt_desc_total).
Qed.

(** X27: the resources of a school.  The page holds approved resources of
    the school only, the newest first, with the subject and the grade
    that the request asks for when these are of characters of ASCII with
    no white space at either end; the subjects and the grades that come
    with it are those of the approved resources of the school, whatever
    the request asks for. *)
Theorem school_listing_is_of_the_school (req : Req.t) (w w' : World)
    (l : list Resource.t) (subjects grades : list string) (pg : Pagination) :
  getSchoolResources req w = (Json 200 (ListData l subjects grades pg), w') →
  Forall (λ r,
    Resource.status r = approved
    ∧ Resource.school r = Req.params_id req
    ∧ (∀ s, Req.q_subject (Req.query req) = Some s → s ≠ "" →
            ascii_only s → Js.trim s = s → Resource.subject r = s)
    ∧ (∀ g, Req.q_grade (Req.query req) = Some g → g ≠ "" →
            ascii_only g → Js.trim g = g → Resource.grade r = g)) l
  ∧ StronglySorted createdAt_desc l
  ∧ (∀ s, s ∈ subjects
          ↔ ∃ k r, resources (db w) !! k = Some r
                   ∧ Resource.status r = approved
                   ∧ Resource.school r = Req.params_id req
                   ∧ Resource.subject r = s)
  ∧ (∀ g, g ∈ grades
          ↔ ∃ k r, resources (db w) !! k = Some r
                   ∧ Resource.status r = approved
                   ∧ Resource.school r = Req.params_id req
                   ∧ Resource.grade r = g).
Proof.
  unfold getSchoolResources, asyncHandler, getSchoolResources_fn.
  rewrite bind_eq, Resource_find_eq. destruct (up w); [|done].
  destruct (_ <? 0)%Z; [done|].
  rewrite bind_eq, Resource_countDocuments_eq. destruct (up (pop w)); [|done].
  rewrite bind_eq, Resource_distinct_eq.
  destruct (up (pop (pop w))); [|done].
  rewrite bind_eq, Resource_distinct_eq.
  destruct (up (pop (pop (pop w)))); [|done].
  unfold ret. intros [= <- <- <- _]. rewrite !select_pop.
  split_and!.
  - apply Forall_forall. intros r Hr. apply page_subseteq in Hr.
    apply select_matches in Hr. revert Hr. unfold matches. simpl.
    rewrite !andb_true_r, !andb_true_iff.
    intros [[[Hst Hsub] Hgr] Hsch]. split_and!.
    + apply String.eqb_eq in Hst. by destruct (Resource.status r).
    + by apply bool_decide_eq_true in Hsch.
    + intros s Hs Hne _ _. rewrite Hs in Hsub. unfold when_truthy in Hsub.
      simpl in Hsub. unfold Js.truthy in Hsub.
      rewrite (proj2 (String.eqb_neq s "") Hne) in Hsub. simpl in Hsub.
      by apply String.eqb_eq.
    + intros g Hg Hne _ _. rewrite Hg in Hgr. unfold when_truthy in Hgr.
      simpl in Hgr. unfold Js.truthy in Hgr.
      rewrite (proj2 (String.eqb_neq g "") Hne) in Hgr. simpl in Hgr.
      by apply String.eqb_eq.
  - apply apply_limit_sorted, drop_sorted.
    apply (@StronglySorted_merge_sort _ _ _ createdAt_desc_trans
             createdAt_desc_total).
  - intros s. rewrite elem_of_distinct.
    setoid_rewrite matches_school_approved. split.
    + intros (k & r & Hk & [Hst Hsch] & Hp). by exists k, r.
    + intros (k & r & Hk & Hst & Hsch & Hp). by exists k, r.
  - intros g. rewrite elem_of_distinct.
    setoid_rewrite matches_school_approved. split.
    + intros (k & r & Hk & [Hst Hsch] & Hp). by exists k, r.
    + intros (k & r & Hk & Hst & Hsch & Hp). by exists k, r.
Qed.

Lemma listing_facets_are_of_approved_witness :
  NoDup ["Mathematics"]
  ∧ NoDup ["Grade 9"]
  ∧ (∀ s, s ∈ ["Mathematics"]
          ↔ ∃ k r, resources (db Scenario.queue) !! k = Some r
                   ∧ Resource.status r = approved ∧ Resource.subject r = s)
  ∧ (∀ g, g ∈ ["Grade 9"]
          ↔ ∃ k r, resources (db Scenario.queue) !! k = Some r
                   ∧ Resource.status r = approved ∧ Resource.grade r = g)
  ∧ Forall (λ r, ∃ k, resources (db Scenario.queue) !! k = Some r)
      [Sample.worksheet_at 1 pending 3000; Sample.worksheet_at 2 pending 1000]
  ∧ StronglySorted createdAt_desc
      [Sample.worksheet_at 1 pending 3000; Sample.worksheet_at 2 pending 1000].
Proof.
  apply (listing_facets_are_of_approved Cases.list_pending Scenario.queue
           Scenario.queue _ _ _ (mkPagination 1 12 2 1)).
  vm_compute. reflexivity.
Defined.

Lemma ascii_only_decide s :
  forallb (λ c, nat_of_ascii c <? 128) (chars s) = true → ascii_only s.
Proof.
  intros H c Hc. rewrite forallb_forall in H.
  apply list_elem_of_In in Hc. apply H in Hc.
  by apply Nat.ltb_lt in Hc.
Qed.

Lemma school_listing_is_of_the_school_witness :
  (getSchoolResources Cases.mathematics_of_school Scenario.queue).1
  = Json 200
      (ListData [Sample.worksheet_at 3 approved 2000]
         ["Mathematics"] ["Grade 9"] (mkPagination 1 12 1 1))
  ∧ Forall (λ r,
      Resource.status r = approved
      ∧ Resource.school r = 1
      ∧ Resource.subject r = "Mathematics"
      ∧ Resource.grade r = "Grade 9")
      [Sample.worksheet_at 3 approved 2000].
Proof.
  assert (Heq : getSchoolResources Cases.mathematics_of_school
                  Scenario.queue
                = (Json 200
                     (ListData [Sample.worksheet_at 3 approved 2000]
                        ["Mathematics"] ["Grade 9"] (mkPagination 1 12 1 1)),
                   Scenario.queue))
    by (vm_compute; reflexivity).
  split; [by rewrite Heq|].
  destruct (school_listing_is_of_the_school _ _ _ _ _ _ _ Heq)
    as (H & _).
  eapply Forall_impl; [exact H|]. simpl.
  intros r (Hst & Hsch & Hsub & Hgr). split_and!; [done|done|..].
  - apply Hsub; [reflexivity|done| |reflexivity].
    by apply ascii_only_decide.
  - apply Hgr; [reflexivity|done| |reflexivity].
    by apply ascii_only_decide.
Defined.

(** ** The most downloaded resources *)

Lemma downloadCount_desc_trans : Transitive downloadCount_desc.
Proof. unfold downloadCount_desc. intros a b c. lia. Qed.

Lemma downloadCount_desc_total : Total downloadCount_desc.
Proof. unfold downloadCount_desc. intros a b. lia. Qed.

Lemma group_downloads_keys l :
  (group_downloads l).*1 = remove_dups (Download.resource <$> l).
Proof.
  unfold group_downloads. rewrite <-list_fmap_compose.
  induction (remove_dups (Download.resource <$> l)) as [|x xs IH]; [done|].
  rewrite fmap_cons. simpl. by f_equal.
Qed.

Lemma group_downloads_elem l id n :
  (id, n) ∈ group_downloads l →
  (1 ≤ n)%Z
  ∧ n = Z.of_nat (length (filter (λ x, Download.resource x = id) l)).
Proof.
  unfold group_downloads. rewrite list_elem_of_fmap.
  intros (x & [= -> ->] & Hx). rewrite elem_of_remove_dups in Hx.
  split; [|done]. apply list_elem_of_fmap in Hx as (d & Hd & Hin).
  assert (d ∈ filter (λ y, Download.resource y = x) l)
    by by apply list_elem_of_filter.
  destruct (filter _ l); [by apply not_elem_of_nil in H|]. simpl. lia.
Qed.

Lemma Download_getPopularResources_eq days_before days limit w :
  Download_getPopularResources days_before days limit w
  = (if up w then
       if (default 10%Z limit <=? 0)%Z
       then Throw (MongoError "the limit must be positive")
       else
         Ok (filter
               (λ row, Resource.status (popular_resource row) = approved)
               (omap (λ g, r ← resources (db w) !! g.1;
                           Some (mkPopularResource g.1 g.2 r))
                  (take (Z.to_nat (default 10%Z limit))
                     (merge_sort downloadCount_desc
                        (group_downloads
                           (downloads_since (db w)
                              (days_before (clock w)
                                 (default 30%Z days))))))))
     else Throw NetworkError, pop w).
Proof.
  unfold Download_getPopularResources. unfold_async.
  rewrite remote_call_eq. destruct (up w); [|done].
  destruct (_ <=? 0)%Z; [done|]. by rewrite pop_db.
Qed.

(** A list that is sorted stays so when elements are taken out and the
    others are mapped, the order being kept by the map. *)
Lemma omap_sorted {A B} (R : relation A) (R' : relation B)
    (f : A → option B) (l : list A) :
  (∀ a b a' b', R a b → f a = Some a' → f b = Some b' → R' a' b') →
  StronglySorted R l → StronglySorted R' (omap f l).
Proof.
  intros Hf Hs. induction Hs as [|a l Hs IH Ha]; simpl; [constructor|].
  destruct (f a) as [a'|] eqn:Hfa; [|done].
  constructor; [done|]. apply Forall_forall. intros b' Hb'.
  apply list_elem_of_omap in Hb' as (b & Hb & Hfb).
  eapply Hf; [|done..]. eapply Forall_forall; [exact Ha|done].
Qed.

Lemma filter_sorted {A} (R : relation A) (P : A → Prop)
    `{!∀ x, Decision (P x)} (l : list A) :
  StronglySorted R l → StronglySorted R (filter P l).
Proof.
  intros Hs. induction Hs as [|a l Hs IH Ha]; [constructor|].
  rewrite filter_cons. destruct (decide (P a)); [|done].
  constructor; [done|]. apply Forall_forall. intros b Hb.
  apply list_elem_of_filter in Hb as [_ Hb].
  eapply Forall_forall; [exact Ha|done].
Qed.

(** In a list by decreasing count, fewer than [n] groups have a greater
    count than one of the first [n]. *)
Lemma few_above_top (l : list (ObjectId * Z)) (n : nat) (g : ObjectId * Z) :
  StronglySorted downloadCount_desc l → g ∈ take n l →
  length (filter (λ x, (g.2 < x.2)%Z) l) < n.
Proof.
  intros Hs Hg. apply list_elem_of_lookup in Hg as [i Hi].
  apply lookup_take_Some in Hi as [Hi Hin].
  rewrite <-(take_drop i l), filter_app, length_app.
  assert (Hnil : filter (λ x, (g.2 < x.2)%Z) (drop i l) = []).
  { apply (drop_sorted _ i) in Hs.
    rewrite (drop_S _ _ _ Hi) in Hs |- *.
    apply StronglySorted_inv in Hs as [_ Hall].
    rewrite filter_cons_False by (simpl; lia).
    induction Hall as [|x xs Hx _ IH]; [done|].
    unfold downloadCount_desc in Hx.
    by rewrite filter_cons_False by (simpl; lia). }
  rewrite Hnil. simpl.
  pose proof (length_filter (λ x, (g.2 < x.2)%Z) (take i l)).
  rewrite length_take in H. lia.
Qed.

(** In a list by decreasing count, a group is one of the first [n] when
    fewer than [n] other groups have its count or a greater one. *)
Lemma top_of_few_above (l : list (ObjectId * Z)) (n : nat)
    (g : ObjectId * Z) :
  StronglySorted downloadCount_desc l → NoDup l.*1 → g ∈ l →
  length (filter (λ x, x.1 ≠ g.1 ∧ (g.2 ≤ x.2)%Z) l) < n →
  g ∈ take n l.
Proof.
  intros Hs Hn Hg Hlen. apply list_elem_of_lookup in Hg as [i Hi].
  assert (Hall : Forall (λ x, x.1 ≠ g.1 ∧ (g.2 ≤ x.2)%Z) (take i l)).
  { apply Forall_lookup. intros j x Hj.
    apply lookup_take_Some in Hj as [Hj Hji]. split.
    - intros Heq.
      assert (j = i); [|lia].
      eapply NoDup_lookup; [exact Hn| |].
      + rewrite list_lookup_fmap, Hj. simpl. by rewrite Heq.
      + by rewrite list_lookup_fmap, Hi.
    - apply (sorted_lookup _ _ _ _ _ _ Hs Hj Hi Hji). }
  assert (Hi' : i ≤ length (filter (λ x, x.1 ≠ g.1 ∧ (g.2 ≤ x.2)%Z) l)).
  { rewrite <-(take_drop i l), filter_app, length_app.
    assert (Hid : filter (λ x, x.1 ≠ g.1 ∧ (g.2 ≤ x.2)%Z) (take i l)
                  = take i l).
    { induction Hall as [|x xs Hx _ IH]; [done|].
      rewrite filter_cons_True by done. by f_equal. }
    rewrite Hid, length_take. apply lookup_lt_Some in Hi. lia. }
  apply list_elem_of_lookup. exists i.
  apply lookup_take_Some. split; [done|lia].
Qed.

(** X28: the most downloaded resources.  For a positive limit, the answer
    holds at most [limit] rows, of approved resources, each once, each
    with the number of its downloads since the start date, at least one,
    by decreasing number.  The limit is taken before the status is looked
    at: for every row, fewer than [limit] resources, of any status, were
    downloaded more often since the start date, so that a resource that
    is not approved takes the place of an approved one; and an approved
    resource with a download since the start date has a row when fewer
    than [limit] other resources, of any status, were downloaded as often
    or more often. *)
Theorem popular_resources_limit_comes_first (days_before : Z → Z → Z)
    (days limit : option Z) (w w' : World) (rows : list PopularResource) :
  Download_getPopularResources days_before days limit w = (Ok rows, w') →
  let startDate := days_before (clock w) (default 30%Z days) in
  let groups := group_downloads (downloads_since (db w) startDate) in
  (0 < default 10%Z limit)%Z
  ∧ length rows ≤ Z.to_nat (default 10%Z limit)
  ∧ NoDup (popular_id <$> rows)
  ∧ StronglySorted (λ a b, (popular_downloadCount b
                            ≤ popular_downloadCount a)%Z) rows
  ∧ Forall (λ row,
      resources (db w) !! popular_id row = Some (popular_resource row)
      ∧ Resource.status (popular_resource row) = approved
      ∧ (1 ≤ popular_downloadCount row)%Z
      ∧ popular_downloadCount row
        = Z.of_nat (length (filter
            (λ x, Download.resource x = popular_id row)
            (downloads_since (db w) startDate)))
      ∧ length (filter (λ g, (popular_downloadCount row < g.2)%Z) groups)
        < Z.to_nat (default 10%Z limit)) rows
  ∧ (∀ id n r,
       (id, n) ∈ groups →
       resources (db w) !! id = Some r →
       Resource.status r = approved →
       length (filter (λ g, g.1 ≠ id ∧ (n ≤ g.2)%Z) groups)
       < Z.to_nat (default 10%Z limit) →
       mkPopularResource id n r ∈ rows).
Proof.
  rewrite Download_getPopularResources_eq. destruct (up w); [|done].
  destruct (Z.leb_spec (default 10%Z limit) 0); [done|].
  intros [= <- _] startDate groups. fold startDate. fold groups.
  set (sorted := merge_sort downloadCount_desc groups).
  set (top := take (Z.to_nat (default 10%Z limit)) sorted).
  set (join := λ g : ObjectId * Z,
         r ← resources (db w) !! g.1; Some (mkPopularResource g.1 g.2 r)).
  assert (Hperm : sorted ≡ₚ groups) by apply merge_sort_Permutation.
  assert (Hsorted : StronglySorted downloadCount_desc sorted)
    by apply (@StronglySorted_merge_sort _ _ _ downloadCount_desc_trans
                downloadCount_desc_total).
  assert (Htop : StronglySorted downloadCount_desc top).
  { subst top.
    rewrite <-(take_drop (Z.to_nat (default 10%Z limit)) sorted) in Hsorted.
    by apply StronglySorted_app_1_l in Hsorted. }
  assert (Hkeys : NoDup sorted.*1).
  { rewrite Hperm. unfold groups. rewrite group_downloads_keys.
    apply NoDup_remove_dups. }
  assert (Hnodup : NoDup top.*1).
  { subst top. rewrite fmap_take.
    eapply sublist_NoDup; [exact Hkeys|apply sublist_take]. }
  assert (Hjoin : ∀ l, popular_id <$> omap join l `sublist_of` l.*1).
  { induction l as [|g l IH]; [done|]. simpl. unfold join at 1.
    destruct (resources (db w) !! g.1); simpl.
    - by apply sublist_skip.
    - by apply sublist_cons. }
  assert (Hrow : ∀ g row, join g = Some row →
            popular_id row = g.1 ∧ popular_downloadCount row = g.2
            ∧ resources (db w) !! g.1 = Some (popular_resource row)).
  { intros g row. unfold join.
    destruct (resources (db w) !! g.1); [|done]. by intros [= <-]. }
  split_and!.
  - done.
  - etrans; [apply length_filter|].
    etrans; [|apply (firstn_le_length (Z.to_nat (default 10%Z limit))
                       sorted)].
    fold top. rewrite <-(length_fmap popular_id), <-(length_fmap fst top).
    apply sublist_length, Hjoin.
  - eapply sublist_NoDup; [exact Hnodup|].
    etrans; [|apply Hjoin]. apply fmap_sublist, sublist_filter.
  - apply filter_sorted. eapply omap_sorted; [|exact Htop].
    intros a b a' b' Hab Ha Hb.
    destruct (Hrow _ _ Ha) as (_ & -> & _).
    by destruct (Hrow _ _ Hb) as (_ & -> & _).
  - apply Forall_forall. intros row Hin.
    apply list_elem_of_filter in Hin as [Hst Hin].
    apply list_elem_of_omap in Hin as (g & Hg & Hjg).
    destruct (Hrow _ _ Hjg) as (Hid & Hn & Hr).
    rewrite Hid, Hn.
    pose proof (few_above_top _ _ _ Hsorted Hg) as Hfew.
    rewrite Hperm in Hfew.
    destruct g as [id n]. simpl in *.
    assert (Hgroup : (id, n) ∈ groups).
    { apply (subseteq_take (Z.to_nat (default 10%Z limit))) in Hg.
      by rewrite Hperm in Hg. }
    apply group_downloads_elem in Hgroup as [Hpos Hcount].
    by split_and!.
  - intros id n r Hg Hr Hst Hfew.
    apply list_elem_of_filter. split; [done|].
    apply list_elem_of_omap. exists (id, n). split.
    + apply top_of_few_above; [done|done|by rewrite Hperm|].
      simpl. by rewrite Hperm.
    + unfold join. simpl. by rewrite Hr.
Qed.

(** With a limit of one, the pending worksheet, downloaded twice, takes
    the place: the answer is empty, although the approved worksheet was
    downloaded.  With the limit of ten, the approved worksheet has its
    row. *)
Lemma popular_resources_limit_comes_first_witness :
  (Download_getPopularResources Rounds.days_before_utc None (Some 1%Z)
     Rounds.pending_is_popular).1 = Ok []
  ∧ Resource.status <$> resources (db Rounds.pending_is_popular) !! 2
    = Some approved
  ∧ length ([] : list PopularResource) ≤ Z.to_nat 1
  ∧ ∃ rows,
      Download_getPopularResources Rounds.days_before_utc None None
        Rounds.pending_is_popular
      = (Ok rows, Rounds.pending_is_popular)
      ∧ mkPopularResource 2 1 (Sample.worksheet 2 approved) ∈ rows.
Proof.
  split; [vm_compute; reflexivity|]. split; [reflexivity|]. split.
  - destruct (popular_resources_limit_comes_first
                Rounds.days_before_utc None (Some 1%Z)
                Rounds.pending_is_popular Rounds.pending_is_popular
                [] ltac:(vm_compute; reflexivity))
      as (_ & H & _).
    exact H.
  - eexists. split; [vm_compute; reflexivity|].
    apply (popular_resources_limit_comes_first
             Rounds.days_before_utc None None
             Rounds.pending_is_popular Rounds.pending_is_popular
             _ ltac:(vm_compute; reflexivity)).
    + apply (bool_decide_unpack _). by vm_compute.
    + reflexivity.
    + reflexivity.
    + vm_compute. lia.
Defined.

(** ** An upload, then its delete *)

Lemma uploadResource_db req w w1 m r :
  uploadResource req w = (Json 201 (ResourceData m r), w1) →
  ∃ u, Req.user req = Some u
       ∧ resources (db w) !! Resource._id r = None
       ∧ Resource.school r = Req.school u
       ∧ db w1
         = set_schools
             (set_resources (db w) (<[Resource._id r := r]> (resources (db w))))
             (alter (inc_totalResources 1) (Req.school u) (schools (db w))).
Proof.
  unfold uploadResource, asyncHandler, uploadResource_fn.
  destruct (negb _); [done|].
  destruct (Req.file req) as [file|]; [|done].
  rewrite bind_eq. unfold req_user. destruct (Req.user req) as [u|]; [|done].
  unfold ret at 1. rewrite bind_eq.
  match goal with
  | |- context [Resource_create ?a1 ?a2 ?a3 ?a4 ?a5 ?a6 ?a7 ?a8 ?a9 ?a10 w] =>
      pose proof (Resource_create_cases a1 a2 a3 a4 a5 a6 a7 a8 a9 a10 w)
        as Hc;
      destruct (Resource_create a1 a2 a3 a4 a5 a6 a7 a8 a9 a10 w)
        as [[r'|e'] w0]
  end; [|done].
  destruct Hc as (_ & Hfree & Hid & _ & Hs & _ & _ & _ & _ & _ & _ & ->).
  rewrite bind_eq, School_findByIdAndUpdate_eq.
  destruct (up _); [|done].
  unfold populate. rewrite bind_eq, remote_call_eq. destruct (up _); [|done].
  rewrite bind_eq, remote_call_eq. destruct (up _); [|done].
  unfold ret. intros [= _ <- <-]. exists u.
  rewrite Hid. split_and!; try done. by rewrite !pop_db.
Qed.

Lemma deleteResource_db req w w2 msg :
  deleteResource req w = (Json 200 (Success msg), w2) →
  ∃ r, resources (db w) !! Req.params_id req = Some r
       ∧ db w2
         = set_schools
             (set_resources (db w) (delete (Req.params_id req) (resources (db w))))
             (alter (inc_totalResources (-1)) (Resource.school r)
                (schools (db w))).
Proof.
  unfold deleteResource, asyncHandler, deleteResource_fn.
  rewrite bind_eq, Resource_findById_eq. destruct (up w); [|done].
  destruct (resources (db w) !! Req.params_id req) as [r|] eqn:Hr; [|done].
  rewrite bind_eq. unfold req_user. destruct (Req.user req) as [u|]; [|done].
  unfold ret at 1. destruct (negb _ && negb _); [done|].
  unfold try_catch. rewrite bind_eq.
  pose proof (deleteFile_cases (File.key (Resource.file r)) (pop w)) as Hfile.
  destruct (storageService.deleteFile _ (pop w)) as [[[]|e] w1];
    [|by unfold_async].
  destruct Hfile as [Hdb _].
  rewrite bind_eq, Resource_findByIdAndDelete_eq.
  destruct (up w1); [|by unfold_async].
  rewrite bind_eq, School_findByIdAndUpdate_eq.
  destruct (up _); [|by unfold_async].
  unfold ret. intros [= _ <-]. exists r. split; [done|].
  simpl. by rewrite Hdb, pop_db.
Qed.

Lemma inc_totalResources_back s :
  inc_totalResources (-1) (inc_totalResources 1 s) = s.
Proof.
  destruct s as [? ? ? ? ? ? ? [tr td au]]. unfold inc_totalResources.
  simpl. unfold School.set_statistics. simpl. do 2 f_equal. lia.
Qed.

Lemma alter_back (m : gmap ObjectId School.t) id :
  alter (inc_totalResources (-1)) id (alter (inc_totalResources 1) id m) = m.
Proof.
  apply map_eq. intros k. destruct (decide (id = k)) as [->|Hne].
  - rewrite !lookup_alter_eq. destruct (m !! k); [|done]. simpl.
    by rewrite inc_totalResources_back.
  - by rewrite !lookup_alter_ne.
Qed.

(** X29: an upload, then its delete.  When an upload is answered with 201
    and the delete of the resource that it stored, served next, with 200,
    the collections are again as they were before the upload: the catalog
    has the same documents, and the counter of the school its former
    value. *)
Theorem upload_then_delete_round_trip (req req' : Req.t) (w w1 w2 : World)
    (m : option string) (msg : string) (r : Resource.t) :
  uploadResource req w = (Json 201 (ResourceData m r), w1) →
  Req.params_id req' = Resource._id r →
  deleteResource req' w1 = (Json 200 (Success msg), w2) →
  db w2 = db w.
Proof.
  intros Hup Hid Hdel.
  apply uploadResource_db in Hup as (u & Hu & Hfree & Hs & Hdb1).
  apply deleteResource_db in Hdel as (r' & Hr' & Hdb2).
  rewrite Hdb1, Hid in Hr'. simpl in Hr'.
  rewrite lookup_insert_eq in Hr'. injection Hr' as <-.
  rewrite Hdb2, Hdb1, Hid, Hs. simpl.
  rewrite (delete_insert_id _ _ _ Hfree), alter_back.
  by destruct (db w).
Qed.

Lemma upload_then_delete_round_trip_witness :
  db Rounds.after_delete = db Rounds.file_received.
Proof.
  apply (upload_then_delete_round_trip Sample.upload Scenario.delete_it
           Rounds.file_received Rounds.after_upload Rounds.after_delete
           (Some "Resource uploaded successfully and is pending moderation")
           "Resource deleted successfully" Scenario.uploaded_worksheet).
  - vm_compute. reflexivity.
  - reflexivity.
  - vm_compute. reflexivity.
Defined.
